(** * Report emitters of robot.reporting and the Rebot entry point

    A shallow embedding of

      - [src/robot/reporting/monitorlogwriter.py]  (xUnit-style emitter),
      - [src/robot/reporting/azurelogwriter.py]    (ingestion emitter and
        the signing client),
      - [src/robot/rebot.py]                       ([Rebot.main]),

    together with the models of the Python built-ins these files call
    (slicing, [str], [repr], [json.dumps], [base64], [hmac], [hashlib]).

    Conventions.  A Python [str] is a [string] whose characters are the code
    points 0..255.  A Python [int] is a [Z].  A Python [bytes] is a list of
    [Z] in 0..255.  An attribute that may be [None] is an [option]. *)

From Stdlib Require Import ZArith List String Ascii Bool Lia.
From Stdlib Require Import Numbers.DecimalString Numbers.DecimalZ.
Import ListNotations.

Set Warnings "-register-all".

Local Open Scope string_scope.
Local Open Scope Z_scope.

(** ** Python built-ins on strings *)

Module Py.

(** [s[lo:hi]] for non-negative literal bounds: Python clamps both bounds to
    the length of [s], so a slice never fails and may be shorter than
    [hi - lo]. *)
Definition slice (lo hi : nat) (s : string) : string :=
  substring lo (hi - lo) s.

(** [str(n)] for an [int]. *)
Definition str_int (n : Z) : string :=
  NilEmpty.string_of_int (Z.to_int n).

(** Truth value of an optional string: [None] and [''] are falsy. *)
Definition truthy (s : option string) : bool :=
  match s with
  | None => false
  | Some EmptyString => false
  | Some (String _ _) => true
  end.

(** [len(s)]. *)
Definition len (s : string) : Z := Z.of_nat (String.length s).

(** Division rounded to the nearest integer, a tie going to the even
    neighbour, for a positive divisor. *)
Definition round_half_even (p q : Z) : Z :=
  let d := p / q in
  let rest := p mod q in
  if 2 * rest <? q then d
  else if q <? 2 * rest then d + 1
  else if Z.even d then d else d + 1.

(** [a / 1000] for a positive [int] [a]: true division of two ints gives
    the double nearest to the quotient, ties to even.  The double is
    returned as mantissa [n] and exponent [e], its value being [n * 2^e],
    with the exponent chosen so that the quotient scaled by [2^-e] lies
    between [2^52] and [2^53]. *)
Definition nearest_double_of_thousandths (a : Z) : Z * Z :=
  let scaled (e : Z) :=
    if e <? 0 then (a * 2 ^ (- e), 1000) else (a, 1000 * 2 ^ e) in
  let e0 := Z.log2 a - 62 in
  let e := if fst (scaled e0) <? 2 ^ 53 * snd (scaled e0) then e0 else e0 + 1 in
  (round_half_even (fst (scaled e)) (snd (scaled e)), e).

Definition pad3 (n : Z) : string :=
  (if n <? 10 then "00" else if n <? 100 then "0" else "") ++ str_int n.

(** ['{:.3f}'.format(m / 1000)] for an [int] [m]: the quotient is first
    rounded to a double, and the format then rounds the exact value of
    that double to three places, ties to even, and writes sign, integer
    part, point and three digits.  Above the largest double, for [m]
    beyond about 1.7e311, the division raises [OverflowError]; that case
    is not modelled, and the properties that state a time are stated
    below a bound far under it. *)
Definition format_3f_thousandths (m : Z) : string :=
  let a := Z.abs m in
  if a =? 0 then "0.000"
  else
    let (n, e) := nearest_double_of_thousandths a in
    let r := if 0 <=? e then n * 2 ^ e * 1000
             else round_half_even (n * 1000) (2 ^ (- e)) in
    (if m <? 0 then "-" else "") ++ str_int (r / 1000) ++ "." ++ pad3 (r mod 1000).

(** The exceptions that reach the embedded code: the two of
    [base64.b64decode], the framework's [DataError] with its message, and
    whatever [requests.post] raises when no response arrives. *)
Inductive exn : Type :=
  | ValueError
  | BinasciiError
  | DataError (message : string)
  | RequestException (message : string).

(** The values that the emitters put into records.  A [dict] keeps its
    insertion order, which both [repr] and [json.dumps] follow. *)
Inductive value : Type :=
  | VNone
  | VInt (n : Z)
  | VStr (s : string)
  | VList (elems : list value)
  | VDict (items : list (string * value)).

(** [d.get(key)] on the items of a dict. *)
Fixpoint lookup (key : string) (items : list (string * value)) : option value :=
  match items with
  | [] => None
  | (k, v) :: rest => if String.eqb k key then Some v else lookup key rest
  end.

Definition code (c : ascii) : Z := Z.of_N (N_of_ascii c).

Definition dquote : ascii := "034"%char.
Definition squote : ascii := "039"%char.
Definition backslash : ascii := "092"%char.

Definition hex_digit (v : Z) : ascii :=
  match String.get (Z.to_nat v) "0123456789abcdef" with
  | Some c => c
  | None => "0"%char
  end.

Definition hex2 (c : Z) : string :=
  String (hex_digit (Z.shiftr c 4)) (String (hex_digit (Z.land c 15)) "").

(** A backslash followed by the given text. *)
Definition esc (s : string) : string := String backslash s.

Fixpoint contains (c : ascii) (s : string) : bool :=
  match s with
  | EmptyString => false
  | String d rest => Ascii.eqb c d || contains c rest
  end.

(** [repr(s)] of a [str]: single quotes unless the text has a single and no
    double quote; the quote and the backslash are escaped, tab, newline and
    return have their letters, other non-printable characters are [\xhh]. *)
Definition repr_quote (s : string) : ascii :=
  if contains squote s && negb (contains dquote s) then dquote else squote.

Definition repr_char (q : ascii) (ch : ascii) : string :=
  let c := code ch in
  if Ascii.eqb ch q || Ascii.eqb ch backslash then esc (String ch "")
  else if c =? 9 then esc "t"
  else if c =? 10 then esc "n"
  else if c =? 13 then esc "r"
  else if (c <? 32) || (c =? 127) then esc ("x" ++ hex2 c)
  else if c <? 127 then String ch ""
  else if ((128 <=? c) && (c <=? 160)) || (c =? 173) then esc ("x" ++ hex2 c)
  else String ch "".

Fixpoint repr_chars (q : ascii) (s : string) : string :=
  match s with
  | EmptyString => ""
  | String ch rest => repr_char q ch ++ repr_chars q rest
  end.

Definition repr_str (s : string) : string :=
  let q := repr_quote s in
  String q (repr_chars q s) ++ String q "".

(** [repr(v)], which is also what ['{}'.format(v)] and [str(v)] give for
    every value except a [str], where they give the text itself. *)
Fixpoint repr (v : value) : string :=
  match v with
  | VNone => "None"
  | VInt n => str_int n
  | VStr s => repr_str s
  | VList elems => "[" ++ String.concat ", " (map repr elems) ++ "]"
  | VDict items =>
      "{" ++ String.concat ", "
               (map (fun kv => repr_str (fst kv) ++ ": " ++ repr (snd kv)) items)
          ++ "}"
  end.

Definition str (v : value) : string :=
  match v with
  | VStr s => s
  | _ => repr v
  end.

(** [json.dumps(v)] with its defaults: ASCII only, [", "] and [": "]. *)
Definition json_char (ch : ascii) : string :=
  let c := code ch in
  if c =? 34 then esc (String dquote "")
  else if c =? 92 then esc (String backslash "")
  else if c =? 8 then esc "b"
  else if c =? 12 then esc "f"
  else if c =? 10 then esc "n"
  else if c =? 13 then esc "r"
  else if c =? 9 then esc "t"
  else if (32 <=? c) && (c <=? 126) then String ch ""
  else esc ("u00" ++ hex2 c).

Fixpoint json_chars (s : string) : string :=
  match s with
  | EmptyString => ""
  | String ch rest => json_char ch ++ json_chars rest
  end.

Definition json_str (s : string) : string :=
  String dquote (json_chars s) ++ String dquote "".

Fixpoint json_dumps (v : value) : string :=
  match v with
  | VNone => "null"
  | VInt n => str_int n
  | VStr s => json_str s
  | VList elems => "[" ++ String.concat ", " (map json_dumps elems) ++ "]"
  | VDict items =>
      "{" ++ String.concat ", "
               (map (fun kv => json_str (fst kv) ++ ": " ++ json_dumps (snd kv)) items)
          ++ "}"
  end.

End Py.

(** ** Bytes, UTF-8 and the digest primitives

    Models of [bytes(s, encoding="utf-8")], [hashlib.sha256] (FIPS 180-4),
    [hmac.new(key, msg, sha256).digest()] (RFC 2104) and of
    [base64.b64encode] / [base64.b64decode] (RFC 4648, with CPython's
    lenient decoder).  None of these belongs to the repository; they are
    written out so that the signature can be evaluated. *)

Module Bytes.

Definition code (c : ascii) : Z := Py.code c.
Definition chr (z : Z) : ascii := ascii_of_N (Z.to_N (z mod 256)).

Definition codes (s : string) : list Z := map code (list_ascii_of_string s).
Definition of_codes (l : list Z) : string := string_of_list_ascii (map chr l).

(** UTF-8 of one code point below 256: one byte up to 0x7f, two above.
    The strings of this development hold code points 0 to 255 only, and
    UTF-8 encodes each of them; the [UnicodeEncodeError] that
    [bytes(text, encoding="utf-8")] raises on a lone surrogate lies
    outside them and is not modelled. *)
Definition utf8_char (c : Z) : list Z :=
  if c <? 128 then [c]
  else [Z.lor 0xC0 (Z.shiftr c 6); Z.lor 0x80 (Z.land c 0x3F)].

Definition utf8 (s : string) : list Z := flat_map utf8_char (codes s).

End Bytes.

Module Hashlib.

Definition w32 (x : Z) : Z := Z.land x 0xFFFFFFFF.
Definition add32 (x y : Z) : Z := w32 (x + y).
Definition rotr (n x : Z) : Z :=
  Z.lor (Z.shiftr x n) (w32 (Z.shiftl x (32 - n))).
Definition shr (n x : Z) : Z := Z.shiftr x n.
Definition not32 (x : Z) : Z := Z.lxor x 0xFFFFFFFF.

Definition Ch (x y z : Z) : Z := Z.lxor (Z.land x y) (Z.land (not32 x) z).
Definition Maj (x y z : Z) : Z :=
  Z.lxor (Z.land x y) (Z.lxor (Z.land x z) (Z.land y z)).
Definition Sigma0 (x : Z) : Z := Z.lxor (rotr 2 x) (Z.lxor (rotr 13 x) (rotr 22 x)).
Definition Sigma1 (x : Z) : Z := Z.lxor (rotr 6 x) (Z.lxor (rotr 11 x) (rotr 25 x)).
Definition sigma0 (x : Z) : Z := Z.lxor (rotr 7 x) (Z.lxor (rotr 18 x) (shr 3 x)).
Definition sigma1 (x : Z) : Z := Z.lxor (rotr 17 x) (Z.lxor (rotr 19 x) (shr 10 x)).

(** The constants are derived the way FIPS 180-4 defines them: the first
    32 bits of the fractional parts of the cube roots of the first 64
    primes, and of the square roots of the first 8 primes. *)
Definition is_prime (n : Z) : bool :=
  forallb (fun d => negb (n mod d =? 0)) (map Z.of_nat (seq 2 (Z.to_nat n - 2))).

Definition primes (count : nat) : list Z :=
  firstn count (filter is_prime (map Z.of_nat (seq 2 310))).

Definition icbrt (n : Z) : Z :=
  fold_left (fun r b => let r' := r + 2 ^ b in
                        if r' * r' * r' <=? n then r' else r)
            (map Z.of_nat (rev (seq 0 36))) 0.

Definition K256 : list Z :=
  map (fun p => w32 (icbrt (p * 2 ^ 96))) (primes 64).

Definition H0 : list Z :=
  map (fun p => w32 (Z.sqrt (p * 2 ^ 64))) (primes 8).

(** Big-endian encodings. *)
Definition be32 (x : Z) : list Z :=
  [Z.land (Z.shiftr x 24) 255; Z.land (Z.shiftr x 16) 255;
   Z.land (Z.shiftr x 8) 255; Z.land x 255].

Definition be64 (x : Z) : list Z := (be32 (Z.shiftr x 32) ++ be32 (w32 x))%list.

Fixpoint words (fuel : nat) (bs : list Z) : list Z :=
  match fuel, bs with
  | S fuel', b0 :: b1 :: b2 :: b3 :: rest =>
      (Z.shiftl b0 24 + Z.shiftl b1 16 + Z.shiftl b2 8 + b3) :: words fuel' rest
  | _, _ => []
  end.

(** Message padding: 0x80, zeros up to 56 mod 64, then the bit length. *)
Definition pad (msg : list Z) : list Z :=
  let n := Z.of_nat (List.length msg) in
  let zeros := Z.to_nat ((55 - n) mod 64) in
  (msg ++ [0x80] ++ repeat 0 zeros ++ be64 (8 * n))%list.

(** The message schedule, kept newest first while it grows. *)
Fixpoint schedule (k : nat) (rev_w : list Z) : list Z :=
  match k with
  | O => rev rev_w
  | S k' =>
      let w2 := nth 1 rev_w 0 in
      let w7 := nth 6 rev_w 0 in
      let w15 := nth 14 rev_w 0 in
      let w16 := nth 15 rev_w 0 in
      schedule k' (add32 (add32 (sigma1 w2) w7) (add32 (sigma0 w15) w16) :: rev_w)
  end.

Definition round (st : list Z) (kw : Z * Z) : list Z :=
  match st with
  | [a; b; c; d; e; f; g; h] =>
      let t1 := add32 (add32 (add32 h (Sigma1 e)) (add32 (Ch e f g) (fst kw))) (snd kw) in
      let t2 := add32 (Sigma0 a) (Maj a b c) in
      [add32 t1 t2; a; b; c; add32 d t1; e; f; g]
  | _ => st
  end.

Definition compress (h : list Z) (block : list Z) : list Z :=
  let w := schedule 48 (rev (words 16 block)) in
  map (fun p => add32 (fst p) (snd p)) (combine h (fold_left round (combine K256 w) h)).

Fixpoint blocks (fuel : nat) (h : list Z) (bs : list Z) : list Z :=
  match fuel with
  | O => h
  | S fuel' =>
      match bs with
      | [] => h
      | _ => blocks fuel' (compress h (firstn 64 bs)) (skipn 64 bs)
      end
  end.

Definition sha256 (msg : list Z) : list Z :=
  let p := pad msg in
  flat_map be32 (blocks (List.length p) H0 p).

End Hashlib.

Module Hmac.

Definition block_size : nat := 64.

Definition hmac_sha256 (key msg : list Z) : list Z :=
  let k0 := if (Nat.ltb block_size (List.length key)) then Hashlib.sha256 key else key in
  let k := (k0 ++ repeat 0 (block_size - List.length k0))%list in
  let ipad := map (fun b => Z.lxor b 0x36) k in
  let opad := map (fun b => Z.lxor b 0x5C) k in
  Hashlib.sha256 (opad ++ Hashlib.sha256 (ipad ++ msg))%list.

End Hmac.

Module Base64.

Definition alphabet : string :=
  "ABCDEFGHIJKLMNOPQRSTUVWXYZabcdefghijklmnopqrstuvwxyz0123456789+/".

Definition enc (v : Z) : ascii :=
  match String.get (Z.to_nat v) alphabet with
  | Some c => c
  | None => "="%char
  end.

Definition dec (c : Z) : option Z :=
  if (65 <=? c) && (c <=? 90) then Some (c - 65)
  else if (97 <=? c) && (c <=? 122) then Some (c - 71)
  else if (48 <=? c) && (c <=? 57) then Some (c + 4)
  else if c =? 43 then Some 62
  else if c =? 47 then Some 63
  else None.

Fixpoint b64encode (bs : list Z) : string :=
  match bs with
  | [] => ""
  | [a] =>
      String (enc (Z.shiftr a 2))
        (String (enc (Z.shiftl (Z.land a 3) 4)) "==")
  | [a; b] =>
      String (enc (Z.shiftr a 2))
        (String (enc (Z.lor (Z.shiftl (Z.land a 3) 4) (Z.shiftr b 4)))
           (String (enc (Z.shiftl (Z.land b 15) 2)) "="))
  | a :: b :: c :: rest =>
      String (enc (Z.shiftr a 2))
        (String (enc (Z.lor (Z.shiftl (Z.land a 3) 4) (Z.shiftr b 4)))
           (String (enc (Z.lor (Z.shiftl (Z.land b 15) 2) (Z.shiftr c 6)))
              (String (enc (Z.land c 63)) (b64encode rest))))
  end.

(** The decoder of [binascii.a2b_base64] in its default, non-strict mode:
    characters outside the alphabet are skipped, a complete run of padding
    ends the input, and leftover sextets are an error. *)
Record state := { quad_pos : Z; leftchar : Z; pads : Z; out : list Z }.

Fixpoint a2b (cs : list Z) (st : state) : option (list Z) :=
  match cs with
  | [] => if quad_pos st =? 0 then Some (rev (out st)) else None
  | c :: cs' =>
      if c =? 61 then
        if 2 <=? quad_pos st then
          if 4 <=? quad_pos st + (pads st + 1) then Some (rev (out st))
          else a2b cs' {| quad_pos := quad_pos st; leftchar := leftchar st;
                          pads := pads st + 1; out := out st |}
        else a2b cs' st
      else
        match dec c with
        | None => a2b cs' st
        | Some v =>
            if quad_pos st =? 0 then
              a2b cs' {| quad_pos := 1; leftchar := v; pads := 0; out := out st |}
            else if quad_pos st =? 1 then
              a2b cs' {| quad_pos := 2; leftchar := Z.land v 15; pads := 0;
                         out := Z.lor (Z.shiftl (leftchar st) 2) (Z.shiftr v 4) :: out st |}
            else if quad_pos st =? 2 then
              a2b cs' {| quad_pos := 3; leftchar := Z.land v 3; pads := 0;
                         out := Z.lor (Z.shiftl (leftchar st) 4) (Z.shiftr v 2) :: out st |}
            else
              a2b cs' {| quad_pos := 0; leftchar := 0; pads := 0;
                         out := Z.lor (Z.shiftl (leftchar st) 6) v :: out st |}
        end
  end.

(** [base64.b64decode(s)] for a [str] argument: a character outside ASCII
    is a [ValueError], a malformed encoding a [binascii.Error]. *)
Definition b64decode (s : string) : Py.exn + list Z :=
  let cs := Bytes.codes s in
  if forallb (fun c => c <? 128) cs
  then match a2b cs {| quad_pos := 0; leftchar := 0; pads := 0; out := [] |} with
       | Some bs => inr bs
       | None => inl Py.BinasciiError
       end
  else inl Py.ValueError.

End Base64.


(** ** The result tree

    The tree itself is built by code outside these three files.  What
    follows gives each node the attributes that the emitters read. *)

Module Keyword.

(** Modelled from the spec: the Keyword of the data model (name, status,
    tags, child keywords); its class is not among the files embedded. *)
Inductive t : Type :=
  | Make (name status : string) (tags : list string) (body : list t).

End Keyword.

Module Statistics.

(** Modelled from the spec: the counts that [suite.statistics] yields; the
    class that computes them is not among the files embedded. *)
Record t : Type := Make { total : Z; passed : Z; failed : Z; skipped : Z }.

End Statistics.

Module Parent.

(** What a test's back-reference [test.parent] lets an emitter read. *)
Record t : Type := Make { longname : string }.

End Parent.

Module Test.

Inductive Status : Type := PASS | FAIL | SKIP.

(** Modelled from the spec: the Test of the data model; its class is not
    among the files embedded. *)
Record t : Type := Make {
  name : string;
  longname : string;
  parent : Parent.t;
  status : Status;
  message : string;
  elapsedtime : Z;
  tags : list string;
  body : list Keyword.t
}.

(** Modelled from the spec: the flags [test.failed] and [test.skipped]
    read the status. *)
Definition failed (x : t) : bool :=
  match status x with FAIL => true | _ => false end.

Definition skipped (x : t) : bool :=
  match status x with SKIP => true | _ => false end.

End Test.

Module Suite.

(** Modelled from the spec: the Suite of the data model, with its ordered
    sequence of child suites and tests; its class is not among the files
    embedded. *)
Inductive t : Type :=
  | Make (name longname doc : string) (metadata : list (string * string))
         (starttime endtime : option string) (elapsedtime : Z)
         (statistics : Statistics.t) (children : seq)
with seq : Type :=
  | Empty
  | ThenSuite (s : t) (rest : seq)
  | ThenTest (x : Test.t) (rest : seq).

Scheme t_seq_ind := Induction for t Sort Prop
  with seq_t_ind := Induction for seq Sort Prop.
Combined Scheme tree_ind from t_seq_ind, seq_t_ind.

Definition name (s : t) : string :=
  match s with Make n _ _ _ _ _ _ _ _ => n end.
Definition longname (s : t) : string :=
  match s with Make _ n _ _ _ _ _ _ _ => n end.
Definition starttime (s : t) : option string :=
  match s with Make _ _ _ _ st _ _ _ _ => st end.
Definition elapsedtime (s : t) : Z :=
  match s with Make _ _ _ _ _ _ e _ _ => e end.
Definition statistics (s : t) : Statistics.t :=
  match s with Make _ _ _ _ _ _ _ st _ => st end.
Definition children (s : t) : seq :=
  match s with Make _ _ _ _ _ _ _ _ c => c end.

(** The tests that are direct children of a suite, in stored order. *)
Fixpoint own_tests (c : seq) : list Test.t :=
  match c with
  | Empty => []
  | ThenSuite _ rest => own_tests rest
  | ThenTest x rest => x :: own_tests rest
  end.

(** All suites of a subtree in the order they are left, and all its tests
    in the order they are visited. *)
Fixpoint suites_left (s : t) : list t :=
  match s with
  | Make _ _ _ _ _ _ _ _ c => (suites_left_seq c ++ [s])%list
  end
with suites_left_seq (c : seq) : list t :=
  match c with
  | Empty => []
  | ThenSuite s rest => (suites_left s ++ suites_left_seq rest)%list
  | ThenTest _ rest => suites_left_seq rest
  end.

Fixpoint all_tests (s : t) : list Test.t :=
  match s with
  | Make _ _ _ _ _ _ _ _ c => all_tests_seq c
  end
with all_tests_seq (c : seq) : list Test.t :=
  match c with
  | Empty => []
  | ThenSuite s rest => (all_tests s ++ all_tests_seq rest)%list
  | ThenTest x rest => x :: all_tests_seq rest
  end.

End Suite.

Module ExecutionResult.

Record t : Type := Make {
  suite : Suite.t;
  statistics : Statistics.t;
  errors : list string
}.

End ExecutionResult.

(** ** The world the emitters act on

    The finalized tree, the records handed to loggers, the requests handed
    to [requests.post], and the two things the environment decides: what
    each request comes back with and what the clock reads. *)

Module Http.

Record Request : Type := MakeRequest {
  uri : string;
  data : string;
  headers : list (string * string)
}.

Record Response : Type := MakeResponse {
  status_code : Z;
  reason : string;
  text : string
}.

(** [requests.post] either returns a response, of any status, or raises. *)
Inductive Reply : Type :=
  | Answered (r : Response)
  | Failed (e : Py.exn).

End Http.

Module Logging.

Inductive Level : Type := INFO | ERROR.

Record Record_ : Type := MakeRecord {
  logger : string;
  level : Level;
  msg : Py.value
}.

End Logging.

Record World : Type := MakeWorld {
  tree : ExecutionResult.t;
  records : list Logging.Record_;
  requests : list Http.Request;
  network : nat -> Http.Request -> Http.Reply;
  utcnow : nat -> string
}.

(** A call either returns a value or raises; the world goes on from where
    the call left it in both cases. *)
Inductive outcome (A : Type) : Type :=
  | Returned (a : A) (w : World)
  | Raised (e : Py.exn) (w : World).

Arguments Returned {A} a w.
Arguments Raised {A} e w.

Definition M (A : Type) : Type := World -> outcome A.

Definition ret {A : Type} (a : A) : M A := fun w => Returned a w.

Definition bind {A B : Type} (c : M A) (k : A -> M B) : M B :=
  fun w =>
    match c w with
    | Returned a w' => k a w'
    | Raised e w' => Raised e w'
    end.

Definition raise {A : Type} (e : Py.exn) : M A := fun w => Raised e w.

Notation "x <- c ;; k" := (bind c (fun x => k))
  (at level 61, c at next level, right associativity).

Definition final {A : Type} (o : outcome A) : World :=
  match o with
  | Returned _ w => w
  | Raised _ w => w
  end.

Definition returns {A : Type} (o : outcome A) : bool :=
  match o with
  | Returned _ _ => true
  | Raised _ _ => false
  end.

(** An outcome with its world transformed. *)
Definition in_world {A : Type} (f : World -> World) (o : outcome A) : outcome A :=
  match o with
  | Returned a w => Returned a (f w)
  | Raised e w => Raised e (f w)
  end.

(** [logging.Logger]: both emitters set their logger to level INFO, so
    every [info] and [error] call reaches the handlers. *)
Module Logger.

Definition emit (name : string) (lvl : Logging.Level) (m : Py.value) : M unit :=
  fun w =>
    Returned tt
      {| tree := tree w;
         records := (records w ++ [Logging.MakeRecord name lvl m])%list;
         requests := requests w;
         network := network w;
         utcnow := utcnow w |}.

Definition info (name : string) (m : Py.value) : M unit := emit name Logging.INFO m.
Definition error (name : string) (m : Py.value) : M unit := emit name Logging.ERROR m.

End Logger.

(** [requests.post(uri, data=body, headers=headers)]: the request goes
    out, and the environment replies. *)
Module Requests.

Definition post (uri body : string) (headers : list (string * string))
  : M Http.Response :=
  fun w =>
    let q := Http.MakeRequest uri body headers in
    let w' := {| tree := tree w;
                 records := records w;
                 requests := (requests w ++ [q])%list;
                 network := network w;
                 utcnow := utcnow w |} in
    match network w (List.length (requests w)) q with
    | Http.Answered r => Returned r w'
    | Http.Failed e => Raised e w'
    end.

End Requests.

(** [datetime.datetime.utcnow().strftime('%a, %d %b %Y %H:%M:%S GMT')]:
    the clock is read once per request, so it is indexed by the number of
    requests already made. *)
Definition rfc1123_now : M string :=
  fun w => Returned (utcnow w (List.length (requests w))) w.

(** ** Visitor dispatch

    Modelled from the spec: the traversal contract of the visitor
    framework ([robot.result.ResultVisitor] is not among the files
    embedded).  Enter-suite fires before the children, the children are
    visited in stored order, leave-suite fires after them; statistics,
    errors and end-of-result fire once for the whole tree. *)

Module ResultVisitor.

Class Hooks (V : Type) : Type := {
  start_suite : V -> Suite.t -> M V;
  end_suite : V -> Suite.t -> M V;
  visit_test : V -> Test.t -> M V;
  visit_keyword : V -> Keyword.t -> M V;
  visit_statistics : V -> Statistics.t -> M V;
  visit_errors : V -> list string -> M V;
  end_result : V -> ExecutionResult.t -> M V
}.

Section Traversal.

Context {V : Type} `{Hooks V}.

Fixpoint visit_suite (s : Suite.t) (v : V) {struct s} : M V :=
  match s with
  | Suite.Make _ _ _ _ _ _ _ _ c =>
      v1 <- start_suite v s ;;
      v2 <- visit_children c v1 ;;
      end_suite v2 s
  end
with visit_children (c : Suite.seq) (v : V) {struct c} : M V :=
  match c with
  | Suite.Empty => ret v
  | Suite.ThenSuite s rest =>
      v1 <- visit_suite s v ;;
      visit_children rest v1
  | Suite.ThenTest x rest =>
      v1 <- visit_test v x ;;
      visit_children rest v1
  end.

Definition visit_result (r : ExecutionResult.t) (v : V) : M V :=
  v1 <- visit_statistics v (ExecutionResult.statistics r) ;;
  v2 <- visit_suite (ExecutionResult.suite r) v1 ;;
  v3 <- visit_errors v2 (ExecutionResult.errors r) ;;
  end_result v3 r.

End Traversal.

End ResultVisitor.

(** ** monitorlogwriter.py *)

Module MonitorLogWriterWorker.

Record t : Type := Make { _writer : string }.

Definition __init__ (log_writer : string) : t := Make log_writer.

Definition _get_stats (statistics : Statistics.t) : string * string * string :=
  (Py.str_int (Statistics.total statistics),
   Py.str_int (Statistics.failed statistics),
   Py.str_int (Statistics.skipped statistics)).

Definition _time_as_seconds (millis : Z) : string :=
  Py.format_3f_thousandths millis.

Definition _starttime_to_isoformat (stime : option string) : Py.value :=
  if negb (Py.truthy stime) then Py.VNone
  else
    match stime with
    | None => Py.VNone
    | Some s =>
        Py.VStr (Py.slice 0 4 s ++ "-" ++ Py.slice 4 6 s ++ "-" ++
                 Py.slice 6 8 s ++ "T" ++ Py.slice 9 22 s ++ "000")
    end.

(** The dict that [start_suite] builds. *)
Definition suite_attrs (suite : Suite.t) : Py.value :=
  let '(tests, failures, skipped) := _get_stats (Suite.statistics suite) in
  Py.VDict [("name", Py.VStr (Suite.name suite));
            ("tests", Py.VStr tests);
            ("errors", Py.VStr "0");
            ("failures", Py.VStr failures);
            ("skipped", Py.VStr skipped);
            ("time", Py.VStr (_time_as_seconds (Suite.elapsedtime suite)));
            ("timestamp", _starttime_to_isoformat (Suite.starttime suite))].

Definition start_suite (self : t) (suite : Suite.t) : M t :=
  let attrs := suite_attrs suite in
  _ <- Logger.info (_writer self) (Py.VStr ("testsuite " ++ Py.str attrs)) ;;
  ret self.

Definition end_suite (self : t) (suite : Suite.t) : M t := ret self.

Definition visit_test (self : t) (test : Test.t) : M t :=
  _ <- Logger.info (_writer self)
         (Py.VStr ("testcase: " ++ Py.str
            (Py.VDict [("classname", Py.VStr (Parent.longname (Test.parent test)));
                       ("name", Py.VStr (Test.name test));
                       ("time", Py.VStr (_time_as_seconds (Test.elapsedtime test)))]))) ;;
  _ <- (if Test.failed test then
          Logger.info (_writer self)
            (Py.VStr ("failure: " ++ Py.str
               (Py.VDict [("message", Py.VStr (Test.message test));
                          ("type", Py.VStr "AssertionError")])))
        else ret tt) ;;
  _ <- (if Test.skipped test then
          Logger.info (_writer self)
            (Py.VStr ("skipped: " ++ Py.str
               (Py.VDict [("message", Py.VStr (Test.message test));
                          ("type", Py.VStr "SkipExecution")])))
        else ret tt) ;;
  ret self.

Definition visit_keyword (self : t) (kw : Keyword.t) : M t := ret self.
Definition visit_statistics (self : t) (stats : Statistics.t) : M t := ret self.
Definition visit_errors (self : t) (errors : list string) : M t := ret self.
Definition end_result (self : t) (result : ExecutionResult.t) : M t := ret self.

#[global] Instance hooks : ResultVisitor.Hooks t := {
  ResultVisitor.start_suite := start_suite;
  ResultVisitor.end_suite := end_suite;
  ResultVisitor.visit_test := visit_test;
  ResultVisitor.visit_keyword := visit_keyword;
  ResultVisitor.visit_statistics := visit_statistics;
  ResultVisitor.visit_errors := visit_errors;
  ResultVisitor.end_result := end_result
}.

End MonitorLogWriterWorker.

Module MonitorLogWriter.

(** [write]: the logger named after the output file gets level INFO and a
    file handler, then the worker makes its pass over the result. *)
Definition write (output : string) : M unit :=
  fun w =>
    let writer := MonitorLogWriterWorker.__init__ output in
    (_ <- ResultVisitor.visit_result (tree w) writer ;; ret tt) w.

End MonitorLogWriter.

(** ** azurelogwriter.py *)

Module AzureLogPublisher.

Record t : Type := Make {
  logger : string;
  customer_id : string;
  shared_key : string;
  log_type : string
}.

Definition __init__ (logger customer_id shared_key log_type : string) : t :=
  Make logger customer_id shared_key log_type.

Definition newline : string := String "010"%char "".

(** ["{}\n{}\n{}\n{}\n{}".format(method, content_length, content_type,
    x_headers, resource)]. *)
Definition string_to_hash (method : string) (content_length : Z)
    (content_type x_headers resource : string) : string :=
  method ++ newline ++ Py.str_int content_length ++ newline ++
  content_type ++ newline ++ x_headers ++ newline ++ resource.

Definition build_signature (self : t) (date : string) (content_length : Z)
    (method content_type resource : string) : Py.exn + string :=
  let x_headers := "x-ms-date:" ++ date in
  let string_to_hash :=
    string_to_hash method content_length content_type x_headers resource in
  let bytes_to_hash := Bytes.utf8 string_to_hash in
  match Base64.b64decode (shared_key self) with
  | inl e => inl e
  | inr decoded_key =>
      let encoded_hash :=
        Base64.b64encode (Hmac.hmac_sha256 decoded_key bytes_to_hash) in
      let authorization :=
        "SharedKey " ++ customer_id self ++ ":" ++ encoded_hash in
      inr authorization
  end.

Definition post_data (self : t) (body : string) (log_type : string) : M unit :=
  let method := "POST" in
  let content_type := "application/json" in
  let resource := "/api/logs" in
  rfc1123date <- rfc1123_now ;;
  let content_length := Py.len body in
  match build_signature self rfc1123date content_length method content_type resource with
  | inl e => raise e
  | inr signature =>
      let uri := "https://" ++ customer_id self ++ ".ods.opinsights.azure.com" ++
                 resource ++ "?api-version=2016-04-01" in
      let headers := [("content-type", content_type);
                      ("Authorization", signature);
                      ("Log-Type", log_type);
                      ("x-ms-date", rfc1123date)] in
      response <- Requests.post uri body headers ;;
      if (200 <=? Http.status_code response) && (Http.status_code response <=? 299)
      then Logger.info (logger self) (Py.VStr "Accepted")
      else Logger.error (logger self)
             (Py.VStr ("Response code: " ++ Py.str_int (Http.status_code response) ++
                       " " ++ Http.reason response ++ " " ++ Http.text response))
  end.

End AzureLogPublisher.

Module AzureLogWriterVisitor.

Record t : Type := Make {
  _writer : string;
  azure_publisher : AzureLogPublisher.t;
  testcases : list Py.value
}.

Definition __init__ (log_writer : string) (azure_publisher : AzureLogPublisher.t) : t :=
  Make log_writer azure_publisher [].

Definition start_suite (self : t) (suite : Suite.t) : M t := ret self.

Definition _get_stats (statistics : Statistics.t) : Z * Z * Z :=
  (Statistics.total statistics,
   Statistics.failed statistics,
   Statistics.skipped statistics).

Definition _time_as_seconds (millis : Z) : string :=
  Py.format_3f_thousandths millis.

Definition _starttime_to_isoformat (stime : option string) : Py.value :=
  if negb (Py.truthy stime) then Py.VNone
  else
    match stime with
    | None => Py.VNone
    | Some s =>
        Py.VStr (Py.slice 0 4 s ++ "-" ++ Py.slice 4 6 s ++ "-" ++
                 Py.slice 6 8 s ++ "T" ++ Py.slice 9 22 s ++ "000")
    end.

(** The dict that [end_suite] builds around the buffer it is given. *)
Definition suite_attrs (suite : Suite.t) (buffer : list Py.value) : Py.value :=
  let '(tests, failures, skipped) := _get_stats (Suite.statistics suite) in
  Py.VDict [("name", Py.VStr (Suite.name suite));
            ("tests", Py.VInt tests);
            ("failures", Py.VInt failures);
            ("skipped", Py.VInt skipped);
            ("time", Py.VStr (_time_as_seconds (Suite.elapsedtime suite)));
            ("timestamp", _starttime_to_isoformat (Suite.starttime suite));
            ("testcases", Py.VList buffer)].

Definition end_suite (self : t) (suite : Suite.t) : M t :=
  let attrs := suite_attrs suite (testcases self) in
  _ <- Logger.info (_writer self) (Py.VStr ("testsuite " ++ Py.json_dumps attrs)) ;;
  _ <- AzureLogPublisher.post_data (azure_publisher self)
         (Py.json_dumps (Py.VList [attrs]))
         (AzureLogPublisher.log_type (azure_publisher self)) ;;
  ret self.

(** The dict that [visit_test] builds. *)
Definition testcase_of (test : Test.t) : Py.value :=
  Py.VDict [("classname", Py.VStr (Parent.longname (Test.parent test)));
            ("name", Py.VStr (Test.name test));
            ("time", Py.VStr (_time_as_seconds (Test.elapsedtime test)));
            ("message", Py.VStr (Test.message test))].

Definition visit_test (self : t) (test : Test.t) : M t :=
  let message := Test.message test in
  let message :=
    if Test.failed test then message ++ ": AssertionError"
    else if Test.skipped test then message ++ ": SkipExecution"
    else message in
  let testcase := testcase_of test in
  _ <- Logger.info (_writer self) testcase ;;
  ret {| _writer := _writer self;
         azure_publisher := azure_publisher self;
         testcases := (testcases self ++ [testcase])%list |}.

Definition visit_keyword (self : t) (kw : Keyword.t) : M t := ret self.
Definition visit_statistics (self : t) (stats : Statistics.t) : M t := ret self.
Definition visit_errors (self : t) (errors : list string) : M t := ret self.
Definition end_result (self : t) (result : ExecutionResult.t) : M t := ret self.

#[global] Instance hooks : ResultVisitor.Hooks t := {
  ResultVisitor.start_suite := start_suite;
  ResultVisitor.end_suite := end_suite;
  ResultVisitor.visit_test := visit_test;
  ResultVisitor.visit_keyword := visit_keyword;
  ResultVisitor.visit_statistics := visit_statistics;
  ResultVisitor.visit_errors := visit_errors;
  ResultVisitor.end_result := end_result
}.

End AzureLogWriterVisitor.

Module AzureLogWriter.

Record Settings : Type := MakeSettings {
  customer_id : string;
  shared_key : string;
  log_type : string
}.

(** [write]: the logger named after the output file gets level INFO, a
    file handler and a console handler; the publisher and the visitor are
    built, then the visitor makes its pass over the result. *)
Definition write (output : string) (settings : Settings) : M unit :=
  fun w =>
    let azure_publisher :=
      AzureLogPublisher.__init__ output (customer_id settings)
        (shared_key settings) (log_type settings) in
    let writer := AzureLogWriterVisitor.__init__ output azure_publisher in
    (_ <- ResultVisitor.visit_result (tree w) writer ;; ret tt) w.

End AzureLogWriter.

(** ** rebot.py *)

Module Rebot.

(** Where [LOGGER.register_console_logger] gets its arguments from. *)
Inductive Registration (Stream Config : Type) : Type :=
  | FromOptions (stdout stderr : option Stream)
  | FromSettings (config : Config).

Arguments FromOptions {Stream Config} stdout stderr.
Arguments FromSettings {Stream Config} config.

(** The process state that [main] touches. *)
Record Process (Stream Config : Type) : Type := MakeProcess {
  console_loggers : list (Registration Stream Config);
  sys_path : list string;
  message_cache : bool
}.

Arguments MakeProcess {Stream Config} console_loggers sys_path message_cache.
Arguments console_loggers {Stream Config} p.
Arguments sys_path {Stream Config} p.
Arguments message_cache {Stream Config} p.

Section Main.

(** The collaborators of [main], none of them among the files embedded:
    the option dict with its two stream entries, [RebotSettings] with the
    two attributes read here, and [ResultWriter(...).write_results].
    [RebotSettings] and [write_results] may raise; reading the two
    attributes, [LOGGER.register_console_logger] and
    [LOGGER.disable_message_cache] are taken to return, and an exception
    from them is not modelled. *)
Variables Options Settings Stream Config : Type.
Variable get_stdout get_stderr : Options -> option Stream.
Variable RebotSettings : Options -> Py.exn + Settings.
Variable console_output_config : Settings -> Config.
Variable pythonpath : Settings -> list string.
Variable write_results :
  list string -> Settings -> Process Stream Config ->
  (Py.exn + Z) * Process Stream Config.

Definition register_console_logger (r : Registration Stream Config)
    (p : Process Stream Config) : Process Stream Config :=
  MakeProcess (console_loggers p ++ [r])%list (sys_path p) (message_cache p).

Definition main (datasources : list string) (options : Options)
    (p : Process Stream Config) : (Py.exn + Z) * Process Stream Config :=
  match RebotSettings options with
  | inl e =>
      (inl e,
       register_console_logger
         (FromOptions (get_stdout options) (get_stderr options)) p)
  | inr settings =>
      let p1 := register_console_logger
                  (FromSettings (console_output_config settings)) p in
      let p2 :=
        match pythonpath settings with
        | [] => p1
        | _ :: _ =>
            MakeProcess (console_loggers p1)
              (pythonpath settings ++ sys_path p1)%list (message_cache p1)
        end in
      let p3 := MakeProcess (console_loggers p2) (sys_path p2) false in
      match write_results datasources settings p3 with
      | (inl e, p4) => (inl e, p4)
      | (inr rc, p4) =>
          if rc <? 0 then (inl (Py.DataError "No outputs created."), p4)
          else (inr rc, p4)
      end
  end.

End Main.

End Rebot.

(** ** Reference definitions

    What the specification says in its own words, to be compared with the
    embedded code, and the notions in which the properties are stated. *)

Module Reference.

(** A decimal text read back as a number. *)
Definition int_of_str (s : string) : option Z :=
  option_map Z.of_int (NilEmpty.int_of_string s).

(** The canonical string to sign: METHOD, CONTENT-LENGTH, CONTENT-TYPE,
    ["x-ms-date:"] followed by DATE, and RESOURCE, joined by newlines. *)
Definition canonical_string (method : string) (content_length : Z)
    (content_type date resource : string) : string :=
  String.concat AzureLogPublisher.newline
    [method; Py.str_int content_length; content_type; "x-ms-date:" ++ date; resource].

(** The signature header: ["SharedKey <id>:<sig>"] with [<sig>] the
    base64 text of the HMAC-SHA256 digest of the canonical string under
    the decoded key. *)
Definition signature (customer_id : string) (key : list Z) (canonical : string)
  : string :=
  "SharedKey " ++ customer_id ++ ":" ++
  Base64.b64encode (Hmac.hmac_sha256 key (Bytes.utf8 canonical)).

(** The bodies of the POSTs of one pass of the ingestion emitter over a
    subtree, given the buffer it starts with: one per suite, when the
    suite is left, carrying the buffer as it then stands. *)
Fixpoint payloads (s : Suite.t) (buffer : list Py.value) : list string :=
  match s with
  | Suite.Make _ _ _ _ _ _ _ _ c =>
      (payloads_seq c buffer ++
       [Py.json_dumps
          (Py.VList
             [AzureLogWriterVisitor.suite_attrs s
                (buffer ++ map AzureLogWriterVisitor.testcase_of (Suite.all_tests_seq c))])])%list
  end
with payloads_seq (c : Suite.seq) (buffer : list Py.value) : list string :=
  match c with
  | Suite.Empty => []
  | Suite.ThenSuite s rest =>
      (payloads s buffer ++
       payloads_seq rest
         (buffer ++ map AzureLogWriterVisitor.testcase_of (Suite.all_tests s)))%list
  | Suite.ThenTest x rest =>
      payloads_seq rest (buffer ++ [AzureLogWriterVisitor.testcase_of x])%list
  end.

(** The process as [Rebot.main] hands it to [write_results]: the console
    logger registered from the settings, the python path of the settings
    put in front of the module path when it is not empty, the message
    cache off. *)
Definition ready_to_write {Stream Config : Type} (config : Config)
    (pythonpath : list string) (p : Rebot.Process Stream Config)
  : Rebot.Process Stream Config :=
  Rebot.MakeProcess
    (Rebot.console_loggers p ++ [Rebot.FromSettings config])%list
    (pythonpath ++ Rebot.sys_path p)%list
    false.

(** A digest in lower-case hexadecimal. *)
Definition hexdigest (bs : list Z) : string := String.concat "" (map Py.hex2 bs).

(** The fixed inputs of the signature property, with a key and a customer
    id chosen here: the key is the base64 text of [secret-shared-key]. *)
Definition fixed_publisher : AzureLogPublisher.t :=
  AzureLogPublisher.__init__ "azure.log" "workspace-1"
    "c2VjcmV0LXNoYXJlZC1rZXk=" "RobotLog".

Definition fixed_date : string := "Mon, 02 Jan 2024 03:04:05 GMT".

(** The value that Python's own [hmac], [hashlib] and [base64] give for
    the fixed inputs. *)
Definition fixed_signature : string :=
  "SharedKey workspace-1:fRsVcqtd56O/Wu1ZBA4TiENY11eB3d419NPjFu7uJm4=".

(** A world whose network answers every request with some response. *)
Definition answers (w : World) : Prop :=
  forall n q, exists r, network w n q = Http.Answered r.

(** A publisher whose shared key decodes. *)
Definition key_decodes (p : AzureLogPublisher.t) : Prop :=
  exists key, Base64.b64decode (AzureLogPublisher.shared_key p) = inr key.

(** The world after further records reached the loggers, and after
    further requests went out. *)
Definition logged (new : list Logging.Record_) (w : World) : World :=
  {| tree := tree w;
     records := (records w ++ new)%list;
     requests := requests w;
     network := network w;
     utcnow := utcnow w |}.

Definition sent (new : list Http.Request) (w : World) : World :=
  {| tree := tree w;
     records := records w;
     requests := (requests w ++ new)%list;
     network := network w;
     utcnow := utcnow w |}.

(** The world with some records placed before the ones it has. *)
Definition after_records (earlier : list Logging.Record_) (w : World) : World :=
  {| tree := tree w;
     records := (earlier ++ records w)%list;
     requests := requests w;
     network := network w;
     utcnow := utcnow w |}.

(** A world that differs from an earlier one by further records and
    further requests only. *)
Definition grown (w w' : World) : Prop :=
  exists new qs, w' = logged new (sent qs w).

(** The world with no record yet. *)
Definition no_records (w : World) : World :=
  {| tree := tree w;
     records := [];
     requests := requests w;
     network := network w;
     utcnow := utcnow w |}.

(** A number of milliseconds written as seconds with exactly three
    decimals: the sign if it is negative, the whole seconds in decimal
    without leading zeros, a point, and the three digits of the remaining
    milliseconds. *)
Definition digit (d : Z) : ascii := ascii_of_N (Z.to_N (48 + d)).

Definition three_digits (b : Z) : string :=
  String (digit (b / 100)) (String (digit (b / 10 mod 10)) (String (digit (b mod 10)) "")).

Definition exact_seconds (millis : Z) : string :=
  (if millis <? 0 then "-" else "") ++
  Py.str_int (Z.abs millis / 1000) ++ "." ++ three_digits (Z.abs millis mod 1000).

(** The timestamp of a record: absent for an absent or empty start time,
    otherwise the four slices of the text with their separators and the
    literal suffix. *)
Definition iso_timestamp (starttime : option string) : Py.value :=
  match starttime with
  | None => Py.VNone
  | Some EmptyString => Py.VNone
  | Some (String c s) =>
      let stime := String c s in
      Py.VStr (Py.slice 0 4 stime ++ "-" ++ Py.slice 4 6 stime ++ "-" ++
               Py.slice 6 8 stime ++ "T" ++ Py.slice 9 22 stime ++ "000")
  end.

(** The request of one POST: the endpoint of the customer, the body, and
    the four headers. *)
Definition request (customer_id : string) (key : list Z)
    (log_type date body : string) : Http.Request :=
  Http.MakeRequest
    ("https://" ++ customer_id ++
     ".ods.opinsights.azure.com/api/logs?api-version=2016-04-01")
    body
    [("content-type", "application/json");
     ("Authorization",
      signature customer_id key
        (canonical_string "POST" (Py.len body) "application/json" date "/api/logs"));
     ("Log-Type", log_type);
     ("x-ms-date", date)].

(** What is logged for a response: acceptance for a 2xx status, otherwise
    an error with the status code, the reason phrase and the body. *)
Definition response_record (logger : string) (r : Http.Response) : Logging.Record_ :=
  if (200 <=? Http.status_code r) && (Http.status_code r <=? 299)
  then Logging.MakeRecord logger Logging.INFO (Py.VStr "Accepted")
  else Logging.MakeRecord logger Logging.ERROR
         (Py.VStr ("Response code: " ++ Py.str_int (Http.status_code r) ++ " " ++
                   Http.reason r ++ " " ++ Http.text r)).

(** Two worlds with the same tree and the same environment. *)
Definition same_surroundings (w w' : World) : Prop :=
  tree w' = tree w /\ network w' = network w /\ utcnow w' = utcnow w.

(** The visitor after it buffered the records of further tests. *)
Definition buffered (v : AzureLogWriterVisitor.t) (tests : list Test.t)
  : AzureLogWriterVisitor.t :=
  {| AzureLogWriterVisitor._writer := AzureLogWriterVisitor._writer v;
     AzureLogWriterVisitor.azure_publisher := AzureLogWriterVisitor.azure_publisher v;
     AzureLogWriterVisitor.testcases :=
       (AzureLogWriterVisitor.testcases v
        ++ map AzureLogWriterVisitor.testcase_of tests)%list |}.

End Reference.

(** ** A small run

    A root suite [R] with two child suites, [A] holding the passed test
    [t1] and [B] holding the failed test [t2], emitted to a workspace
    whose every request gets the same reply. *)

Module Scenario.

Definition t1 : Test.t :=
  Test.Make "t1" "R.A.t1" (Parent.Make "R.A") Test.PASS "" 12 [] [].

Definition t2 : Test.t :=
  Test.Make "t2" "R.B.t2" (Parent.Make "R.B") Test.FAIL "boom" 34 [] [].

Definition A : Suite.t :=
  Suite.Make "A" "R.A" "" [] (Some "20240102 03:04:05.123")
    (Some "20240102 03:04:05.135") 12 (Statistics.Make 1 1 0 0)
    (Suite.ThenTest t1 Suite.Empty).

Definition B : Suite.t :=
  Suite.Make "B" "R.B" "" [] (Some "20240102 03:04:05.135")
    (Some "20240102 03:04:05.169") 34 (Statistics.Make 1 0 1 0)
    (Suite.ThenTest t2 Suite.Empty).

Definition R : Suite.t :=
  Suite.Make "R" "R" "" [] None None 46 (Statistics.Make 2 1 1 0)
    (Suite.ThenSuite A (Suite.ThenSuite B Suite.Empty)).

Definition result : ExecutionResult.t :=
  ExecutionResult.Make R (Suite.statistics R) [].

Definition world (reply : Http.Reply) : World :=
  {| tree := result;
     records := [];
     requests := [];
     network := fun _ _ => reply;
     utcnow := fun _ => Reference.fixed_date |}.

Definition settings : AzureLogWriter.Settings :=
  AzureLogWriter.MakeSettings "workspace-1" "c2VjcmV0LXNoYXJlZC1rZXk=" "RobotLog".

Definition accepted : Http.Reply := Http.Answered (Http.MakeResponse 200 "OK" "").

Definition server_error : Http.Reply :=
  Http.Answered (Http.MakeResponse 500 "Internal Server Error" "try later").

Definition unreachable : Http.Reply :=
  Http.Failed (Py.RequestException "connection refused").

End Scenario.

(** ** Notions for whole passes and requests *)

Module Pass.

(** The number of records that a pass of the xUnit-style emitter writes
    for a subtree: one per suite, one per test, and one more per failed
    and per skipped test. *)
Definition monitor_record_count (s : Suite.t) : nat :=
  (List.length (Suite.suites_left s)
   + List.length (Suite.all_tests s)
   + List.length (filter Test.failed (Suite.all_tests s))
   + List.length (filter Test.skipped (Suite.all_tests s)))%nat.

(** A record written by the logger of the given name at level INFO. *)
Definition info_from (name : string) (r : Logging.Record_) : Prop :=
  Logging.logger r = name /\ Logging.level r = Logging.INFO.

(** [headers.get(name)] on a request. *)
Fixpoint get (name : string) (headers : list (string * string)) : option string :=
  match headers with
  | [] => None
  | (k, v) :: rest => if String.eqb k name then Some v else get name rest
  end.

Definition header (name : string) (q : Http.Request) : option string :=
  get name (Http.headers q).

(** A request as a publisher makes them: addressed to the workspace of
    its customer id, of its log type, and signed by [build_signature]
    over the length of its own body and the date in its own header. *)
Definition made_by (p : AzureLogPublisher.t) (q : Http.Request) : Prop :=
  Http.uri q = "https://" ++ AzureLogPublisher.customer_id p ++
               ".ods.opinsights.azure.com/api/logs?api-version=2016-04-01"
  /\ header "content-type" q = Some "application/json"
  /\ header "Log-Type" q = Some (AzureLogPublisher.log_type p)
  /\ exists date authorization,
       header "x-ms-date" q = Some date
       /\ header "Authorization" q = Some authorization
       /\ AzureLogPublisher.build_signature p date (Py.len (Http.data q))
            "POST" "application/json" "/api/logs" = inr authorization.

(** A text of printable ASCII characters only. *)
Fixpoint printable (s : string) : bool :=
  match s with
  | EmptyString => true
  | String c rest => (32 <=? Py.code c) && (Py.code c <=? 126) && printable rest
  end.

(** A request whose body is printable ASCII, so that its length in
    characters is its length in bytes. *)
Definition plain_body (q : Http.Request) : Prop :=
  printable (Http.data q) = true
  /\ Z.of_nat (List.length (Bytes.utf8 (Http.data q))) = Py.len (Http.data q).

(** A testcase record of one of the given tests that carries, under
    [message], the message of that test as it is. *)
Definition raw_testcase (tests : list Test.t) (record : Py.value) : Prop :=
  exists test time,
    In test tests
    /\ record = Py.VDict [("classname", Py.VStr (Parent.longname (Test.parent test)));
                       ("name", Py.VStr (Test.name test));
                       ("time", Py.VStr time);
                       ("message", Py.VStr (Test.message test))].

(** The fields of the suite record that [end_suite] builds around the
    buffer it is given. *)
Definition suite_fields (suite : Suite.t) (buffer : list Py.value)
  : list (string * Py.value) :=
  [("name", Py.VStr (Suite.name suite));
   ("tests", Py.VInt (Statistics.total (Suite.statistics suite)));
   ("failures", Py.VInt (Statistics.failed (Suite.statistics suite)));
   ("skipped", Py.VInt (Statistics.skipped (Suite.statistics suite)));
   ("time", Py.VStr (AzureLogWriterVisitor._time_as_seconds (Suite.elapsedtime suite)));
   ("timestamp", Reference.iso_timestamp (Suite.starttime suite));
   ("testcases", Py.VList buffer)].

(** What a pass of the ingestion emitter over the given tests hands to its
    logger: the raw record of one of the tests, the record of a suite
    around raw records of the tests, or the note on a response. *)
Definition emitted_record (tests : list Test.t) (r : Logging.Record_) : Prop :=
  raw_testcase tests (Logging.msg r)
  \/ (exists suite buffer,
        Forall (raw_testcase tests) buffer
        /\ Logging.msg r
           = Py.VStr ("testsuite " ++ Py.json_dumps (Py.VDict (suite_fields suite buffer))))
  \/ (exists logger response, r = Reference.response_record logger response).

(** What a pass of the ingestion emitter over the given tests sends: the
    one-element array of the record of a suite around raw records of the
    tests. *)
Definition emitted_request (tests : list Test.t) (q : Http.Request) : Prop :=
  exists suite buffer,
    Forall (raw_testcase tests) buffer
    /\ Http.data q
       = Py.json_dumps (Py.VList [Py.VDict (suite_fields suite buffer)]).

(** A list of bytes. *)
Definition bytes (bs : list Z) : Prop := Forall (fun b => 0 <= b < 256) bs.

(** A network that answers every request with a status from 200 to 299. *)
Definition accepts (w : World) : Prop :=
  forall n q, exists r,
    network w n q = Http.Answered r /\ 200 <= Http.status_code r <= 299.

(** A network that answers no request. *)
Definition unreachable (e : Py.exn) (w : World) : Prop :=
  forall n q, network w n q = Http.Failed e.

End Pass.

(** * Properties *)

(** ** Built-ins *)

Lemma int_of_str_str_int (n : Z) : Reference.int_of_str (Py.str_int n) = Some n.
Proof.
  unfold Reference.int_of_str, Py.str_int.
  rewrite NilEmpty.isi. simpl. now rewrite DecimalZ.of_to.
Qed.

Lemma str_int_inj (m n : Z) : Py.str_int m = Py.str_int n -> m = n.
Proof.
  intros E. apply (f_equal Reference.int_of_str) in E.
  rewrite !int_of_str_str_int in E. congruence.
Qed.

(** A slice that ends within the first [k] characters does not see the
    rest of the text. *)
Lemma substring_of_prefix (s : string) :
  forall n m k, (n + m <= k)%nat ->
  substring n m (substring 0 k s) = substring n m s.
Proof.
  induction s as [|c s IH]; intros n m k Hk.
  - destruct k; reflexivity.
  - destruct k as [|k].
    + assert (n = 0%nat) by lia. assert (m = 0%nat) by lia. subst. reflexivity.
    + destruct n as [|n]; simpl.
      * destruct m as [|m]; [reflexivity|].
        f_equal. apply (IH 0%nat). lia.
      * apply IH. lia.
Qed.

Lemma slice_of_prefix (lo hi k : nat) (s : string) :
  (lo <= hi)%nat -> (hi <= k)%nat ->
  Py.slice lo hi (Py.slice 0 k s) = Py.slice lo hi s.
Proof.
  intros Hlo Hhi. unfold Py.slice. rewrite Nat.sub_0_r.
  apply substring_of_prefix. lia.
Qed.

(** The fraction written by the three-decimal format has three digits. *)
Lemma pad3_length (n : Z) : 0 <= n < 1000 -> String.length (Py.pad3 n) = 3%nat.
Proof.
  intros Hn.
  assert (H : forallb (fun k => Nat.eqb (String.length (Py.pad3 (Z.of_nat k))) 3)
                (seq 0 1000) = true) by (vm_compute; reflexivity).
  rewrite forallb_forall in H.
  specialize (H (Z.to_nat n)).
  rewrite Z2Nat.id in H by lia.
  apply Nat.eqb_eq, H, in_seq. lia.
Qed.

(** ** Timestamp conversion *)

(** The two emitters carry the same helper. *)
Lemma starttime_helpers_agree (stime : option string) :
  AzureLogWriterVisitor._starttime_to_isoformat stime
  = MonitorLogWriterWorker._starttime_to_isoformat stime.
Proof. reflexivity. Qed.

(** On a text with at least one character the helper is the four slices,
    the separators and the literal suffix. *)
Lemma starttime_present (c : ascii) (s : string) :
  MonitorLogWriterWorker._starttime_to_isoformat (Some (String c s))
  = Py.VStr (Py.slice 0 4 (String c s) ++ "-" ++ Py.slice 4 6 (String c s) ++ "-" ++
             Py.slice 6 8 (String c s) ++ "T" ++ Py.slice 9 22 (String c s) ++ "000").
Proof. reflexivity. Qed.

(** C2, as stated, fails: on the compact 17-digit text the slice [9:22]
    starts one character late, so the hour loses its first digit and no
    separator is inserted into the time. *)
Lemma C2_compact_text_counterexample :
  MonitorLogWriterWorker._starttime_to_isoformat (Some "20240102030405123")
    = Py.VStr "2024-01-02T30405123000"
  /\ AzureLogWriterVisitor._starttime_to_isoformat (Some "20240102030405123")
    = Py.VStr "2024-01-02T30405123000"
  /\ MonitorLogWriterWorker._starttime_to_isoformat (Some "20240102030405123")
    <> Py.VStr "2024-01-02T03:04:05.123000"
  /\ AzureLogWriterVisitor._starttime_to_isoformat (Some "20240102030405123")
    <> Py.VStr "2024-01-02T03:04:05.123000".
Proof. repeat split; try reflexivity; discriminate. Qed.

(** C2, amended: for the timestamp text ["20240102 03:04:05.123"] (date,
    one character at offset 8, then the time as written) the helper of
    both emitters returns exactly ["2024-01-02T03:04:05.123000"]; for
    every text with at least one character the result is the slices
    [0:4], [4:6], [6:8] and [9:22] joined by ["-"], ["-"] and ["T"] and
    followed by the literal ["000"], so the character at offset 8 is
    dropped; and nothing beyond offset 22 reaches the result, whatever
    the length of the text. *)
Theorem C2_starttime_to_isoformat_by_slicing :
  (MonitorLogWriterWorker._starttime_to_isoformat (Some "20240102 03:04:05.123")
     = Py.VStr "2024-01-02T03:04:05.123000"
   /\ AzureLogWriterVisitor._starttime_to_isoformat (Some "20240102 03:04:05.123")
     = Py.VStr "2024-01-02T03:04:05.123000")
  /\ (forall c s,
        let stime := String c s in
        MonitorLogWriterWorker._starttime_to_isoformat (Some stime)
          = Py.VStr (Py.slice 0 4 stime ++ "-" ++ Py.slice 4 6 stime ++ "-" ++
                     Py.slice 6 8 stime ++ "T" ++ Py.slice 9 22 stime ++ "000")
        /\ AzureLogWriterVisitor._starttime_to_isoformat (Some stime)
          = MonitorLogWriterWorker._starttime_to_isoformat (Some stime))
  /\ (forall c s,
        let stime := String c s in
        MonitorLogWriterWorker._starttime_to_isoformat (Some stime)
          = MonitorLogWriterWorker._starttime_to_isoformat (Some (Py.slice 0 22 stime))
        /\ AzureLogWriterVisitor._starttime_to_isoformat (Some stime)
          = AzureLogWriterVisitor._starttime_to_isoformat (Some (Py.slice 0 22 stime))).
Proof.
  split; [split; reflexivity|].
  split; [intros c s stime; split; reflexivity|].
  intros c s stime.
  assert (E : MonitorLogWriterWorker._starttime_to_isoformat (Some stime)
              = MonitorLogWriterWorker._starttime_to_isoformat
                  (Some (Py.slice 0 22 stime))).
  { subst stime.
    change (Py.slice 0 22 (String c s)) with (String c (substring 0 21 s)).
    rewrite !starttime_present.
    change (String c (substring 0 21 s)) with (Py.slice 0 22 (String c s)).
    rewrite !slice_of_prefix by lia. reflexivity. }
  split; [exact E|].
  rewrite !starttime_helpers_agree. exact E.
Qed.

(** C9: an absent start time, [None] or the empty text, converts to
    [None] in both emitters; and [None] is returned for no other input. *)
Theorem C9_absent_timestamp_stays_absent :
  MonitorLogWriterWorker._starttime_to_isoformat None = Py.VNone
  /\ MonitorLogWriterWorker._starttime_to_isoformat (Some "") = Py.VNone
  /\ AzureLogWriterVisitor._starttime_to_isoformat None = Py.VNone
  /\ AzureLogWriterVisitor._starttime_to_isoformat (Some "") = Py.VNone
  /\ (forall stime,
        MonitorLogWriterWorker._starttime_to_isoformat stime = Py.VNone
        <-> (stime = None \/ stime = Some ""))
  /\ (forall stime,
        AzureLogWriterVisitor._starttime_to_isoformat stime = Py.VNone
        <-> (stime = None \/ stime = Some "")).
Proof.
  repeat split; try reflexivity.
  - destruct stime as [[|c s]|]; auto. discriminate.
  - intros [-> | ->]; reflexivity.
  - destruct stime as [[|c s]|]; auto. discriminate.
  - intros [-> | ->]; reflexivity.
Qed.

(** ** Elapsed times *)

Lemma pad3_value (n : Z) :
  0 <= n < 1000 -> Reference.int_of_str (Py.pad3 n) = Some n.
Proof.
  intros Hn.
  assert (H : forallb (fun k =>
                match Reference.int_of_str (Py.pad3 (Z.of_nat k)) with
                | Some v => v =? Z.of_nat k
                | None => false
                end) (seq 0 1000) = true) by (vm_compute; reflexivity).
  rewrite forallb_forall in H.
  specialize (H (Z.to_nat n)).
  rewrite Z2Nat.id in H by lia.
  destruct (Reference.int_of_str (Py.pad3 n)) as [v|].
  - f_equal. apply Z.eqb_eq, H, in_seq. lia.
  - discriminate H. apply in_seq. lia.
Qed.

Lemma pad3_three_digits (n : Z) :
  0 <= n < 1000 -> Py.pad3 n = Reference.three_digits n.
Proof.
  intros Hn.
  assert (H : forallb (fun k => String.eqb (Py.pad3 (Z.of_nat k))
                                  (Reference.three_digits (Z.of_nat k)))
                (seq 0 1000) = true) by (vm_compute; reflexivity).
  rewrite forallb_forall in H.
  specialize (H (Z.to_nat n)).
  rewrite Z2Nat.id in H by lia.
  apply String.eqb_eq, H, in_seq. lia.
Qed.

(** Rounding to nearest gives back an integer that the quotient is less
    than half away from, and never moves further than half. *)
Lemma round_half_even_exact (p q a : Z) :
  0 < q -> 2 * Z.abs (p - a * q) < q -> Py.round_half_even p q = a.
Proof.
  intros Hq Hnear. unfold Py.round_half_even.
  pose proof (Z.div_mod p q ltac:(lia)) as Hdm.
  pose proof (Z.mod_pos_bound p q Hq) as Hrem.
  set (d := p / q) in *. set (rest := p mod q) in *.
  assert (Hd : d = a \/ d = a - 1) by nia.
  destruct (Z.ltb_spec (2 * rest) q) as [H1|H1].
  - destruct Hd as [Hd|Hd]; [exact Hd|]. nia.
  - destruct (Z.ltb_spec q (2 * rest)) as [H2|H2].
    + destruct Hd as [Hd|Hd]; [nia|lia].
    + exfalso. assert (2 * rest = q) by lia. nia.
Qed.

Lemma round_half_even_near (p q : Z) :
  0 < q -> 2 * Z.abs (Py.round_half_even p q * q - p) <= q.
Proof.
  intros Hq. unfold Py.round_half_even.
  pose proof (Z.div_mod p q ltac:(lia)) as Hdm.
  pose proof (Z.mod_pos_bound p q Hq) as Hrem.
  set (d := p / q) in *. set (rest := p mod q) in *.
  destruct (Z.ltb_spec (2 * rest) q) as [H1|H1]; [nia|].
  destruct (Z.ltb_spec q (2 * rest)) as [H2|H2]; [nia|].
  destruct (Z.even d); nia.
Qed.

(** Below [2^52] the exponent of the nearest double is at most -10. *)
Lemma nearest_double_below_2_52 (a : Z) :
  0 < a < 2 ^ 52 ->
  exists e,
    e <= -10
    /\ Py.nearest_double_of_thousandths a
       = (Py.round_half_even (a * 2 ^ (- e)) 1000, e).
Proof.
  intros (Ha & Hb).
  assert (HL : Z.log2 a < 52) by (apply Z.log2_lt_pow2; assumption).
  unfold Py.nearest_double_of_thousandths. cbv zeta.
  set (e0 := Z.log2 a - 62).
  assert (H0 : (e0 <? 0) = true) by (apply Z.ltb_lt; unfold e0; lia).
  assert (H1 : (e0 + 1 <? 0) = true) by (apply Z.ltb_lt; unfold e0; lia).
  rewrite H0. cbn [fst snd].
  destruct (a * 2 ^ (- e0) <? 2 ^ 53 * 1000).
  - exists e0. split; [unfold e0; lia|]. rewrite H0. reflexivity.
  - exists (e0 + 1). split; [unfold e0; lia|]. rewrite H1. reflexivity.
Qed.

(** Below [2^52] milliseconds the rounding through a double loses
    nothing: both emitters write the elapsed time as seconds with exactly
    three decimals. *)
Lemma time_as_seconds_exact (millis : Z) :
  Z.abs millis < 2 ^ 52 ->
  Py.format_3f_thousandths millis = Reference.exact_seconds millis.
Proof.
  intros Hb. unfold Py.format_3f_thousandths, Reference.exact_seconds.
  set (a := Z.abs millis) in *.
  destruct (Z.eqb_spec a 0) as [H0|H0].
  - assert (millis = 0) by lia. subst millis. reflexivity.
  - assert (Ha : 0 < a) by (unfold a in *; lia).
    destruct (nearest_double_below_2_52 a (conj Ha Hb)) as (e & He & ->).
    destruct (Z.leb_spec 0 e) as [Hpos|_]; [lia|].
    set (q := 2 ^ (- e)).
    assert (Hq : 1024 <= q).
    { unfold q. change 1024 with (2 ^ 10). apply Z.pow_le_mono_r; lia. }
    set (n := Py.round_half_even (a * q) 1000).
    pose proof (round_half_even_near (a * q) 1000 ltac:(lia)) as Hn. fold n in Hn.
    assert (Hr : Py.round_half_even (n * 1000) q = a).
    { apply round_half_even_exact; [lia|]. lia. }
    rewrite Hr.
    rewrite pad3_three_digits by (apply Z.mod_pos_bound; lia).
    reflexivity.
Qed.

(** ** The xUnit-style emitter, hook by hook *)

Lemma emit_logged (name : string) (lvl : Logging.Level) (m : Py.value) (w : World) :
  Logger.emit name lvl m w
  = Returned tt (Reference.logged [Logging.MakeRecord name lvl m] w).
Proof. reflexivity. Qed.

Lemma logged_logged (a b : list Logging.Record_) (w : World) :
  Reference.logged b (Reference.logged a w) = Reference.logged (a ++ b) w.
Proof. unfold Reference.logged; simpl. now rewrite app_assoc. Qed.

Lemma logged_nil (w : World) : Reference.logged [] w = w.
Proof. destruct w; unfold Reference.logged; simpl. now rewrite app_nil_r. Qed.

(** C5: on entering a suite whose elapsed time is below [2^52] ms, the
    xUnit-style emitter writes one record, ["testsuite "] followed by a
    dict whose [tests], [failures] and [skipped] entries are the decimal
    texts of the total, failed and skipped counts of the suite's
    statistics (each reads back as exactly that count), whose [errors]
    entry is the text of 0, and which also carries the suite name, the
    elapsed time as seconds with exactly three decimals, and the start
    time converted by slicing, or [None] when it is absent or empty. *)
Theorem C5_start_suite_writes_the_counts
    (self : MonitorLogWriterWorker.t) (suite : Suite.t) (w : World) :
  Z.abs (Suite.elapsedtime suite) < 2 ^ 52 ->
  exists attrs tests failures skipped errors,
    MonitorLogWriterWorker.start_suite self suite w
      = Returned self
          (Reference.logged
             [Logging.MakeRecord (MonitorLogWriterWorker._writer self) Logging.INFO
                (Py.VStr ("testsuite " ++ Py.repr (Py.VDict attrs)))] w)
    /\ attrs
       = [("name", Py.VStr (Suite.name suite));
          ("tests", Py.VStr tests);
          ("errors", Py.VStr errors);
          ("failures", Py.VStr failures);
          ("skipped", Py.VStr skipped);
          ("time", Py.VStr (Reference.exact_seconds (Suite.elapsedtime suite)));
          ("timestamp", Reference.iso_timestamp (Suite.starttime suite))]
    /\ tests = Py.str_int (Statistics.total (Suite.statistics suite))
    /\ Reference.int_of_str tests = Some (Statistics.total (Suite.statistics suite))
    /\ failures = Py.str_int (Statistics.failed (Suite.statistics suite))
    /\ Reference.int_of_str failures = Some (Statistics.failed (Suite.statistics suite))
    /\ skipped = Py.str_int (Statistics.skipped (Suite.statistics suite))
    /\ Reference.int_of_str skipped = Some (Statistics.skipped (Suite.statistics suite))
    /\ errors = "0"
    /\ Reference.int_of_str errors = Some 0.
Proof.
  intros Hb.
  assert (Hts : MonitorLogWriterWorker._starttime_to_isoformat (Suite.starttime suite)
                = Reference.iso_timestamp (Suite.starttime suite))
    by (destruct (Suite.starttime suite) as [[|c s]|]; reflexivity).
  eexists _, _, _, _, _.
  split.
  - unfold MonitorLogWriterWorker.start_suite, bind, ret, Logger.info.
    rewrite emit_logged.
    unfold MonitorLogWriterWorker.suite_attrs, MonitorLogWriterWorker._get_stats,
      MonitorLogWriterWorker._time_as_seconds.
    rewrite (time_as_seconds_exact _ Hb), Hts. reflexivity.
  - repeat match goal with |- _ /\ _ => split end;
      try reflexivity; apply int_of_str_str_int.
Qed.

(** The theorem at suite [A] of the small run. *)
Lemma C5_start_suite_witness :
  Z.abs (Suite.elapsedtime Scenario.A) < 2 ^ 52
  /\ MonitorLogWriterWorker.start_suite (MonitorLogWriterWorker.__init__ "monitor.log")
       Scenario.A (Scenario.world Scenario.accepted)
     = Returned (MonitorLogWriterWorker.__init__ "monitor.log")
         (Reference.logged
            [Logging.MakeRecord "monitor.log" Logging.INFO
               (Py.VStr ("testsuite " ++ Py.repr
                  (Py.VDict
                     [("name", Py.VStr "A"); ("tests", Py.VStr "1");
                      ("errors", Py.VStr "0"); ("failures", Py.VStr "0");
                      ("skipped", Py.VStr "0"); ("time", Py.VStr "0.012");
                      ("timestamp", Py.VStr "2024-01-02T03:04:05.123000")])))]
            (Scenario.world Scenario.accepted)).
Proof.
  assert (Hb : Z.abs (Suite.elapsedtime Scenario.A) < 2 ^ 52) by (simpl; lia).
  split; [exact Hb|].
  destruct (C5_start_suite_writes_the_counts
              (MonitorLogWriterWorker.__init__ "monitor.log") Scenario.A
              (Scenario.world Scenario.accepted) Hb)
    as (attrs & tests & failures & skipped & errors & E & -> & -> & _ & -> & _ & -> & _
        & -> & _).
  exact E.
Defined.

(** C6: for a test whose elapsed time is below [2^52] ms, the xUnit-style
    emitter writes a testcase record with the parent's long name as
    classname, the test's name and its elapsed time as seconds with
    exactly three decimals; then a failure record (message, type
    AssertionError) exactly when the test failed, and a skipped record
    (message, type SkipExecution) exactly when the test was skipped. *)
Theorem C6_visit_test_writes_the_testcase
    (self : MonitorLogWriterWorker.t) (test : Test.t) (w : World) :
  Z.abs (Test.elapsedtime test) < 2 ^ 52 ->
  let record m :=
    Logging.MakeRecord (MonitorLogWriterWorker._writer self) Logging.INFO (Py.VStr m) in
  let testcase :=
    record ("testcase: " ++ Py.repr
       (Py.VDict [("classname", Py.VStr (Parent.longname (Test.parent test)));
                  ("name", Py.VStr (Test.name test));
                  ("time", Py.VStr (Reference.exact_seconds (Test.elapsedtime test)))])) in
  let failure :=
    record ("failure: " ++ Py.repr
       (Py.VDict [("message", Py.VStr (Test.message test));
                  ("type", Py.VStr "AssertionError")])) in
  let skipped :=
    record ("skipped: " ++ Py.repr
       (Py.VDict [("message", Py.VStr (Test.message test));
                  ("type", Py.VStr "SkipExecution")])) in
  exists new,
    MonitorLogWriterWorker.visit_test self test w
      = Returned self (Reference.logged new w)
    /\ new = (testcase :: (if Test.failed test then [failure] else [])
                       ++ (if Test.skipped test then [skipped] else []))%list
    /\ (In failure new <-> Test.failed test = true)
    /\ (In skipped new <-> Test.skipped test = true).
Proof.
  intros Hb record testcase failure skipped.
  eexists. split; [|split; [reflexivity|]].
  - unfold MonitorLogWriterWorker.visit_test, bind, ret, Logger.info.
    rewrite emit_logged.
    unfold MonitorLogWriterWorker._time_as_seconds.
    rewrite (time_as_seconds_exact _ Hb).
    unfold Test.failed, Test.skipped.
    destruct (Test.status test);
      rewrite ?emit_logged, ?logged_logged; reflexivity.
  - unfold Test.failed, Test.skipped.
    split.
    + destruct (Test.status test); simpl; split; intros H;
        try reflexivity; try discriminate H; auto;
        repeat (destruct H as [H|H]; [discriminate H|]); destruct H.
    + destruct (Test.status test); simpl; split; intros H;
        try reflexivity; try discriminate H; auto;
        repeat (destruct H as [H|H]; [discriminate H|]); destruct H.
Qed.

(** The theorem at the failed test [t2] of the small run. *)
Lemma C6_visit_test_witness :
  Z.abs (Test.elapsedtime Scenario.t2) < 2 ^ 52
  /\ MonitorLogWriterWorker.visit_test (MonitorLogWriterWorker.__init__ "monitor.log")
       Scenario.t2 (Scenario.world Scenario.accepted)
     = Returned (MonitorLogWriterWorker.__init__ "monitor.log")
         (Reference.logged
            [Logging.MakeRecord "monitor.log" Logging.INFO
               (Py.VStr ("testcase: " ++ Py.repr
                  (Py.VDict [("classname", Py.VStr "R.B"); ("name", Py.VStr "t2");
                             ("time", Py.VStr "0.034")])));
             Logging.MakeRecord "monitor.log" Logging.INFO
               (Py.VStr ("failure: " ++ Py.repr
                  (Py.VDict [("message", Py.VStr "boom");
                             ("type", Py.VStr "AssertionError")])))]
            (Scenario.world Scenario.accepted)).
Proof.
  assert (Hb : Z.abs (Test.elapsedtime Scenario.t2) < 2 ^ 52) by (simpl; lia).
  split; [exact Hb|].
  destruct (C6_visit_test_writes_the_testcase
              (MonitorLogWriterWorker.__init__ "monitor.log") Scenario.t2
              (Scenario.world Scenario.accepted) Hb)
    as (new & E & -> & _).
  exact E.
Defined.

(** ** The ingestion emitter, hook by hook *)

Lemma append_length (s t : string) :
  String.length (s ++ t) = (String.length s + String.length t)%nat.
Proof. induction s as [|c s IH]; simpl; [reflexivity|now rewrite IH]. Qed.

Lemma append_nonempty_differs (s t : string) : t <> "" -> s <> s ++ t.
Proof.
  intros Ht E. apply (f_equal String.length) in E.
  rewrite append_length in E.
  destruct t as [|c t]; [now apply Ht|]. simpl in E. lia.
Qed.

(** ** The signing client *)

(** The string that [build_signature] hashes is the canonical string. *)
Lemma string_to_hash_canonical (method : string) (content_length : Z)
    (content_type date resource : string) :
  AzureLogPublisher.string_to_hash method content_length content_type
    ("x-ms-date:" ++ date) resource
  = Reference.canonical_string method content_length content_type date resource.
Proof. reflexivity. Qed.

Lemma build_signature_cases (self : AzureLogPublisher.t) (date : string)
    (content_length : Z) (method content_type resource : string) :
  AzureLogPublisher.build_signature self date content_length method content_type resource
  = match Base64.b64decode (AzureLogPublisher.shared_key self) with
    | inl e => inl e
    | inr key =>
        inr (Reference.signature (AzureLogPublisher.customer_id self) key
               (Reference.canonical_string method content_length content_type
                  date resource))
    end.
Proof.
  unfold AzureLogPublisher.build_signature.
  destruct (Base64.b64decode _); reflexivity.
Qed.

(** The three ways a call of [post_data] can go. *)
Lemma post_data_cases (self : AzureLogPublisher.t) (body log_type : string) (w : World) :
  let n := List.length (requests w) in
  match Base64.b64decode (AzureLogPublisher.shared_key self) with
  | inl e => AzureLogPublisher.post_data self body log_type w = Raised e w
  | inr key =>
      let q := Reference.request (AzureLogPublisher.customer_id self) key
                 log_type (utcnow w n) body in
      match network w n q with
      | Http.Answered r =>
          AzureLogPublisher.post_data self body log_type w
          = Returned tt
              (Reference.logged
                 [Reference.response_record (AzureLogPublisher.logger self) r]
                 (Reference.sent [q] w))
      | Http.Failed e =>
          AzureLogPublisher.post_data self body log_type w
          = Raised e (Reference.sent [q] w)
      end
  end.
Proof.
  intros n.
  unfold AzureLogPublisher.post_data, bind, rfc1123_now.
  rewrite build_signature_cases.
  destruct (Base64.b64decode _) as [e|key]; [reflexivity|].
  unfold Requests.post, Reference.request. fold n.
  change ("https://" ++ AzureLogPublisher.customer_id self ++
          ".ods.opinsights.azure.com" ++ "/api/logs" ++ "?api-version=2016-04-01")
    with ("https://" ++ AzureLogPublisher.customer_id self ++
          ".ods.opinsights.azure.com/api/logs?api-version=2016-04-01").
  cbv zeta.
  destruct (network w n _) as [r|e]; [|reflexivity].
  unfold Reference.response_record, Logger.info, Logger.error.
  destruct ((200 <=? Http.status_code r) && (Http.status_code r <=? 299));
    rewrite emit_logged; reflexivity.
Qed.

(** The digest models reproduce the published test vectors: SHA-256 of
    ["abc"] (FIPS 180-4) and the HMAC-SHA256 cases 1, 2 and 6 of RFC 4231. *)
Example sha256_abc :
  Reference.hexdigest (Hashlib.sha256 (Bytes.utf8 "abc"))
  = "ba7816bf8f01cfea414140de5dae2223b00361a396177a9cb410ff61f20015ad".
Proof. vm_compute. reflexivity. Qed.

Example hmac_rfc4231_case1 :
  Reference.hexdigest (Hmac.hmac_sha256 (repeat 0x0b 20%nat) (Bytes.utf8 "Hi There"))
  = "b0344c61d8db38535ca8afceaf0bf12b881dc200c9833da726e9376c2e32cff7".
Proof. vm_compute. reflexivity. Qed.

Example hmac_rfc4231_case2 :
  Reference.hexdigest
    (Hmac.hmac_sha256 (Bytes.utf8 "Jefe") (Bytes.utf8 "what do ya want for nothing?"))
  = "5bdcc146bf60754e6a042426089575c75a003f089d2739839dec58b964ec3843".
Proof. vm_compute. reflexivity. Qed.

Example hmac_rfc4231_case6 :
  Reference.hexdigest
    (Hmac.hmac_sha256 (repeat 0xaa 131%nat)
       (Bytes.utf8 "Test Using Larger Than Block-Size Key - Hash Key First"))
  = "60e431591ee0b67f0d8a26aacbf5b77f8e0bc6213728c5140546040f0ee37f54".
Proof. vm_compute. reflexivity. Qed.

Example b64_roundtrip :
  Base64.b64decode (Base64.b64encode (Bytes.utf8 "fooba")) = inr (Bytes.utf8 "fooba")
  /\ Base64.b64encode (Bytes.utf8 "fooba") = "Zm9vYmE="
  /\ Base64.b64decode "Zm9vYg" = inl Py.BinasciiError.
Proof. repeat split. Qed.

(** C4: [build_signature] is a function of the date, content length,
    method, content type, resource, customer id and shared key alone.
    Whenever the shared key decodes, it returns ["SharedKey <id>:<sig>"]
    with [<sig>] the base64 text of the HMAC-SHA256 digest, under the
    decoded key, of METHOD, CONTENT-LENGTH, CONTENT-TYPE, ["x-ms-date:"]
    with DATE, and RESOURCE joined by newlines; and for the fixed inputs
    it equals the value computed independently with Python's own
    [hmac], [hashlib] and [base64]. *)
Theorem C4_build_signature_signs_the_canonical_string :
  (forall self date content_length method content_type resource key,
     Base64.b64decode (AzureLogPublisher.shared_key self) = inr key ->
     AzureLogPublisher.build_signature self date content_length method
       content_type resource
     = inr ("SharedKey " ++ AzureLogPublisher.customer_id self ++ ":" ++
            Base64.b64encode
              (Hmac.hmac_sha256 key
                 (Bytes.utf8
                    (String.concat AzureLogPublisher.newline
                       [method; Py.str_int content_length; content_type;
                        "x-ms-date:" ++ date; resource])))))
  /\ (forall self self' date content_length method content_type resource,
        AzureLogPublisher.customer_id self = AzureLogPublisher.customer_id self' ->
        AzureLogPublisher.shared_key self = AzureLogPublisher.shared_key self' ->
        AzureLogPublisher.build_signature self date content_length method
          content_type resource
        = AzureLogPublisher.build_signature self' date content_length method
            content_type resource)
  /\ AzureLogPublisher.build_signature Reference.fixed_publisher
       Reference.fixed_date 42 "POST" "application/json" "/api/logs"
     = inr Reference.fixed_signature.
Proof.
  split; [|split].
  - intros self date content_length method content_type resource key Hkey.
    rewrite build_signature_cases, Hkey. reflexivity.
  - intros self self' date content_length method content_type resource Hid Hk.
    rewrite !build_signature_cases, Hid, Hk. reflexivity.
  - vm_compute. reflexivity.
Qed.

(** The first part of the theorem at the fixed inputs. *)
Lemma C4_fixed_inputs_witness :
  Base64.b64decode (AzureLogPublisher.shared_key Reference.fixed_publisher)
    = inr (Bytes.utf8 "secret-shared-key")
  /\ AzureLogPublisher.build_signature Reference.fixed_publisher
       Reference.fixed_date 42 "POST" "application/json" "/api/logs"
     = inr ("SharedKey " ++ AzureLogPublisher.customer_id Reference.fixed_publisher ++ ":" ++
            Base64.b64encode
              (Hmac.hmac_sha256 (Bytes.utf8 "secret-shared-key")
                 (Bytes.utf8
                    (String.concat AzureLogPublisher.newline
                       ["POST"; Py.str_int 42; "application/json";
                        "x-ms-date:" ++ Reference.fixed_date; "/api/logs"])))).
Proof.
  split.
  - vm_compute. reflexivity.
  - apply (proj1 C4_build_signature_signs_the_canonical_string
             Reference.fixed_publisher Reference.fixed_date 42
             "POST" "application/json" "/api/logs" (Bytes.utf8 "secret-shared-key")).
    vm_compute. reflexivity.
Defined.

(** ** Rebot.main *)

Section MainFacts.

Context {Options Settings Stream Config : Type}.
Variables (get_stdout get_stderr : Options -> option Stream).
Variable RebotSettings : Options -> Py.exn + Settings.
Variable console_output_config : Settings -> Config.
Variable pythonpath : Settings -> list string.
Variable write_results :
  list string -> Settings -> Rebot.Process Stream Config ->
  (Py.exn + Z) * Rebot.Process Stream Config.

Let main :=
  Rebot.main Options Settings Stream Config get_stdout get_stderr RebotSettings
    console_output_config pythonpath write_results.

Lemma main_with_settings (datasources : list string) (options : Options)
    (p : Rebot.Process Stream Config) (settings : Settings) :
  RebotSettings options = inr settings ->
  main datasources options p
  = match write_results datasources settings
            (Reference.ready_to_write (console_output_config settings)
               (pythonpath settings) p) with
    | (inl e, p') => (inl e, p')
    | (inr rc, p') =>
        if rc <? 0 then (inl (Py.DataError "No outputs created."), p')
        else (inr rc, p')
    end.
Proof.
  intros Hs. unfold main, Rebot.main. rewrite Hs.
  unfold Reference.ready_to_write, Rebot.register_console_logger.
  destruct (pythonpath settings); reflexivity.
Qed.

(** C7: when the settings are built and [write_results] returns an
    integer, [main] returns that integer if it is not negative and raises
    [DataError "No outputs created."] if it is, and in no other case of
    the two; whatever happens, a value returned by [main] is never
    negative. *)
Theorem C7_main_returns_rc_or_raises
    (datasources : list string) (options : Options)
    (p : Rebot.Process Stream Config) :
  (forall settings rc p',
     RebotSettings options = inr settings ->
     write_results datasources settings
       (Reference.ready_to_write (console_output_config settings)
          (pythonpath settings) p) = (inr rc, p') ->
     (0 <= rc -> main datasources options p = (inr rc, p'))
     /\ (rc < 0 ->
         main datasources options p
         = (inl (Py.DataError "No outputs created."), p'))
     /\ (fst (main datasources options p) = inr rc <-> 0 <= rc)
     /\ (fst (main datasources options p)
           = inl (Py.DataError "No outputs created.") <-> rc < 0))
  /\ (forall v, fst (main datasources options p) = inr v -> 0 <= v).
Proof.
  split.
  - intros settings rc p' Hs Hw.
    rewrite (main_with_settings _ _ _ _ Hs), Hw.
    destruct (Z.ltb_spec rc 0) as [Hneg|Hpos]; simpl.
    + repeat split; intros; try lia; try reflexivity; try discriminate.
    + repeat split; intros; try lia; try reflexivity; try discriminate.
  - intros v Hv.
    destruct (RebotSettings options) as [e|settings] eqn:Hs.
    + unfold main, Rebot.main in Hv. rewrite Hs in Hv. discriminate Hv.
    + rewrite (main_with_settings _ _ _ _ Hs) in Hv.
      destruct (write_results _ _ _) as [[e|rc] p'].
      * discriminate Hv.
      * destruct (Z.ltb_spec rc 0); simpl in Hv; [discriminate Hv|].
        injection Hv as <-. assumption.
Qed.

End MainFacts.

(** The theorem at a run with two failed tests and at a run that
    produced no output. *)
Lemma C7_main_witness :
  let settings_of := fun _ : unit => @inr Py.exn unit tt in
  let writes (rc : Z) :=
    fun (_ : list string) (_ : unit) (p : Rebot.Process unit unit) =>
      (@inr Py.exn Z rc, p) in
  let run (rc : Z) :=
    Rebot.main unit unit unit unit (fun _ => None) (fun _ => None) settings_of
      (fun _ => tt) (fun _ => []) (writes rc) ["output.xml"] tt
      (Rebot.MakeProcess [] [] true) in
  settings_of tt = inr tt
  /\ run 2 = (inr 2, Rebot.MakeProcess [Rebot.FromSettings tt] [] false)
  /\ run (-1) = (inl (Py.DataError "No outputs created."),
                 Rebot.MakeProcess [Rebot.FromSettings tt] [] false).
Proof.
  intros settings_of writes run.
  split; [reflexivity|split].
  - apply (proj1 (C7_main_returns_rc_or_raises (fun _ => None) (fun _ => None)
                    settings_of (fun _ => tt) (fun _ => []) (writes 2)
                    ["output.xml"] tt (Rebot.MakeProcess [] [] true))
             tt 2 _ eq_refl eq_refl).
    lia.
  - apply (proj1 (C7_main_returns_rc_or_raises (fun _ => None) (fun _ => None)
                    settings_of (fun _ => tt) (fun _ => []) (writes (-1))
                    ["output.xml"] tt (Rebot.MakeProcess [] [] true))
             tt (-1) _ eq_refl eq_refl).
    lia.
Defined.

(** ** Traversal

    Two facts about any visitor: a relation between worlds that every
    hook respects is respected by a whole pass, and a change of the world
    that every hook commutes with commutes with a whole pass. *)

Lemma bind_final_related {A B : Type} (R : World -> World -> Prop)
    (c : M A) (k : A -> M B) (w : World) :
  (forall a b d, R a b -> R b d -> R a d) ->
  R w (final (c w)) ->
  (forall a w', R w' (final (k a w'))) ->
  R w (final (bind c k w)).
Proof.
  intros Htrans Hc Hk. unfold bind.
  destruct (c w) as [a w'|e w']; simpl in *; [|exact Hc].
  eapply Htrans; [exact Hc|apply Hk].
Qed.

Lemma bind_in_world {A B : Type} (f : World -> World)
    (c : M A) (k : A -> M B) (w : World) :
  c (f w) = in_world f (c w) ->
  (forall a w', k a (f w') = in_world f (k a w')) ->
  bind c k (f w) = in_world f (bind c k w).
Proof.
  intros Hc Hk. unfold bind. rewrite Hc.
  destruct (c w) as [a w'|e w']; simpl; [apply Hk|reflexivity].
Qed.

Section TraversalFacts.

Context {V : Type} {hooks : ResultVisitor.Hooks V}.

Section Related.

Variable R : World -> World -> Prop.
Hypothesis R_refl : forall w, R w w.
Hypothesis R_trans : forall a b d, R a b -> R b d -> R a d.
Hypothesis R_start_suite :
  forall v s w, R w (final (ResultVisitor.start_suite v s w)).
Hypothesis R_end_suite :
  forall v s w, R w (final (ResultVisitor.end_suite v s w)).
Hypothesis R_visit_test :
  forall v x w, R w (final (ResultVisitor.visit_test v x w)).
Hypothesis R_visit_statistics :
  forall v x w, R w (final (ResultVisitor.visit_statistics v x w)).
Hypothesis R_visit_errors :
  forall v x w, R w (final (ResultVisitor.visit_errors v x w)).
Hypothesis R_end_result :
  forall v x w, R w (final (ResultVisitor.end_result v x w)).

Lemma visit_tree_related :
  (forall s v w, R w (final (ResultVisitor.visit_suite s v w)))
  /\ (forall c v w, R w (final (ResultVisitor.visit_children c v w))).
Proof.
  apply Suite.tree_ind.
  - intros n ln doc md st et el stats c IH v w.
    cbn [ResultVisitor.visit_suite].
    apply bind_final_related; auto.
    intros v1 w1. apply bind_final_related; auto.
  - intros v w. apply R_refl.
  - intros s IHs rest IHrest v w.
    cbn [ResultVisitor.visit_children].
    apply bind_final_related; auto.
  - intros x rest IHrest v w.
    cbn [ResultVisitor.visit_children].
    apply bind_final_related; auto.
Qed.

Lemma visit_result_related (r : ExecutionResult.t) (v : V) (w : World) :
  R w (final (ResultVisitor.visit_result r v w)).
Proof.
  unfold ResultVisitor.visit_result.
  apply bind_final_related; auto. intros v1 w1.
  apply bind_final_related; auto; [apply visit_tree_related|]. intros v2 w2.
  apply bind_final_related; auto.
Qed.

End Related.

Section Commuting.

Variable f : World -> World.
Hypothesis f_start_suite :
  forall v s w, ResultVisitor.start_suite v s (f w)
                = in_world f (ResultVisitor.start_suite v s w).
Hypothesis f_end_suite :
  forall v s w, ResultVisitor.end_suite v s (f w)
                = in_world f (ResultVisitor.end_suite v s w).
Hypothesis f_visit_test :
  forall v x w, ResultVisitor.visit_test v x (f w)
                = in_world f (ResultVisitor.visit_test v x w).
Hypothesis f_visit_statistics :
  forall v x w, ResultVisitor.visit_statistics v x (f w)
                = in_world f (ResultVisitor.visit_statistics v x w).
Hypothesis f_visit_errors :
  forall v x w, ResultVisitor.visit_errors v x (f w)
                = in_world f (ResultVisitor.visit_errors v x w).
Hypothesis f_end_result :
  forall v x w, ResultVisitor.end_result v x (f w)
                = in_world f (ResultVisitor.end_result v x w).

Lemma visit_tree_commutes :
  (forall s v w, ResultVisitor.visit_suite s v (f w)
                 = in_world f (ResultVisitor.visit_suite s v w))
  /\ (forall c v w, ResultVisitor.visit_children c v (f w)
                    = in_world f (ResultVisitor.visit_children c v w)).
Proof.
  apply Suite.tree_ind.
  - intros n ln doc md st et el stats c IH v w.
    cbn [ResultVisitor.visit_suite].
    apply bind_in_world; auto.
    intros v1 w1. apply bind_in_world; auto.
  - intros v w. reflexivity.
  - intros s IHs rest IHrest v w.
    cbn [ResultVisitor.visit_children].
    apply bind_in_world; auto.
  - intros x rest IHrest v w.
    cbn [ResultVisitor.visit_children].
    apply bind_in_world; auto.
Qed.

Lemma visit_result_commutes (r : ExecutionResult.t) (v : V) (w : World) :
  ResultVisitor.visit_result r v (f w)
  = in_world f (ResultVisitor.visit_result r v w).
Proof.
  unfold ResultVisitor.visit_result.
  apply bind_in_world; auto. intros v1 w1.
  apply bind_in_world; auto; [apply visit_tree_commutes|]. intros v2 w2.
  apply bind_in_world; auto.
Qed.

End Commuting.

End TraversalFacts.

(** ** What the hooks do to the world *)

Lemma monitor_start_suite_logs (self : MonitorLogWriterWorker.t) (suite : Suite.t)
    (w : World) :
  exists new,
    MonitorLogWriterWorker.start_suite self suite w
    = Returned self (Reference.logged new w).
Proof. eexists. reflexivity. Qed.

Lemma monitor_visit_test_logs (self : MonitorLogWriterWorker.t) (test : Test.t)
    (w : World) :
  exists new,
    MonitorLogWriterWorker.visit_test self test w
    = Returned self (Reference.logged new w).
Proof.
  unfold MonitorLogWriterWorker.visit_test, bind, ret, Logger.info.
  rewrite emit_logged.
  destruct (Test.failed test), (Test.skipped test);
    rewrite ?emit_logged, ?logged_logged; eexists; reflexivity.
Qed.

Lemma azure_visit_test_logs (self : AzureLogWriterVisitor.t) (test : Test.t)
    (w : World) :
  AzureLogWriterVisitor.visit_test self test w
  = Returned (Reference.buffered self [test])
      (Reference.logged
         [Logging.MakeRecord (AzureLogWriterVisitor._writer self) Logging.INFO
            (AzureLogWriterVisitor.testcase_of test)] w).
Proof. reflexivity. Qed.

(** [end_suite] of the ingestion emitter logs the suite record and then
    calls [post_data] with the one-element array of that record. *)
Lemma azure_end_suite_unfolds (self : AzureLogWriterVisitor.t) (suite : Suite.t)
    (w : World) :
  let attrs := AzureLogWriterVisitor.suite_attrs suite
                 (AzureLogWriterVisitor.testcases self) in
  let publisher := AzureLogWriterVisitor.azure_publisher self in
  AzureLogWriterVisitor.end_suite self suite w
  = match AzureLogPublisher.post_data publisher
            (Py.json_dumps (Py.VList [attrs]))
            (AzureLogPublisher.log_type publisher)
            (Reference.logged
               [Logging.MakeRecord (AzureLogWriterVisitor._writer self) Logging.INFO
                  (Py.VStr ("testsuite " ++ Py.json_dumps attrs))] w) with
    | Returned _ w' => Returned self w'
    | Raised e w' => Raised e w'
    end.
Proof.
  intros attrs publisher.
  unfold AzureLogWriterVisitor.end_suite, bind, ret, Logger.info.
  rewrite emit_logged. fold attrs publisher.
  destruct (AzureLogPublisher.post_data _ _ _ _); reflexivity.
Qed.

(** Whatever a call of [post_data] does, the world it leaves differs from
    the one it found by at most one request and one record. *)
Lemma post_data_final (self : AzureLogPublisher.t) (body log_type : string) (w : World) :
  exists new qs,
    final (AzureLogPublisher.post_data self body log_type w)
    = Reference.logged new (Reference.sent qs w)
    /\ (qs = [] \/ exists q, qs = [q] /\ Http.data q = body).
Proof.
  pose proof (post_data_cases self body log_type w) as H. cbv zeta in H.
  destruct (Base64.b64decode _) as [e|key].
  - rewrite H. exists [], []. split; [|now left].
    destruct w; unfold Reference.logged, Reference.sent; simpl.
    now rewrite !app_nil_r.
  - destruct (network w _ _) as [r|e]; rewrite H; simpl.
    + eexists _, _. split; [reflexivity|]. right. eexists. split; reflexivity.
    + exists [], [Reference.request (AzureLogPublisher.customer_id self) key log_type
                    (utcnow w (List.length (requests w))) body].
      split; [now rewrite logged_nil|]. right. eexists. split; reflexivity.
Qed.

Lemma azure_end_suite_final (self : AzureLogWriterVisitor.t) (suite : Suite.t)
    (w : World) :
  exists new qs,
    final (AzureLogWriterVisitor.end_suite self suite w)
    = Reference.logged new (Reference.sent qs w)
    /\ (qs = [] \/
        exists q, qs = [q] /\
          Http.data q
          = Py.json_dumps
              (Py.VList [AzureLogWriterVisitor.suite_attrs suite
                           (AzureLogWriterVisitor.testcases self)])).
Proof.
  pose proof (azure_end_suite_unfolds self suite w) as E. cbv zeta in E.
  rewrite E. clear E.
  match goal with
  | |- context [AzureLogPublisher.post_data ?p ?b ?t ?w0] =>
      destruct (post_data_final p b t w0) as (new & qs & Hf & Hq);
      destruct (AzureLogPublisher.post_data p b t w0) as [u w'|e w']
  end; simpl in *; subst w';
    eexists _, qs; (split; [|exact Hq]);
    unfold Reference.logged, Reference.sent; simpl;
    rewrite <- app_assoc; reflexivity.
Qed.

Lemma grown_refl (w : World) : Reference.grown w w.
Proof.
  exists [], []. destruct w; unfold Reference.logged, Reference.sent; simpl.
  now rewrite !app_nil_r.
Qed.

Lemma grown_trans (a b d : World) :
  Reference.grown a b -> Reference.grown b d -> Reference.grown a d.
Proof.
  intros (n1 & q1 & ->) (n2 & q2 & ->).
  exists (n1 ++ n2)%list, (q1 ++ q2)%list.
  unfold Reference.logged, Reference.sent; simpl.
  now rewrite !app_assoc.
Qed.

Lemma grown_logged (new : list Logging.Record_) (w : World) :
  Reference.grown w (Reference.logged new w).
Proof.
  exists new, []. destruct w; unfold Reference.logged, Reference.sent; simpl.
  now rewrite app_nil_r.
Qed.

Lemma grown_tree (w w' : World) : Reference.grown w w' -> tree w' = tree w.
Proof. intros (new & qs & ->). reflexivity. Qed.

Lemma grown_surroundings (w w' : World) :
  Reference.grown w w' -> Reference.same_surroundings w w'.
Proof. intros (new & qs & ->). repeat split. Qed.

Lemma monitor_hooks_grow :
  (forall v s w, Reference.grown w (final (MonitorLogWriterWorker.start_suite v s w)))
  /\ (forall v s w, Reference.grown w (final (MonitorLogWriterWorker.end_suite v s w)))
  /\ (forall v x w, Reference.grown w (final (MonitorLogWriterWorker.visit_test v x w)))
  /\ (forall v k w, Reference.grown w (final (MonitorLogWriterWorker.visit_keyword v k w)))
  /\ (forall v x w, Reference.grown w (final (MonitorLogWriterWorker.visit_statistics v x w)))
  /\ (forall v x w, Reference.grown w (final (MonitorLogWriterWorker.visit_errors v x w)))
  /\ (forall v r w, Reference.grown w (final (MonitorLogWriterWorker.end_result v r w))).
Proof.
  repeat split; intros; try apply grown_refl.
  - destruct (monitor_start_suite_logs v s w) as (new & ->). apply grown_logged.
  - destruct (monitor_visit_test_logs v x w) as (new & ->). apply grown_logged.
Qed.

Lemma azure_hooks_grow :
  (forall v s w, Reference.grown w (final (AzureLogWriterVisitor.start_suite v s w)))
  /\ (forall v s w, Reference.grown w (final (AzureLogWriterVisitor.end_suite v s w)))
  /\ (forall v x w, Reference.grown w (final (AzureLogWriterVisitor.visit_test v x w)))
  /\ (forall v k w, Reference.grown w (final (AzureLogWriterVisitor.visit_keyword v k w)))
  /\ (forall v x w, Reference.grown w (final (AzureLogWriterVisitor.visit_statistics v x w)))
  /\ (forall v x w, Reference.grown w (final (AzureLogWriterVisitor.visit_errors v x w)))
  /\ (forall v r w, Reference.grown w (final (AzureLogWriterVisitor.end_result v r w))).
Proof.
  repeat split; intros; try apply grown_refl.
  - destruct (azure_end_suite_final v s w) as (new & qs & -> & _).
    now exists new, qs.
  - rewrite azure_visit_test_logs. apply grown_logged.
Qed.

Lemma monitor_write_grows (output : string) (w : World) :
  Reference.grown w (final (MonitorLogWriter.write output w)).
Proof.
  unfold MonitorLogWriter.write.
  apply bind_final_related; [apply grown_trans| |intros; apply grown_refl].
  apply visit_result_related;
    first [apply grown_refl | apply grown_trans | apply monitor_hooks_grow].
Qed.

Lemma azure_write_grows (output : string) (settings : AzureLogWriter.Settings)
    (w : World) :
  Reference.grown w (final (AzureLogWriter.write output settings w)).
Proof.
  unfold AzureLogWriter.write.
  apply bind_final_related; [apply grown_trans| |intros; apply grown_refl].
  apply visit_result_related;
    first [apply grown_refl | apply grown_trans | apply azure_hooks_grow].
Qed.

(** ** Passes do not depend on what was logged or sent before *)

Section HooksCommute.

Variable f : World -> World.
Hypothesis f_tree : forall w, tree (f w) = tree w.
Hypothesis f_emit :
  forall name lvl m w,
    Logger.emit name lvl m (f w) = in_world f (Logger.emit name lvl m w).

Lemma ret_in_world {A : Type} (a : A) (w : World) :
  ret a (f w) = in_world f (ret a w).
Proof. reflexivity. Qed.

Lemma monitor_write_commutes (output : string) (w : World) :
  MonitorLogWriter.write output (f w)
  = in_world f (MonitorLogWriter.write output w).
Proof.
  unfold MonitorLogWriter.write. rewrite f_tree.
  apply bind_in_world; [|intros; apply ret_in_world].
  apply visit_result_commutes; intros; try apply ret_in_world.
  - change (ResultVisitor.start_suite v s)
      with (MonitorLogWriterWorker.start_suite v s).
    unfold MonitorLogWriterWorker.start_suite, Logger.info.
    apply bind_in_world; [apply f_emit|intros; apply ret_in_world].
  - change (ResultVisitor.visit_test v x)
      with (MonitorLogWriterWorker.visit_test v x).
    unfold MonitorLogWriterWorker.visit_test, Logger.info.
    apply bind_in_world; [apply f_emit|intros _ w1].
    apply bind_in_world;
      [destruct (Test.failed x); [apply f_emit|apply ret_in_world]|intros _ w2].
    apply bind_in_world;
      [destruct (Test.skipped x); [apply f_emit|apply ret_in_world]|intros _ w3].
    apply ret_in_world.
Qed.

Hypothesis f_now : forall w, rfc1123_now (f w) = in_world f (rfc1123_now w).
Hypothesis f_post :
  forall uri body headers w,
    Requests.post uri body headers (f w)
    = in_world f (Requests.post uri body headers w).

Lemma post_data_commutes (self : AzureLogPublisher.t) (body log_type : string)
    (w : World) :
  AzureLogPublisher.post_data self body log_type (f w)
  = in_world f (AzureLogPublisher.post_data self body log_type w).
Proof.
  unfold AzureLogPublisher.post_data.
  apply bind_in_world; [apply f_now|intros date w1].
  destruct (AzureLogPublisher.build_signature _ _ _ _ _ _); [reflexivity|].
  apply bind_in_world; [apply f_post|intros r w2].
  unfold Logger.info, Logger.error.
  destruct (_ && _); apply f_emit.
Qed.

Lemma azure_write_commutes (output : string) (settings : AzureLogWriter.Settings)
    (w : World) :
  AzureLogWriter.write output settings (f w)
  = in_world f (AzureLogWriter.write output settings w).
Proof.
  unfold AzureLogWriter.write. rewrite f_tree.
  apply bind_in_world; [|intros; apply ret_in_world].
  apply visit_result_commutes; intros; try apply ret_in_world.
  - change (ResultVisitor.end_suite v s)
      with (AzureLogWriterVisitor.end_suite v s).
    unfold AzureLogWriterVisitor.end_suite, Logger.info.
    apply bind_in_world; [apply f_emit|intros _ w1].
    apply bind_in_world; [apply post_data_commutes|intros; apply ret_in_world].
  - change (ResultVisitor.visit_test v x)
      with (AzureLogWriterVisitor.visit_test v x).
    unfold AzureLogWriterVisitor.visit_test, Logger.info.
    apply bind_in_world; [apply f_emit|intros; apply ret_in_world].
Qed.

End HooksCommute.

Lemma after_records_emit (earlier : list Logging.Record_) (name : string)
    (lvl : Logging.Level) (m : Py.value) (w : World) :
  Logger.emit name lvl m (Reference.after_records earlier w)
  = in_world (Reference.after_records earlier) (Logger.emit name lvl m w).
Proof.
  unfold Logger.emit, Reference.after_records; simpl.
  now rewrite app_assoc.
Qed.

Lemma after_records_post (earlier : list Logging.Record_) (uri body : string)
    (headers : list (string * string)) (w : World) :
  Requests.post uri body headers (Reference.after_records earlier w)
  = in_world (Reference.after_records earlier) (Requests.post uri body headers w).
Proof.
  unfold Requests.post; simpl.
  destruct (network w _ _); reflexivity.
Qed.

Lemma after_no_records (w : World) :
  Reference.after_records (records w) (Reference.no_records w) = w.
Proof.
  destruct w; unfold Reference.after_records, Reference.no_records; simpl.
  now rewrite app_nil_r.
Qed.

Lemma logged_after_no_records (new : list Logging.Record_)
    (qs : list Http.Request) (w : World) :
  Reference.logged new (Reference.sent qs w)
  = Reference.after_records (records w ++ new)
      (Reference.sent qs (Reference.no_records w)).
Proof.
  unfold Reference.logged, Reference.sent, Reference.after_records,
    Reference.no_records; simpl.
  now rewrite app_nil_r.
Qed.

Lemma final_in_world {A : Type} (f : World -> World) (o : outcome A) :
  final (in_world f o) = f (final o).
Proof. destruct o; reflexivity. Qed.

Lemma returns_in_world {A : Type} (f : World -> World) (o : outcome A) :
  returns (in_world f o) = returns o.
Proof. destruct o; reflexivity. Qed.

(** A pass of the xUnit-style emitter only adds records. *)
Lemma monitor_write_logs (output : string) (w : World) :
  exists new, final (MonitorLogWriter.write output w) = Reference.logged new w.
Proof.
  unfold MonitorLogWriter.write.
  set (R := fun a b : World => exists new, b = Reference.logged new a).
  assert (Hrefl : forall a, R a a) by (intros a; exists []; now rewrite logged_nil).
  assert (Htrans : forall a b d, R a b -> R b d -> R a d).
  { intros a b d (n1 & ->) (n2 & ->). exists (n1 ++ n2)%list. apply logged_logged. }
  change (R w (final ((_ <- ResultVisitor.visit_result (tree w)
                             (MonitorLogWriterWorker.__init__ output) ;; ret tt) w))).
  apply bind_final_related; [exact Htrans| |intros; apply Hrefl].
  apply visit_result_related; try assumption; intros; try apply Hrefl.
  - destruct (monitor_start_suite_logs v s w0) as (new & E).
    exists new. change (ResultVisitor.start_suite v s w0)
      with (MonitorLogWriterWorker.start_suite v s w0). now rewrite E.
  - destruct (monitor_visit_test_logs v x w0) as (new & E).
    exists new. change (ResultVisitor.visit_test v x w0)
      with (MonitorLogWriterWorker.visit_test v x w0). now rewrite E.
Qed.

(** C8: no hook of either emitter changes the result tree, and neither
    does a whole pass; so the tree is the same before and after the two
    passes in either order, and each emitter writes the same records and
    sends the same requests whether or not the other ran before it. *)
Theorem C8_emitters_leave_the_tree_unchanged :
  (forall (v : MonitorLogWriterWorker.t) (s : Suite.t) (x : Test.t) (k : Keyword.t)
          (st : Statistics.t) (es : list string) (r : ExecutionResult.t) (w : World),
      tree (final (MonitorLogWriterWorker.start_suite v s w)) = tree w
      /\ tree (final (MonitorLogWriterWorker.end_suite v s w)) = tree w
      /\ tree (final (MonitorLogWriterWorker.visit_test v x w)) = tree w
      /\ tree (final (MonitorLogWriterWorker.visit_keyword v k w)) = tree w
      /\ tree (final (MonitorLogWriterWorker.visit_statistics v st w)) = tree w
      /\ tree (final (MonitorLogWriterWorker.visit_errors v es w)) = tree w
      /\ tree (final (MonitorLogWriterWorker.end_result v r w)) = tree w)
  /\ (forall (v : AzureLogWriterVisitor.t) (s : Suite.t) (x : Test.t) (k : Keyword.t)
             (st : Statistics.t) (es : list string) (r : ExecutionResult.t) (w : World),
      tree (final (AzureLogWriterVisitor.start_suite v s w)) = tree w
      /\ tree (final (AzureLogWriterVisitor.end_suite v s w)) = tree w
      /\ tree (final (AzureLogWriterVisitor.visit_test v x w)) = tree w
      /\ tree (final (AzureLogWriterVisitor.visit_keyword v k w)) = tree w
      /\ tree (final (AzureLogWriterVisitor.visit_statistics v st w)) = tree w
      /\ tree (final (AzureLogWriterVisitor.visit_errors v es w)) = tree w
      /\ tree (final (AzureLogWriterVisitor.end_result v r w)) = tree w)
  /\ (forall output w, tree (final (MonitorLogWriter.write output w)) = tree w)
  /\ (forall output settings w,
        tree (final (AzureLogWriter.write output settings w)) = tree w)
  /\ (forall o1 o2 settings w,
        let monitor := MonitorLogWriter.write o1 in
        let azure := AzureLogWriter.write o2 settings in
        tree (final (azure (final (monitor w)))) = tree w
        /\ tree (final (monitor (final (azure w)))) = tree w
        /\ exists by_monitor by_azure,
             records (final (monitor w)) = (records w ++ by_monitor)%list
             /\ records (final (azure w)) = (records w ++ by_azure)%list
             /\ records (final (azure (final (monitor w))))
                = (records w ++ by_monitor ++ by_azure)%list
             /\ records (final (monitor (final (azure w))))
                = (records w ++ by_azure ++ by_monitor)%list
             /\ requests (final (monitor w)) = requests w
             /\ requests (final (azure (final (monitor w))))
                = requests (final (azure w))
             /\ requests (final (monitor (final (azure w))))
                = requests (final (azure w))
             /\ returns (azure (final (monitor w))) = returns (azure w)).
Proof.
  split; [|split; [|split; [|split]]].
  - intros v s x k st es r w.
    destruct monitor_hooks_grow as (H1 & H2 & H3 & H4 & H5 & H6 & H7).
    repeat split; apply grown_tree; auto.
  - intros v s x k st es r w.
    destruct azure_hooks_grow as (H1 & H2 & H3 & H4 & H5 & H6 & H7).
    repeat split; apply grown_tree; auto.
  - intros output w. apply grown_tree, monitor_write_grows.
  - intros output settings w. apply grown_tree, azure_write_grows.
  - intros o1 o2 settings w monitor azure.
    split; [|split].
    + transitivity (tree (final (monitor w))); apply grown_tree;
        [apply azure_write_grows|apply monitor_write_grows].
    + transitivity (tree (final (azure w))); apply grown_tree;
        [apply monitor_write_grows|apply azure_write_grows].
    + set (w0 := Reference.no_records w).
      (* each pass on [w] is the pass on [w0] placed after the records of [w] *)
      assert (Em : monitor w
                   = in_world (Reference.after_records (records w)) (monitor w0)).
      { rewrite <- (after_no_records w) at 1.
        apply monitor_write_commutes; [reflexivity|].
        intros; apply after_records_emit. }
      assert (Ea : azure w
                   = in_world (Reference.after_records (records w)) (azure w0)).
      { rewrite <- (after_no_records w) at 1.
        apply azure_write_commutes;
          [reflexivity|intros; apply after_records_emit|reflexivity|
           intros; apply after_records_post]. }
      destruct (monitor_write_logs o1 w0) as (M & HM). fold monitor in HM.
      destruct (azure_write_grows o2 settings w0) as (A & Q & HA). fold azure in HA.
      assert (Fm : final (monitor w) = Reference.logged M w).
      { rewrite Em, final_in_world, HM.
        unfold Reference.after_records, Reference.logged, w0,
          Reference.no_records; simpl. destruct w; reflexivity. }
      assert (Fa : final (azure w) = Reference.logged A (Reference.sent Q w)).
      { rewrite Ea, final_in_world, HA.
        unfold Reference.after_records, Reference.logged, Reference.sent, w0,
          Reference.no_records; simpl. destruct w; reflexivity. }
      (* the second pass, after the first *)
      assert (Eam : azure (final (monitor w))
                    = in_world (Reference.after_records (records w ++ M)) (azure w0)).
      { rewrite Fm.
        replace (Reference.logged M w)
          with (Reference.after_records (records w ++ M) w0).
        - apply azure_write_commutes;
            [reflexivity|intros; apply after_records_emit|reflexivity|
             intros; apply after_records_post].
        - unfold Reference.after_records, Reference.logged, w0,
            Reference.no_records; simpl. now rewrite app_nil_r. }
      assert (Ema : monitor (final (azure w))
                    = in_world (Reference.after_records (records w ++ A))
                        (in_world (Reference.sent Q) (monitor w0))).
      { rewrite Fa, logged_after_no_records. fold w0. unfold monitor.
        rewrite (monitor_write_commutes (Reference.after_records (records w ++ A)));
          [|reflexivity|intros; apply after_records_emit].
        f_equal.
        apply monitor_write_commutes; [reflexivity|reflexivity]. }
      exists M, A.
      rewrite Eam, Ema, Fm, Fa, !final_in_world, !returns_in_world, HM, HA, Ea,
        returns_in_world.
      unfold Reference.after_records, Reference.logged, Reference.sent, w0,
        Reference.no_records; simpl.
      rewrite <- !app_assoc.
      repeat split; reflexivity.
Qed.

(** ** A whole pass of the ingestion emitter *)

Lemma grow_grow (n1 n2 : list Logging.Record_) (q1 q2 : list Http.Request)
    (w : World) :
  Reference.logged n2 (Reference.sent q2 (Reference.logged n1 (Reference.sent q1 w)))
  = Reference.logged (n1 ++ n2) (Reference.sent (q1 ++ q2) w).
Proof.
  unfold Reference.logged, Reference.sent; simpl. now rewrite !app_assoc.
Qed.

Lemma logged_as_grown (new : list Logging.Record_) (w : World) :
  Reference.logged new w = Reference.logged new (Reference.sent [] w).
Proof.
  unfold Reference.logged, Reference.sent; simpl. now rewrite app_nil_r.
Qed.

Lemma answers_grown (new : list Logging.Record_) (qs : list Http.Request)
    (w : World) :
  Reference.answers w -> Reference.answers (Reference.logged new (Reference.sent qs w)).
Proof. intros H n q. apply H. Qed.

Lemma buffered_nil (v : AzureLogWriterVisitor.t) : Reference.buffered v [] = v.
Proof. destruct v; unfold Reference.buffered; simpl. now rewrite app_nil_r. Qed.

Lemma buffered_buffered (v : AzureLogWriterVisitor.t) (a b : list Test.t) :
  Reference.buffered (Reference.buffered v a) b = Reference.buffered v (a ++ b).
Proof.
  unfold Reference.buffered; simpl. now rewrite map_app, app_assoc.
Qed.

(** With a key that decodes and a network that answers, [end_suite]
    returns after one request whose body is the one-element array of the
    suite record around the buffer as it stands. *)
Lemma azure_end_suite_answered (v : AzureLogWriterVisitor.t) (s : Suite.t)
    (w : World) :
  Reference.key_decodes (AzureLogWriterVisitor.azure_publisher v) ->
  Reference.answers w ->
  exists new q,
    AzureLogWriterVisitor.end_suite v s w
    = Returned v (Reference.logged new (Reference.sent [q] w))
    /\ Http.data q
       = Py.json_dumps
           (Py.VList [AzureLogWriterVisitor.suite_attrs s
                        (AzureLogWriterVisitor.testcases v)]).
Proof.
  intros (key & Hkey) Hans.
  pose proof (azure_end_suite_unfolds v s w) as E. cbv zeta in E. rewrite E. clear E.
  match goal with
  | |- context [AzureLogPublisher.post_data ?p ?b ?t ?w0] =>
      pose proof (post_data_cases p b t w0) as H
  end.
  cbv zeta in H. rewrite Hkey in H.
  match type of H with
  | match network ?w1 ?n ?q with _ => _ end =>
      destruct (Hans n q) as (r & Hr);
      change (network w1 n q) with (network w n q) in H;
      rewrite Hr in H; rewrite H;
      exists ([Logging.MakeRecord (AzureLogWriterVisitor._writer v) Logging.INFO
                 (Py.VStr ("testsuite " ++ Py.json_dumps
                    (AzureLogWriterVisitor.suite_attrs s
                       (AzureLogWriterVisitor.testcases v))))] ++
              [Reference.response_record
                 (AzureLogPublisher.logger (AzureLogWriterVisitor.azure_publisher v)) r])%list,
             q
  end.
  split; [|reflexivity].
  f_equal. unfold Reference.logged, Reference.sent; simpl.
  now rewrite <- app_assoc.
Qed.

Lemma visit_suite_unfolds {V : Type} {hooks : ResultVisitor.Hooks V}
    (s : Suite.t) (v : V) :
  ResultVisitor.visit_suite s v
  = (v1 <- ResultVisitor.start_suite v s ;;
     v2 <- ResultVisitor.visit_children (Suite.children s) v1 ;;
     ResultVisitor.end_suite v2 s).
Proof. destruct s; reflexivity. Qed.

Lemma visit_children_suite {V : Type} {hooks : ResultVisitor.Hooks V}
    (s : Suite.t) (rest : Suite.seq) (v : V) :
  ResultVisitor.visit_children (Suite.ThenSuite s rest) v
  = (v1 <- ResultVisitor.visit_suite s v ;; ResultVisitor.visit_children rest v1).
Proof. reflexivity. Qed.

Lemma visit_children_test {V : Type} {hooks : ResultVisitor.Hooks V}
    (x : Test.t) (rest : Suite.seq) (v : V) :
  ResultVisitor.visit_children (Suite.ThenTest x rest) v
  = (v1 <- ResultVisitor.visit_test v x ;; ResultVisitor.visit_children rest v1).
Proof. reflexivity. Qed.

Lemma azure_visit_tree :
  (forall s v w,
     Reference.key_decodes (AzureLogWriterVisitor.azure_publisher v) ->
     Reference.answers w ->
     exists new qs,
       ResultVisitor.visit_suite s v w
       = Returned (Reference.buffered v (Suite.all_tests s))
           (Reference.logged new (Reference.sent qs w))
       /\ map Http.data qs
          = Reference.payloads s (AzureLogWriterVisitor.testcases v))
  /\ (forall c v w,
     Reference.key_decodes (AzureLogWriterVisitor.azure_publisher v) ->
     Reference.answers w ->
     exists new qs,
       ResultVisitor.visit_children c v w
       = Returned (Reference.buffered v (Suite.all_tests_seq c))
           (Reference.logged new (Reference.sent qs w))
       /\ map Http.data qs
          = Reference.payloads_seq c (AzureLogWriterVisitor.testcases v)).
Proof.
  apply Suite.tree_ind.
  - intros n ln doc md st et el stats c IH v w Hkey Hans.
    destruct (IH v w Hkey Hans) as (n1 & q1 & E1 & D1).
    set (s := Suite.Make n ln doc md st et el stats c).
    set (v1 := Reference.buffered v (Suite.all_tests_seq c)) in *.
    destruct (azure_end_suite_answered v1 s
                (Reference.logged n1 (Reference.sent q1 w)))
      as (n2 & q & E2 & D2); [exact Hkey|now apply answers_grown|].
    exists (n1 ++ n2)%list, (q1 ++ [q])%list. split.
    + rewrite visit_suite_unfolds.
      change (Suite.children s) with c.
      change (ResultVisitor.start_suite v s) with (ret (A := AzureLogWriterVisitor.t) v).
      cbv beta iota delta [bind ret]. rewrite E1.
      change (ResultVisitor.end_suite v1 s)
        with (AzureLogWriterVisitor.end_suite v1 s).
      rewrite E2, grow_grow. reflexivity.
    + rewrite map_app, D1. simpl. rewrite D2. reflexivity.
  - intros v w Hkey Hans. exists [], []. split; [|reflexivity].
    cbn [ResultVisitor.visit_children]. unfold ret.
    rewrite buffered_nil. f_equal.
    destruct w; unfold Reference.logged, Reference.sent; simpl.
    now rewrite !app_nil_r.
  - intros s IHs rest IHrest v w Hkey Hans.
    destruct (IHs v w Hkey Hans) as (n1 & q1 & E1 & D1).
    destruct (IHrest (Reference.buffered v (Suite.all_tests s))
                (Reference.logged n1 (Reference.sent q1 w)))
      as (n2 & q2 & E2 & D2); [exact Hkey|now apply answers_grown|].
    exists (n1 ++ n2)%list, (q1 ++ q2)%list. split.
    + rewrite visit_children_suite. unfold bind.
      rewrite E1, E2, grow_grow, buffered_buffered. reflexivity.
    + rewrite map_app, D1, D2. reflexivity.
  - intros x rest IHrest v w Hkey Hans.
    destruct (IHrest (Reference.buffered v [x])
                (Reference.logged
                   [Logging.MakeRecord (AzureLogWriterVisitor._writer v) Logging.INFO
                      (AzureLogWriterVisitor.testcase_of x)] (Reference.sent [] w)))
      as (n2 & q2 & E2 & D2); [exact Hkey|now apply answers_grown|].
    eexists _, _. split.
    + rewrite visit_children_test. unfold bind.
      change (ResultVisitor.visit_test v x w)
        with (AzureLogWriterVisitor.visit_test v x w).
      rewrite azure_visit_test_logs, logged_as_grown, E2, grow_grow,
        buffered_buffered.
      reflexivity.
    + exact D2.
Qed.

Lemma payloads_length :
  (forall s buffer,
     List.length (Reference.payloads s buffer) = List.length (Suite.suites_left s))
  /\ (forall c buffer,
     List.length (Reference.payloads_seq c buffer)
     = List.length (Suite.suites_left_seq c)).
Proof.
  apply Suite.tree_ind; intros; simpl;
    rewrite ?length_app; simpl; auto.
Qed.

(** With a key that decodes and a network that answers, a whole pass
    returns after one request per suite, sent as the suites are left. *)
Lemma azure_write_answered (output : string) (settings : AzureLogWriter.Settings)
    (w : World) :
  (exists key, Base64.b64decode (AzureLogWriter.shared_key settings) = inr key) ->
  Reference.answers w ->
  exists new qs,
    AzureLogWriter.write output settings w
    = Returned tt (Reference.logged new (Reference.sent qs w))
    /\ map Http.data qs = Reference.payloads (ExecutionResult.suite (tree w)) [].
Proof.
  intros Hkey Hans.
  set (v := AzureLogWriterVisitor.__init__ output
              (AzureLogPublisher.__init__ output (AzureLogWriter.customer_id settings)
                 (AzureLogWriter.shared_key settings) (AzureLogWriter.log_type settings))).
  destruct (proj1 azure_visit_tree (ExecutionResult.suite (tree w)) v w Hkey Hans)
    as (new & qs & E & D).
  exists new, qs. split; [|exact D].
  unfold AzureLogWriter.write, ResultVisitor.visit_result. fold v.
  change (ResultVisitor.visit_statistics v (ExecutionResult.statistics (tree w)))
    with (ret (A := AzureLogWriterVisitor.t) v).
  cbv beta iota delta [bind ret]. rewrite E. reflexivity.
Qed.

(** C3, as stated, fails: when the request gets no response, the
    exception of the transport leaves [post_data], and with it the pass;
    of the three suites of the run only the first has made its POST. *)
Lemma C3_transport_failure_counterexample :
  let w := Scenario.world Scenario.unreachable in
  returns (AzureLogPublisher.post_data Reference.fixed_publisher "[]" "RobotLog" w)
    = false
  /\ (exists w',
        AzureLogPublisher.post_data Reference.fixed_publisher "[]" "RobotLog" w
        = Raised (Py.RequestException "connection refused") w')
  /\ returns (AzureLogWriter.write "azure.log" Scenario.settings w) = false
  /\ List.length (requests (final (AzureLogWriter.write "azure.log" Scenario.settings w)))
     = 1%nat
  /\ List.length (Suite.suites_left (ExecutionResult.suite (tree w))) = 3%nat.
Proof.
  intros w. repeat split; try (vm_compute; reflexivity).
  eexists. vm_compute. reflexivity.
Qed.

(** C3, amended: provided the shared key decodes, [post_data] returns
    normally for every response that the POST comes back with: a status
    from 200 to 299 is logged as accepted, any other status is logged as
    an error with its status code, reason phrase and body; and a pass
    whose POSTs are all answered, with whatever statuses, returns normally
    after one POST per suite, handing its caller nothing but its return.
    An exception raised by the transport itself is not caught. *)
Theorem C3_post_data_returns_for_every_response :
  (forall self body log_type w key r,
     let n := List.length (requests w) in
     let q := Reference.request (AzureLogPublisher.customer_id self) key log_type
                (utcnow w n) body in
     Base64.b64decode (AzureLogPublisher.shared_key self) = inr key ->
     network w n q = Http.Answered r ->
     (exists entry,
        AzureLogPublisher.post_data self body log_type w
        = Returned tt (Reference.logged [entry] (Reference.sent [q] w))
        /\ (200 <= Http.status_code r <= 299 ->
            entry = Logging.MakeRecord (AzureLogPublisher.logger self) Logging.INFO
                      (Py.VStr "Accepted"))
        /\ (~ 200 <= Http.status_code r <= 299 ->
            entry = Logging.MakeRecord (AzureLogPublisher.logger self) Logging.ERROR
                      (Py.VStr ("Response code: " ++ Py.str_int (Http.status_code r)
                                ++ " " ++ Http.reason r ++ " " ++ Http.text r)))))
  /\ (forall output settings w,
        (exists key, Base64.b64decode (AzureLogWriter.shared_key settings) = inr key) ->
        Reference.answers w ->
        exists new qs,
          AzureLogWriter.write output settings w
          = Returned tt (Reference.logged new (Reference.sent qs w))
          /\ List.length qs
             = List.length (Suite.suites_left (ExecutionResult.suite (tree w))))
  /\ (forall self body log_type w key e,
        let n := List.length (requests w) in
        let q := Reference.request (AzureLogPublisher.customer_id self) key log_type
                   (utcnow w n) body in
        Base64.b64decode (AzureLogPublisher.shared_key self) = inr key ->
        network w n q = Http.Failed e ->
        AzureLogPublisher.post_data self body log_type w
        = Raised e (Reference.sent [q] w)).
Proof.
  split; [|split].
  - intros self body log_type w key r n q Hkey Hr.
    pose proof (post_data_cases self body log_type w) as H. cbv zeta in H.
    rewrite Hkey in H. fold n in H. fold q in H. rewrite Hr in H.
    exists (Reference.response_record (AzureLogPublisher.logger self) r).
    split; [exact H|]. unfold Reference.response_record.
    split; intros Hs.
    + replace ((200 <=? Http.status_code r) && (Http.status_code r <=? 299))
        with true; [reflexivity|].
      symmetry. apply andb_true_iff. split; apply Z.leb_le; lia.
    + replace ((200 <=? Http.status_code r) && (Http.status_code r <=? 299))
        with false; [reflexivity|].
      symmetry. apply andb_false_iff.
      destruct (Z.leb_spec 200 (Http.status_code r)); [|now left].
      destruct (Z.leb_spec (Http.status_code r) 299); [|now right].
      exfalso. apply Hs. lia.
  - intros output settings w Hkey Hans.
    destruct (azure_write_answered output settings w Hkey Hans) as (new & qs & E & D).
    exists new, qs. split; [exact E|].
    rewrite <- (length_map Http.data), D. apply payloads_length.
  - intros self body log_type w key e n q Hkey He.
    pose proof (post_data_cases self body log_type w) as H. cbv zeta in H.
    rewrite Hkey in H. fold n in H. fold q in H. rewrite He in H. exact H.
Qed.

(** The theorem at a workspace that answers every request with status
    500: the call returns with an error logged, and the pass over the
    three suites of the small run makes its three POSTs. *)
Lemma C3_server_error_witness :
  let w := Scenario.world Scenario.server_error in
  let key := Bytes.utf8 "secret-shared-key" in
  let q := Reference.request "workspace-1" key "RobotLog" Reference.fixed_date "[]" in
  Base64.b64decode (AzureLogPublisher.shared_key Reference.fixed_publisher) = inr key
  /\ network w 0%nat q
     = Http.Answered (Http.MakeResponse 500 "Internal Server Error" "try later")
  /\ (exists entry,
        AzureLogPublisher.post_data Reference.fixed_publisher "[]" "RobotLog" w
        = Returned tt (Reference.logged [entry] (Reference.sent [q] w))
        /\ (200 <= 500 <= 299 ->
            entry = Logging.MakeRecord "azure.log" Logging.INFO (Py.VStr "Accepted"))
        /\ (~ 200 <= 500 <= 299 ->
            entry = Logging.MakeRecord "azure.log" Logging.ERROR
                      (Py.VStr ("Response code: " ++ Py.str_int 500 ++ " " ++
                                "Internal Server Error" ++ " " ++ "try later"))))
  /\ (exists key', Base64.b64decode (AzureLogWriter.shared_key Scenario.settings)
                   = inr key')
  /\ Reference.answers w
  /\ exists new qs,
       AzureLogWriter.write "azure.log" Scenario.settings w
       = Returned tt (Reference.logged new (Reference.sent qs w))
       /\ List.length qs = 3%nat.
Proof.
  intros w key q.
  assert (Hkey : Base64.b64decode (AzureLogPublisher.shared_key Reference.fixed_publisher)
                 = inr key) by (vm_compute; reflexivity).
  assert (Hkey' : exists key', Base64.b64decode
                    (AzureLogWriter.shared_key Scenario.settings) = inr key')
    by (exists key; vm_compute; reflexivity).
  assert (Hans : Reference.answers w) by (intros n0 q0; eexists; reflexivity).
  split; [exact Hkey|]. split; [reflexivity|].
  split; [|split; [exact Hkey'|split; [exact Hans|]]].
  - exact (proj1 C3_post_data_returns_for_every_response
             Reference.fixed_publisher "[]" "RobotLog" w key
             (Http.MakeResponse 500 "Internal Server Error" "try later")
             Hkey eq_refl).
  - exact (proj1 (proj2 C3_post_data_returns_for_every_response)
             "azure.log" Scenario.settings w Hkey' Hans).
Defined.

(** C1, at a tree with two sibling suites: the pass makes one POST per
    suite, each a one-element array with the suite record, but the buffer
    is never emptied, so the record sent on leaving [B] holds two testcase
    records although [B] has the single test [t2]; the first of them
    belongs to suite [A]. *)
Theorem C1_buffer_is_never_emptied :
  let w := Scenario.world Scenario.accepted in
  let record_of := AzureLogWriterVisitor.testcase_of in
  let sent_with (s : Suite.t) (buffer : list Py.value) :=
    Py.json_dumps (Py.VList [AzureLogWriterVisitor.suite_attrs s buffer]) in
  returns (AzureLogWriter.write "azure.log" Scenario.settings w) = true
  /\ map Http.data
       (requests (final (AzureLogWriter.write "azure.log" Scenario.settings w)))
     = [sent_with Scenario.A [record_of Scenario.t1];
        sent_with Scenario.B [record_of Scenario.t1; record_of Scenario.t2];
        sent_with Scenario.R [record_of Scenario.t1; record_of Scenario.t2]]
  /\ Suite.suites_left (ExecutionResult.suite (tree w))
     = [Scenario.A; Scenario.B; Scenario.R]
  /\ Suite.own_tests (Suite.children Scenario.B) = [Scenario.t2]
  /\ AzureLogWriterVisitor.suite_attrs Scenario.B
       [record_of Scenario.t1; record_of Scenario.t2]
     = Py.VDict [("name", Py.VStr "B"); ("tests", Py.VInt 1);
                 ("failures", Py.VInt 1); ("skipped", Py.VInt 0);
                 ("time", Py.VStr "0.034");
                 ("timestamp", Py.VStr "2024-01-02T03:04:05.135000");
                 ("testcases",
                  Py.VList [record_of Scenario.t1; record_of Scenario.t2])]
  /\ sent_with Scenario.B [record_of Scenario.t1; record_of Scenario.t2]
     <> sent_with Scenario.B [record_of Scenario.t2]
  /\ record_of Scenario.t1
     = Py.VDict [("classname", Py.VStr "R.A"); ("name", Py.VStr "t1");
                 ("time", Py.VStr "0.012"); ("message", Py.VStr "")]
  /\ Suite.longname Scenario.B = "R.B".
Proof.
  intros w record_of sent_with.
  repeat split; try (vm_compute; reflexivity).
  vm_compute. discriminate.
Qed.

(** What [end_suite] of the ingestion emitter does, case by case: it
    logs the suite record; if the key does not decode it raises there; if
    it decodes, one request goes out with the one-element array of the
    same record, and the call returns with the response noted, or raises
    what the transport raised. *)
Lemma azure_end_suite_cases (self : AzureLogWriterVisitor.t) (suite : Suite.t)
    (w : World) :
  let publisher := AzureLogWriterVisitor.azure_publisher self in
  let fields := Pass.suite_fields suite (AzureLogWriterVisitor.testcases self) in
  let suite_record :=
    Logging.MakeRecord (AzureLogWriterVisitor._writer self) Logging.INFO
      (Py.VStr ("testsuite " ++ Py.json_dumps (Py.VDict fields))) in
  let n := List.length (requests w) in
  match Base64.b64decode (AzureLogPublisher.shared_key publisher) with
  | inl e =>
      AzureLogWriterVisitor.end_suite self suite w
      = Raised e (Reference.logged [suite_record] w)
  | inr key =>
      let q := Reference.request (AzureLogPublisher.customer_id publisher) key
                 (AzureLogPublisher.log_type publisher) (utcnow w n)
                 (Py.json_dumps (Py.VList [Py.VDict fields])) in
      match network w n q with
      | Http.Answered r =>
          AzureLogWriterVisitor.end_suite self suite w
          = Returned self
              (Reference.logged
                 [suite_record;
                  Reference.response_record (AzureLogPublisher.logger publisher) r]
                 (Reference.sent [q] w))
      | Http.Failed e =>
          AzureLogWriterVisitor.end_suite self suite w
          = Raised e (Reference.logged [suite_record] (Reference.sent [q] w))
      end
  end.
Proof.
  intros publisher fields suite_record n.
  assert (Hattrs : AzureLogWriterVisitor.suite_attrs suite
                     (AzureLogWriterVisitor.testcases self) = Py.VDict fields).
  { unfold AzureLogWriterVisitor.suite_attrs, fields, Pass.suite_fields.
    destruct (Suite.starttime suite) as [[|c s]|]; reflexivity. }
  pose proof (azure_end_suite_unfolds self suite w) as U. cbv zeta in U.
  rewrite Hattrs in U. fold publisher in U. fold suite_record in U.
  pose proof (post_data_cases publisher (Py.json_dumps (Py.VList [Py.VDict fields]))
                (AzureLogPublisher.log_type publisher)
                (Reference.logged [suite_record] w)) as C.
  cbv zeta in C.
  change (List.length (requests (Reference.logged [suite_record] w))) with n in C.
  change (utcnow (Reference.logged [suite_record] w)) with (utcnow w) in C.
  change (network (Reference.logged [suite_record] w)) with (network w) in C.
  destruct (Base64.b64decode _) as [e|key].
  - rewrite C in U. exact U.
  - cbv zeta. destruct (network w n _) as [r|e]; rewrite C in U; rewrite U.
    + f_equal. unfold Reference.logged, Reference.sent; simpl.
      now rewrite <- app_assoc.
    + reflexivity.
Qed.

Lemma grow_with (P : Logging.Record_ -> Prop) (Q : Http.Request -> Prop)
    (a b d : World) :
  (exists new qs, b = Reference.logged new (Reference.sent qs a)
                  /\ Forall P new /\ Forall Q qs) ->
  (exists new qs, d = Reference.logged new (Reference.sent qs b)
                  /\ Forall P new /\ Forall Q qs) ->
  exists new qs, d = Reference.logged new (Reference.sent qs a)
                 /\ Forall P new /\ Forall Q qs.
Proof.
  intros (n1 & q1 & -> & P1 & Q1) (n2 & q2 & -> & P2 & Q2).
  exists (n1 ++ n2)%list, (q1 ++ q2)%list. split; [apply grow_grow|].
  split; apply Forall_app; now split.
Qed.

Lemma testcase_of_is_raw (tests : list Test.t) (test : Test.t) :
  In test tests ->
  Pass.raw_testcase tests (AzureLogWriterVisitor.testcase_of test).
Proof. intros Hin. eexists test, _. split; [exact Hin|reflexivity]. Qed.

Lemma azure_end_suite_emits (T : list Test.t) (v : AzureLogWriterVisitor.t)
    (s : Suite.t) (w : World) :
  Forall (Pass.raw_testcase T) (AzureLogWriterVisitor.testcases v) ->
  (exists new qs,
     final (AzureLogWriterVisitor.end_suite v s w)
     = Reference.logged new (Reference.sent qs w)
     /\ Forall (Pass.emitted_record T) new /\ Forall (Pass.emitted_request T) qs)
  /\ (forall v' w', AzureLogWriterVisitor.end_suite v s w = Returned v' w' -> v' = v).
Proof.
  intros Hraw.
  pose proof (azure_end_suite_cases v s w) as C. cbv zeta in C.
  assert (Hrec : forall lvl,
             Pass.emitted_record T
               (Logging.MakeRecord (AzureLogWriterVisitor._writer v) lvl
                  (Py.VStr ("testsuite " ++ Py.json_dumps
                     (Py.VDict (Pass.suite_fields s
                                  (AzureLogWriterVisitor.testcases v))))))).
  { intros lvl. right. left. exists s, (AzureLogWriterVisitor.testcases v).
    split; [exact Hraw|reflexivity]. }
  assert (Hreq : forall cid key lt date,
             Pass.emitted_request T
               (Reference.request cid key lt date
                  (Py.json_dumps
                     (Py.VList [Py.VDict (Pass.suite_fields s
                                            (AzureLogWriterVisitor.testcases v))])))).
  { intros. exists s, (AzureLogWriterVisitor.testcases v).
    split; [exact Hraw|reflexivity]. }
  destruct (Base64.b64decode _) as [e|key].
  - rewrite C. split; [|intros v' w' [=]].
    eexists _, []. split; [apply logged_as_grown|].
    split; [|apply Forall_nil].
    apply Forall_cons; [apply Hrec|apply Forall_nil].
  - destruct (network w _ _) as [r|e]; rewrite C.
    + split; [|intros v' w' [= <- _]; reflexivity].
      eexists _, _. split; [reflexivity|].
      split.
      * apply Forall_cons; [apply Hrec|].
        apply Forall_cons; [|apply Forall_nil].
        right. right. eexists _, _. reflexivity.
      * apply Forall_cons; [apply Hreq|apply Forall_nil].
    + split; [|intros v' w' [=]].
      eexists _, _. split; [reflexivity|].
      split; (apply Forall_cons; [|apply Forall_nil]); [apply Hrec|apply Hreq].
Qed.

Lemma azure_visit_tree_emits :
  (forall s v w T,
     incl (Suite.all_tests s) T ->
     Forall (Pass.raw_testcase T) (AzureLogWriterVisitor.testcases v) ->
     (exists new qs,
        final (ResultVisitor.visit_suite s v w)
        = Reference.logged new (Reference.sent qs w)
        /\ Forall (Pass.emitted_record T) new
        /\ Forall (Pass.emitted_request T) qs)
     /\ (forall v' w', ResultVisitor.visit_suite s v w = Returned v' w' ->
         Forall (Pass.raw_testcase T) (AzureLogWriterVisitor.testcases v')))
  /\ (forall c v w T,
     incl (Suite.all_tests_seq c) T ->
     Forall (Pass.raw_testcase T) (AzureLogWriterVisitor.testcases v) ->
     (exists new qs,
        final (ResultVisitor.visit_children c v w)
        = Reference.logged new (Reference.sent qs w)
        /\ Forall (Pass.emitted_record T) new
        /\ Forall (Pass.emitted_request T) qs)
     /\ (forall v' w', ResultVisitor.visit_children c v w = Returned v' w' ->
         Forall (Pass.raw_testcase T) (AzureLogWriterVisitor.testcases v'))).
Proof.
  apply Suite.tree_ind.
  - intros n ln doc md st et el stats c IH v w T Hin Hraw.
    set (s := Suite.Make n ln doc md st et el stats c).
    change (Suite.all_tests s) with (Suite.all_tests_seq c) in Hin.
    rewrite visit_suite_unfolds.
    change (Suite.children s) with c.
    change (ResultVisitor.start_suite v s) with (ret (A := AzureLogWriterVisitor.t) v).
    change ResultVisitor.end_suite with AzureLogWriterVisitor.end_suite.
    cbv beta iota delta [bind ret].
    destruct (IH v w T Hin Hraw) as (Hw & Hv).
    destruct (ResultVisitor.visit_children c v w) as [v1 w1|e w1]; simpl in Hw.
    + specialize (Hv v1 w1 eq_refl).
      destruct (azure_end_suite_emits T v1 s w1 Hv) as (Hw2 & Hsame). split.
      * eapply grow_with; eassumption.
      * intros v' w' E. apply Hsame in E. now subst v'.
    + split; [exact Hw|]. intros v' w' [=].
  - intros v w T Hin Hraw. split.
    + exists [], []. split; [|split; apply Forall_nil].
      simpl. destruct w; unfold Reference.logged, Reference.sent; simpl.
      now rewrite !app_nil_r.
    + intros v' w' [= <- _]. exact Hraw.
  - intros s IHs rest IHrest v w T Hin Hraw.
    change (Suite.all_tests_seq (Suite.ThenSuite s rest))
      with (Suite.all_tests s ++ Suite.all_tests_seq rest)%list in Hin.
    apply incl_app_inv in Hin. destruct Hin as (Hs & Hrest).
    rewrite visit_children_suite. unfold bind.
    destruct (IHs v w T Hs Hraw) as (Hw & Hv).
    destruct (ResultVisitor.visit_suite s v w) as [v1 w1|e w1]; simpl in Hw.
    + specialize (Hv v1 w1 eq_refl).
      destruct (IHrest v1 w1 T Hrest Hv) as (Hw2 & Hv2). split; [|exact Hv2].
      eapply grow_with; eassumption.
    + split; [exact Hw|]. intros v' w' [=].
  - intros x rest IHrest v w T Hin Hraw.
    change (Suite.all_tests_seq (Suite.ThenTest x rest))
      with (x :: Suite.all_tests_seq rest) in Hin.
    apply incl_cons_inv in Hin. destruct Hin as (Hx & Hrest).
    rewrite visit_children_test. unfold bind.
    change (ResultVisitor.visit_test v x w)
      with (AzureLogWriterVisitor.visit_test v x w).
    rewrite azure_visit_test_logs.
    assert (Hraw' : Forall (Pass.raw_testcase T)
                      (AzureLogWriterVisitor.testcases (Reference.buffered v [x]))).
    { simpl. apply Forall_app. split; [exact Hraw|].
      apply Forall_cons; [now apply testcase_of_is_raw|apply Forall_nil]. }
    destruct (IHrest (Reference.buffered v [x])
                (Reference.logged
                   [Logging.MakeRecord (AzureLogWriterVisitor._writer v) Logging.INFO
                      (AzureLogWriterVisitor.testcase_of x)] w) T Hrest Hraw')
      as (Hw2 & Hv2).
    split; [|exact Hv2].
    eapply grow_with; [|exact Hw2].
    eexists _, []. split; [apply logged_as_grown|].
    split; [|apply Forall_nil].
    apply Forall_cons; [|apply Forall_nil]. left. now apply testcase_of_is_raw.
Qed.

(** C10: the testcase record that the ingestion emitter logs and buffers
    for a test carries the test's raw message; the text with the
    [": AssertionError"] or [": SkipExecution"] suffix, computed at the top
    of [visit_test], reaches no record, whatever the status of the test.
    [end_suite] logs the suite record around the buffer as it stands and,
    when the key decodes, sends exactly one request with the one-element
    array of that same record.  So in a whole pass over a tree every
    record logged is the raw record of a test of the tree, a suite record
    around raw records of tests of the tree, or the note on a response,
    and every request sent is a suite record around raw records of tests
    of the tree. *)
Theorem C10_testcase_message_is_raw :
  (forall (self : AzureLogWriterVisitor.t) (test : Test.t) (w : World),
     exists fields,
       AzureLogWriterVisitor.visit_test self test w
       = Returned
           {| AzureLogWriterVisitor._writer := AzureLogWriterVisitor._writer self;
              AzureLogWriterVisitor.azure_publisher :=
                AzureLogWriterVisitor.azure_publisher self;
              AzureLogWriterVisitor.testcases :=
                (AzureLogWriterVisitor.testcases self ++ [Py.VDict fields])%list |}
           (Reference.logged
              [Logging.MakeRecord (AzureLogWriterVisitor._writer self) Logging.INFO
                 (Py.VDict fields)] w)
       /\ Py.lookup "message" fields = Some (Py.VStr (Test.message test))
       /\ Py.lookup "message" fields
          <> Some (Py.VStr (Test.message test ++ ": AssertionError"))
       /\ Py.lookup "message" fields
          <> Some (Py.VStr (Test.message test ++ ": SkipExecution"))
       /\ Pass.raw_testcase [test] (Py.VDict fields))
  /\ (forall (self : AzureLogWriterVisitor.t) (suite : Suite.t) (w : World),
        let publisher := AzureLogWriterVisitor.azure_publisher self in
        let fields := Pass.suite_fields suite (AzureLogWriterVisitor.testcases self) in
        let suite_record :=
          Logging.MakeRecord (AzureLogWriterVisitor._writer self) Logging.INFO
            (Py.VStr ("testsuite " ++ Py.json_dumps (Py.VDict fields))) in
        let n := List.length (requests w) in
        Py.lookup "testcases" fields
        = Some (Py.VList (AzureLogWriterVisitor.testcases self))
        /\ match Base64.b64decode (AzureLogPublisher.shared_key publisher) with
           | inl e =>
               AzureLogWriterVisitor.end_suite self suite w
               = Raised e (Reference.logged [suite_record] w)
           | inr key =>
               let q := Reference.request (AzureLogPublisher.customer_id publisher) key
                          (AzureLogPublisher.log_type publisher) (utcnow w n)
                          (Py.json_dumps (Py.VList [Py.VDict fields])) in
               match network w n q with
               | Http.Answered r =>
                   AzureLogWriterVisitor.end_suite self suite w
                   = Returned self
                       (Reference.logged
                          [suite_record;
                           Reference.response_record
                             (AzureLogPublisher.logger publisher) r]
                          (Reference.sent [q] w))
               | Http.Failed e =>
                   AzureLogWriterVisitor.end_suite self suite w
                   = Raised e
                       (Reference.logged [suite_record] (Reference.sent [q] w))
               end
           end)
  /\ (forall (output : string) (settings : AzureLogWriter.Settings) (w : World),
        let tests := Suite.all_tests (ExecutionResult.suite (tree w)) in
        exists new qs,
          final (AzureLogWriter.write output settings w)
          = Reference.logged new (Reference.sent qs w)
          /\ Forall (Pass.emitted_record tests) new
          /\ Forall (Pass.emitted_request tests) qs).
Proof.
  split; [|split].
  - intros self test w.
    eexists. split; [reflexivity|]. simpl.
    split; [reflexivity|].
    split; [|split].
    + intros [= E]. now apply append_nonempty_differs in E.
    + intros [= E]. now apply append_nonempty_differs in E.
    + apply testcase_of_is_raw. now left.
  - intros self suite w publisher fields suite_record n.
    split; [reflexivity|]. apply azure_end_suite_cases.
  - intros output settings w tests.
    set (v := AzureLogWriterVisitor.__init__ output
                (AzureLogPublisher.__init__ output (AzureLogWriter.customer_id settings)
                   (AzureLogWriter.shared_key settings)
                   (AzureLogWriter.log_type settings))).
    destruct (proj1 azure_visit_tree_emits (ExecutionResult.suite (tree w)) v w
                tests (incl_refl _) (Forall_nil _)) as (Hw & _).
    unfold AzureLogWriter.write, ResultVisitor.visit_result. fold v.
    change (ResultVisitor.visit_statistics v (ExecutionResult.statistics (tree w)))
      with (ret (A := AzureLogWriterVisitor.t) v).
    cbv beta iota delta [bind ret].
    destruct (ResultVisitor.visit_suite (ExecutionResult.suite (tree w)) v w)
      as [v1 w1|e w1]; exact Hw.
Qed.

(** ** Whole passes of the xUnit-style emitter *)

Lemma monitor_visit_test_count (v : MonitorLogWriterWorker.t) (x : Test.t) (w : World) :
  exists new,
    MonitorLogWriterWorker.visit_test v x w = Returned v (Reference.logged new w)
    /\ List.length new
       = (1 + List.length (filter Test.failed [x])
            + List.length (filter Test.skipped [x]))%nat
    /\ Forall (Pass.info_from (MonitorLogWriterWorker._writer v)) new.
Proof.
  unfold MonitorLogWriterWorker.visit_test, bind, ret, Logger.info.
  rewrite emit_logged. simpl filter.
  destruct (Test.failed x), (Test.skipped x);
    rewrite ?emit_logged, ?logged_logged; eexists;
    (split; [reflexivity|split; [reflexivity|]]);
    repeat constructor.
Qed.

Lemma monitor_visit_tree (v : MonitorLogWriterWorker.t) :
  (forall s w,
     exists new,
       ResultVisitor.visit_suite s v w = Returned v (Reference.logged new w)
       /\ List.length new = Pass.monitor_record_count s
       /\ Forall (Pass.info_from (MonitorLogWriterWorker._writer v)) new)
  /\ (forall c w,
     exists new,
       ResultVisitor.visit_children c v w = Returned v (Reference.logged new w)
       /\ List.length new
          = (List.length (Suite.suites_left_seq c)
             + List.length (Suite.all_tests_seq c)
             + List.length (filter Test.failed (Suite.all_tests_seq c))
             + List.length (filter Test.skipped (Suite.all_tests_seq c)))%nat
       /\ Forall (Pass.info_from (MonitorLogWriterWorker._writer v)) new).
Proof.
  apply Suite.tree_ind.
  - intros n ln doc md st et el stats c IH w.
    set (s := Suite.Make n ln doc md st et el stats c).
    set (n0 := [Logging.MakeRecord (MonitorLogWriterWorker._writer v) Logging.INFO
                  (Py.VStr ("testsuite " ++
                            Py.str (MonitorLogWriterWorker.suite_attrs s)))]).
    assert (E0 : MonitorLogWriterWorker.start_suite v s w
                 = Returned v (Reference.logged n0 w)) by reflexivity.
    assert (L0 : List.length n0 = 1%nat) by reflexivity.
    assert (F0 : Forall (Pass.info_from (MonitorLogWriterWorker._writer v)) n0)
      by (repeat constructor).
    destruct (IH (Reference.logged n0 w)) as (n1 & E1 & L1 & F1).
    exists (n0 ++ n1)%list. split; [|split].
    + rewrite visit_suite_unfolds.
      change (Suite.children s) with c.
      change (ResultVisitor.start_suite v s)
        with (MonitorLogWriterWorker.start_suite v s).
      change (ResultVisitor.end_suite) with MonitorLogWriterWorker.end_suite.
      unfold bind. rewrite E0, E1, logged_logged. reflexivity.
    + rewrite length_app, L1, L0. unfold Pass.monitor_record_count.
      change (Suite.suites_left s) with (Suite.suites_left_seq c ++ [s])%list.
      change (Suite.all_tests s) with (Suite.all_tests_seq c).
      rewrite length_app. simpl (List.length [s]). lia.
    + apply Forall_app. now split.
  - intros w. exists []. split; [|split; [reflexivity|constructor]].
    cbn [ResultVisitor.visit_children]. unfold ret. now rewrite logged_nil.
  - intros s IHs rest IHrest w.
    destruct (IHs w) as (n1 & E1 & L1 & F1).
    destruct (IHrest (Reference.logged n1 w)) as (n2 & E2 & L2 & F2).
    exists (n1 ++ n2)%list. split; [|split].
    + rewrite visit_children_suite. unfold bind.
      rewrite E1, E2, logged_logged. reflexivity.
    + rewrite length_app, L1, L2. unfold Pass.monitor_record_count. simpl.
      rewrite !filter_app, !length_app. lia.
    + apply Forall_app. now split.
  - intros x rest IHrest w.
    destruct (monitor_visit_test_count v x w) as (n1 & E1 & L1 & F1).
    destruct (IHrest (Reference.logged n1 w)) as (n2 & E2 & L2 & F2).
    exists (n1 ++ n2)%list. split; [|split].
    + rewrite visit_children_test. unfold bind.
      change (ResultVisitor.visit_test v x w)
        with (MonitorLogWriterWorker.visit_test v x w).
      rewrite E1, E2, logged_logged. reflexivity.
    + rewrite length_app, L1, L2.
      change (Suite.all_tests_seq (Suite.ThenTest x rest))
        with ([x] ++ Suite.all_tests_seq rest)%list.
      rewrite !filter_app, !length_app. simpl Suite.suites_left_seq.
      simpl (List.length [x]). lia.
    + apply Forall_app. now split.
Qed.

(** X1: a pass of the xUnit-style emitter over any tree returns normally;
    it writes, through the logger named after the output and at level
    INFO, one record per suite, one per test and one more per failed and
    per skipped test, sends no request and leaves everything else as it
    was. *)
Theorem monitor_pass_writes_every_node (output : string) (w : World) :
  exists new,
    MonitorLogWriter.write output w = Returned tt (Reference.logged new w)
    /\ List.length new
       = Pass.monitor_record_count (ExecutionResult.suite (tree w))
    /\ Forall (Pass.info_from output) new.
Proof.
  set (v := MonitorLogWriterWorker.__init__ output).
  destruct (proj1 (monitor_visit_tree v) (ExecutionResult.suite (tree w)) w)
    as (new & E & L & F).
  exists new. split; [|split; [exact L|exact F]].
  unfold MonitorLogWriter.write, ResultVisitor.visit_result. fold v.
  change (ResultVisitor.visit_statistics v (ExecutionResult.statistics (tree w)))
    with (ret (A := MonitorLogWriterWorker.t) v).
  cbv beta iota delta [bind ret]. rewrite E. reflexivity.
Qed.

(** ** Requests as the publisher makes them *)

Lemma request_made_by (p : AzureLogPublisher.t) (key : list Z) (date body : string) :
  Base64.b64decode (AzureLogPublisher.shared_key p) = inr key ->
  Pass.made_by p
    (Reference.request (AzureLogPublisher.customer_id p) key
       (AzureLogPublisher.log_type p) date body).
Proof.
  intros Hkey. unfold Pass.made_by, Pass.header.
  split; [reflexivity|]. split; [reflexivity|]. split; [reflexivity|].
  eexists date, _. split; [reflexivity|]. split; [reflexivity|].
  rewrite build_signature_cases, Hkey. reflexivity.
Qed.

(** Whatever a call of [post_data] with the publisher's own log type
    does, it logs, and sends at most one request, made by the publisher
    and carrying the body. *)
Lemma post_data_made_by (p : AzureLogPublisher.t) (body : string) (w : World) :
  exists new qs,
    final (AzureLogPublisher.post_data p body (AzureLogPublisher.log_type p) w)
    = Reference.logged new (Reference.sent qs w)
    /\ Forall (Pass.made_by p) qs
    /\ Forall (fun q => Http.data q = body) qs.
Proof.
  pose proof (post_data_cases p body (AzureLogPublisher.log_type p) w) as H.
  cbv zeta in H.
  destruct (Base64.b64decode _) as [e|key] eqn:Hkey.
  - rewrite H. exists [], []. split; [|split; constructor].
    destruct w; unfold Reference.logged, Reference.sent; simpl.
    now rewrite !app_nil_r.
  - destruct (network w _ _) as [r|e]; rewrite H; simpl.
    + eexists _, _. split; [reflexivity|].
      split; repeat constructor. now apply request_made_by.
    + eexists [], _. split; [now rewrite logged_nil|].
      split; repeat constructor. now apply request_made_by.
Qed.

Lemma azure_end_suite_made_by (v : AzureLogWriterVisitor.t) (s : Suite.t) (w : World) :
  exists new qs,
    final (AzureLogWriterVisitor.end_suite v s w)
    = Reference.logged new (Reference.sent qs w)
    /\ Forall (Pass.made_by (AzureLogWriterVisitor.azure_publisher v)) qs
    /\ (forall v' w', AzureLogWriterVisitor.end_suite v s w = Returned v' w' -> v' = v).
Proof.
  pose proof (azure_end_suite_unfolds v s w) as E. cbv zeta in E. rewrite E. clear E.
  match goal with
  | |- context [AzureLogPublisher.post_data ?p ?b ?t ?w0] =>
      destruct (post_data_made_by p b w0) as (new & qs & Hf & Hq & _);
      destruct (AzureLogPublisher.post_data p b t w0) as [u w1|e w1]
  end; simpl in *; subst w1;
    eexists _, qs; (split; [|split; [exact Hq|]]);
    try (unfold Reference.logged, Reference.sent; simpl;
         rewrite <- app_assoc; reflexivity).
  - intros v' w' [= <- _]. reflexivity.
  - intros v' w' [=].
Qed.

Lemma made_by_grow (p : AzureLogPublisher.t) (a b d : World) :
  (exists new qs, b = Reference.logged new (Reference.sent qs a)
                  /\ Forall (Pass.made_by p) qs) ->
  (exists new qs, d = Reference.logged new (Reference.sent qs b)
                  /\ Forall (Pass.made_by p) qs) ->
  exists new qs, d = Reference.logged new (Reference.sent qs a)
                 /\ Forall (Pass.made_by p) qs.
Proof.
  intros (n1 & q1 & -> & F1) (n2 & q2 & -> & F2).
  exists (n1 ++ n2)%list, (q1 ++ q2)%list. split; [apply grow_grow|].
  apply Forall_app. now split.
Qed.

Lemma azure_visit_tree_made_by (p : AzureLogPublisher.t) :
  (forall s v w,
     AzureLogWriterVisitor.azure_publisher v = p ->
     (exists new qs,
        final (ResultVisitor.visit_suite s v w)
        = Reference.logged new (Reference.sent qs w)
        /\ Forall (Pass.made_by p) qs)
     /\ (forall v' w', ResultVisitor.visit_suite s v w = Returned v' w' ->
         AzureLogWriterVisitor.azure_publisher v' = p))
  /\ (forall c v w,
     AzureLogWriterVisitor.azure_publisher v = p ->
     (exists new qs,
        final (ResultVisitor.visit_children c v w)
        = Reference.logged new (Reference.sent qs w)
        /\ Forall (Pass.made_by p) qs)
     /\ (forall v' w', ResultVisitor.visit_children c v w = Returned v' w' ->
         AzureLogWriterVisitor.azure_publisher v' = p)).
Proof.
  apply Suite.tree_ind.
  - intros n ln doc md st et el stats c IH v w Hp.
    set (s := Suite.Make n ln doc md st et el stats c).
    rewrite visit_suite_unfolds.
    change (Suite.children s) with c.
    change (ResultVisitor.start_suite v s) with (ret (A := AzureLogWriterVisitor.t) v).
    change ResultVisitor.end_suite with AzureLogWriterVisitor.end_suite.
    cbv beta iota delta [bind ret].
    destruct (IH v w Hp) as (Hw & Hv).
    destruct (ResultVisitor.visit_children c v w) as [v1 w1|e w1]; simpl in Hw.
    + specialize (Hv v1 w1 eq_refl).
      destruct (azure_end_suite_made_by v1 s w1) as (n2 & q2 & E2 & F2 & Hsame).
      rewrite Hv in F2. split.
      * eapply made_by_grow; [exact Hw|]. now exists n2, q2.
      * intros v' w' E. apply Hsame in E. now subst v'.
    + split; [exact Hw|]. intros v' w' [=].
  - intros v w Hp. split.
    + exists [], []. split; [|constructor].
      simpl. destruct w; unfold Reference.logged, Reference.sent; simpl.
      now rewrite !app_nil_r.
    + intros v' w' [= <- _]. exact Hp.
  - intros s IHs rest IHrest v w Hp.
    rewrite visit_children_suite. unfold bind.
    destruct (IHs v w Hp) as (Hw & Hv).
    destruct (ResultVisitor.visit_suite s v w) as [v1 w1|e w1]; simpl in Hw.
    + specialize (Hv v1 w1 eq_refl).
      destruct (IHrest v1 w1 Hv) as (Hw2 & Hv2). split; [|exact Hv2].
      eapply made_by_grow; eassumption.
    + split; [exact Hw|]. intros v' w' [=].
  - intros x rest IHrest v w Hp.
    rewrite visit_children_test. unfold bind.
    change (ResultVisitor.visit_test v x w)
      with (AzureLogWriterVisitor.visit_test v x w).
    rewrite azure_visit_test_logs.
    destruct (IHrest (Reference.buffered v [x])
                (Reference.logged
                   [Logging.MakeRecord (AzureLogWriterVisitor._writer v) Logging.INFO
                      (AzureLogWriterVisitor.testcase_of x)] w) Hp) as (Hw2 & Hv2).
    split; [|exact Hv2].
    eapply made_by_grow; [|exact Hw2].
    eexists _, []. split; [apply logged_as_grown|constructor].
Qed.

(** X2: every request that a pass of the ingestion emitter sends, whether
    the pass returns or raises, goes to the workspace of the configured
    customer id with the configured log type, and carries in its
    [Authorization] header the signature that [build_signature] computes,
    with the configured key, over the length of that request's own body
    and the date in that request's own [x-ms-date] header. *)
Theorem azure_pass_signs_what_it_sends
    (output : string) (settings : AzureLogWriter.Settings) (w : World) :
  exists new qs,
    final (AzureLogWriter.write output settings w)
    = Reference.logged new (Reference.sent qs w)
    /\ Forall
         (Pass.made_by
            (AzureLogPublisher.__init__ output (AzureLogWriter.customer_id settings)
               (AzureLogWriter.shared_key settings) (AzureLogWriter.log_type settings)))
         qs.
Proof.
  set (p := AzureLogPublisher.__init__ output (AzureLogWriter.customer_id settings)
              (AzureLogWriter.shared_key settings) (AzureLogWriter.log_type settings)).
  set (v := AzureLogWriterVisitor.__init__ output p).
  destruct (proj1 (azure_visit_tree_made_by p) (ExecutionResult.suite (tree w)) v w
              eq_refl) as (Hw & _).
  unfold AzureLogWriter.write, ResultVisitor.visit_result. fold p. fold v.
  change (ResultVisitor.visit_statistics v (ExecutionResult.statistics (tree w)))
    with (ret (A := AzureLogWriterVisitor.t) v).
  cbv beta iota delta [bind ret].
  destruct (ResultVisitor.visit_suite (ExecutionResult.suite (tree w)) v w)
    as [v1 w1|e w1]; exact Hw.
Qed.

(** ** Passes of the ingestion emitter that end at the first suite left

    When every call of [end_suite] raises, a pass raises as soon as it
    leaves a suite; until then it has only logged and buffered tests. *)

Section EndSuiteRaises.

Variable p : AzureLogPublisher.t.
Variable e : Py.exn.
Variable fit : World -> Prop.
Variable done : World -> World -> Prop.

Hypothesis fit_logged : forall new w, fit w -> fit (Reference.logged new w).
Hypothesis done_logged :
  forall new w w', done (Reference.logged new w) w' -> done w w'.
Hypothesis end_suite_raises :
  forall v s w,
    AzureLogWriterVisitor.azure_publisher v = p -> fit w ->
    exists w', AzureLogWriterVisitor.end_suite v s w = Raised e w' /\ done w w'.

Lemma visit_tree_raises :
  (forall s v w,
     AzureLogWriterVisitor.azure_publisher v = p -> fit w ->
     exists w', ResultVisitor.visit_suite s v w = Raised e w' /\ done w w')
  /\ (forall c v w,
     AzureLogWriterVisitor.azure_publisher v = p -> fit w ->
     (exists new,
        ResultVisitor.visit_children c v w
        = Returned (Reference.buffered v (Suite.all_tests_seq c))
            (Reference.logged new w))
     \/ (exists w', ResultVisitor.visit_children c v w = Raised e w' /\ done w w')).
Proof.
  apply Suite.tree_ind.
  - intros n ln doc md st et el stats c IH v w Hp Hfit.
    set (s := Suite.Make n ln doc md st et el stats c).
    rewrite visit_suite_unfolds.
    change (Suite.children s) with c.
    change (ResultVisitor.start_suite v s) with (ret (A := AzureLogWriterVisitor.t) v).
    change ResultVisitor.end_suite with AzureLogWriterVisitor.end_suite.
    cbv beta iota delta [bind ret].
    destruct (IH v w Hp Hfit) as [(new & E)|(w' & E & Hd)]; rewrite E.
    + destruct (end_suite_raises (Reference.buffered v (Suite.all_tests_seq c)) s
                  (Reference.logged new w) Hp (fit_logged _ _ Hfit))
        as (w' & E' & Hd).
      exists w'. split; [exact E'|]. eapply done_logged, Hd.
    + exists w'. now split.
  - intros v w Hp Hfit. left. exists [].
    cbn [ResultVisitor.visit_children]. unfold ret.
    now rewrite buffered_nil, logged_nil.
  - intros s IHs rest IHrest v w Hp Hfit. right.
    destruct (IHs v w Hp Hfit) as (w' & E & Hd).
    exists w'. split; [|exact Hd].
    rewrite visit_children_suite. unfold bind. now rewrite E.
  - intros x rest IHrest v w Hp Hfit.
    rewrite visit_children_test. unfold bind.
    change (ResultVisitor.visit_test v x w)
      with (AzureLogWriterVisitor.visit_test v x w).
    rewrite azure_visit_test_logs.
    match goal with
    | |- context [ResultVisitor.visit_children rest ?v1 ?w1] =>
        destruct (IHrest v1 w1 Hp (fit_logged _ _ Hfit))
          as [(new & E)|(w' & E & Hd)]; rewrite E
    end.
    + left. eexists. rewrite logged_logged, buffered_buffered. reflexivity.
    + right. exists w'. split; [reflexivity|]. eapply done_logged, Hd.
Qed.

End EndSuiteRaises.

(** X3: with a shared key that [base64.b64decode] rejects, a pass of the
    ingestion emitter over any tree raises that decoder's exception on
    leaving the first suite; it has sent no request at all, and has only
    written records to its logger. *)
Theorem azure_pass_with_bad_key_sends_nothing
    (output : string) (settings : AzureLogWriter.Settings) (w : World) (e : Py.exn) :
  Base64.b64decode (AzureLogWriter.shared_key settings) = inl e ->
  exists new,
    AzureLogWriter.write output settings w = Raised e (Reference.logged new w).
Proof.
  intros Hkey.
  set (p := AzureLogPublisher.__init__ output (AzureLogWriter.customer_id settings)
              (AzureLogWriter.shared_key settings) (AzureLogWriter.log_type settings)).
  set (v := AzureLogWriterVisitor.__init__ output p).
  set (done := fun a b : World => exists new, b = Reference.logged new a).
  assert (Hdone : forall new a b, done (Reference.logged new a) b -> done a b).
  { intros new a b (n2 & ->). exists (new ++ n2)%list. apply logged_logged. }
  assert (Hend : forall v0 s w0,
             AzureLogWriterVisitor.azure_publisher v0 = p -> True ->
             exists w', AzureLogWriterVisitor.end_suite v0 s w0 = Raised e w'
                        /\ done w0 w').
  { intros v0 s w0 Hp _.
    pose proof (azure_end_suite_unfolds v0 s w0) as U. cbv zeta in U.
    match type of U with
    | context [AzureLogPublisher.post_data ?q ?b ?t ?w1] =>
        pose proof (post_data_cases q b t w1) as C
    end.
    cbv zeta in C. rewrite Hp in C, U.
    change (AzureLogPublisher.shared_key p)
      with (AzureLogWriter.shared_key settings) in C.
    rewrite Hkey in C. rewrite C in U.
    eexists. split; [exact U|]. eexists. reflexivity. }
  destruct (proj1 (visit_tree_raises p e (fun _ => True) done
                     (fun _ _ _ => I) Hdone Hend)
              (ExecutionResult.suite (tree w)) v w eq_refl I)
    as (w' & E & new & ->).
  exists new.
  unfold AzureLogWriter.write, ResultVisitor.visit_result. fold p. fold v.
  change (ResultVisitor.visit_statistics v (ExecutionResult.statistics (tree w)))
    with (ret (A := AzureLogWriterVisitor.t) v).
  cbv beta iota delta [bind ret]. rewrite E. reflexivity.
Qed.

(** The theorem at a key with a single character, which is one more than
    a multiple of four. *)
Lemma azure_pass_with_bad_key_witness :
  Base64.b64decode
    (AzureLogWriter.shared_key (AzureLogWriter.MakeSettings "workspace-1" "Z" "RobotLog"))
  = inl Py.BinasciiError
  /\ exists new,
       AzureLogWriter.write "azure.log"
         (AzureLogWriter.MakeSettings "workspace-1" "Z" "RobotLog")
         (Scenario.world Scenario.accepted)
       = Raised Py.BinasciiError
           (Reference.logged new (Scenario.world Scenario.accepted)).
Proof.
  split; [reflexivity|].
  apply (azure_pass_with_bad_key_sends_nothing "azure.log"
           (AzureLogWriter.MakeSettings "workspace-1" "Z" "RobotLog")
           (Scenario.world Scenario.accepted) Py.BinasciiError).
  reflexivity.
Defined.

(** X4: when the shared key decodes and no request gets a response, a
    pass of the ingestion emitter over any tree raises the exception of
    the transport on leaving the first suite, after exactly one request,
    made as the publisher makes them; no later suite makes its POST. *)
Theorem azure_pass_ends_at_first_failed_post
    (output : string) (settings : AzureLogWriter.Settings) (w : World) (e : Py.exn) :
  (exists key, Base64.b64decode (AzureLogWriter.shared_key settings) = inr key) ->
  Pass.unreachable e w ->
  exists new q,
    AzureLogWriter.write output settings w
    = Raised e (Reference.logged new (Reference.sent [q] w))
    /\ Pass.made_by
         (AzureLogPublisher.__init__ output (AzureLogWriter.customer_id settings)
            (AzureLogWriter.shared_key settings) (AzureLogWriter.log_type settings))
         q.
Proof.
  intros (key & Hkey) Hnet.
  set (p := AzureLogPublisher.__init__ output (AzureLogWriter.customer_id settings)
              (AzureLogWriter.shared_key settings) (AzureLogWriter.log_type settings)).
  set (v := AzureLogWriterVisitor.__init__ output p).
  set (done := fun a b : World =>
                 exists new q, b = Reference.logged new (Reference.sent [q] a)
                               /\ Pass.made_by p q).
  assert (Hfit : forall new a, Pass.unreachable e a ->
                               Pass.unreachable e (Reference.logged new a))
    by (intros new a H n q; apply H).
  assert (Hdone : forall new a b, done (Reference.logged new a) b -> done a b).
  { intros new a b (n2 & q & -> & Hq). exists (new ++ n2)%list, q.
    split; [|exact Hq]. rewrite (logged_as_grown new a). apply grow_grow. }
  assert (Hend : forall v0 s w0,
             AzureLogWriterVisitor.azure_publisher v0 = p -> Pass.unreachable e w0 ->
             exists w', AzureLogWriterVisitor.end_suite v0 s w0 = Raised e w'
                        /\ done w0 w').
  { intros v0 s w0 Hp Hw0.
    pose proof (azure_end_suite_unfolds v0 s w0) as U. cbv zeta in U.
    match type of U with
    | context [AzureLogPublisher.post_data ?q ?b ?t ?w1] =>
        pose proof (post_data_cases q b t w1) as C
    end.
    cbv zeta in C. rewrite Hp in C, U.
    change (AzureLogPublisher.shared_key p)
      with (AzureLogWriter.shared_key settings) in C.
    rewrite Hkey in C.
    match type of C with
    | match network ?w1 ?n ?q with _ => _ end =>
        change (network w1 n q) with (network w0 n q) in C;
        rewrite (Hw0 n q) in C; rewrite C in U;
        exists (Reference.sent [q] w1); split; [exact U|];
        eexists _, q; split;
          [unfold Reference.logged, Reference.sent; simpl; reflexivity|]
    end.
    apply (request_made_by p key). exact Hkey. }
  destruct (proj1 (visit_tree_raises p e (Pass.unreachable e) done Hfit Hdone Hend)
              (ExecutionResult.suite (tree w)) v w eq_refl Hnet)
    as (w' & E & new & q & -> & Hq).
  exists new, q. split; [|exact Hq].
  unfold AzureLogWriter.write, ResultVisitor.visit_result. fold p. fold v.
  change (ResultVisitor.visit_statistics v (ExecutionResult.statistics (tree w)))
    with (ret (A := AzureLogWriterVisitor.t) v).
  cbv beta iota delta [bind ret]. rewrite E. reflexivity.
Qed.

(** The theorem at the small run with an unreachable workspace. *)
Lemma azure_pass_ends_at_first_failed_post_witness :
  (exists key, Base64.b64decode (AzureLogWriter.shared_key Scenario.settings) = inr key)
  /\ Pass.unreachable (Py.RequestException "connection refused")
       (Scenario.world Scenario.unreachable)
  /\ exists new q,
       AzureLogWriter.write "azure.log" Scenario.settings
         (Scenario.world Scenario.unreachable)
       = Raised (Py.RequestException "connection refused")
           (Reference.logged new
              (Reference.sent [q] (Scenario.world Scenario.unreachable)))
       /\ Pass.made_by
            (AzureLogPublisher.__init__ "azure.log"
               (AzureLogWriter.customer_id Scenario.settings)
               (AzureLogWriter.shared_key Scenario.settings)
               (AzureLogWriter.log_type Scenario.settings))
            q.
Proof.
  assert (Hkey : exists key, Base64.b64decode
                   (AzureLogWriter.shared_key Scenario.settings) = inr key)
    by (eexists; vm_compute; reflexivity).
  assert (Hnet : Pass.unreachable (Py.RequestException "connection refused")
                   (Scenario.world Scenario.unreachable))
    by (intros n q; reflexivity).
  split; [exact Hkey|]. split; [exact Hnet|].
  exact (azure_pass_ends_at_first_failed_post "azure.log" Scenario.settings
           (Scenario.world Scenario.unreachable)
           (Py.RequestException "connection refused") Hkey Hnet).
Defined.

(** X5: when the shared key decodes and every request is answered, with
    whatever status, a pass of the ingestion emitter over any tree returns
    normally after exactly one POST per suite, made as the suites are
    left; the body of each is the one-element array of the suite record
    around all the testcase records buffered in the pass so far, and the
    last POST, that of the root suite, lists every test of the tree once,
    in the order visited. *)
Theorem azure_pass_posts_once_per_suite
    (output : string) (settings : AzureLogWriter.Settings) (w : World) :
  (exists key, Base64.b64decode (AzureLogWriter.shared_key settings) = inr key) ->
  Reference.answers w ->
  let root := ExecutionResult.suite (tree w) in
  exists new qs earlier,
    AzureLogWriter.write output settings w
    = Returned tt (Reference.logged new (Reference.sent qs w))
    /\ List.length qs = List.length (Suite.suites_left root)
    /\ map Http.data qs = Reference.payloads root []
    /\ map Http.data qs
       = (earlier ++
          [Py.json_dumps
             (Py.VList
                [AzureLogWriterVisitor.suite_attrs root
                   (map AzureLogWriterVisitor.testcase_of (Suite.all_tests root))])])%list.
Proof.
  intros Hkey Hans root.
  destruct (azure_write_answered output settings w Hkey Hans) as (new & qs & E & D).
  fold root in D.
  exists new, qs, (Reference.payloads_seq (Suite.children root) []).
  split; [exact E|]. split; [|split; [exact D|]].
  - rewrite <- (length_map Http.data), D. apply payloads_length.
  - rewrite D. destruct root; reflexivity.
Qed.

(** The theorem at the small run with every request accepted. *)
Lemma azure_pass_posts_once_per_suite_witness :
  (exists key, Base64.b64decode (AzureLogWriter.shared_key Scenario.settings) = inr key)
  /\ Reference.answers (Scenario.world Scenario.accepted)
  /\ exists new qs earlier,
       AzureLogWriter.write "azure.log" Scenario.settings
         (Scenario.world Scenario.accepted)
       = Returned tt
           (Reference.logged new (Reference.sent qs (Scenario.world Scenario.accepted)))
       /\ List.length qs = List.length (Suite.suites_left Scenario.R)
       /\ map Http.data qs = Reference.payloads Scenario.R []
       /\ map Http.data qs
          = (earlier ++
             [Py.json_dumps
                (Py.VList
                   [AzureLogWriterVisitor.suite_attrs Scenario.R
                      (map AzureLogWriterVisitor.testcase_of
                         (Suite.all_tests Scenario.R))])])%list.
Proof.
  assert (Hkey : exists key, Base64.b64decode
                   (AzureLogWriter.shared_key Scenario.settings) = inr key)
    by (eexists; vm_compute; reflexivity).
  assert (Hans : Reference.answers (Scenario.world Scenario.accepted))
    by (intros n q; eexists; reflexivity).
  split; [exact Hkey|]. split; [exact Hans|].
  exact (azure_pass_posts_once_per_suite "azure.log" Scenario.settings
           (Scenario.world Scenario.accepted) Hkey Hans).
Defined.

(** ** Timestamps laid out as date, separator, time *)

Lemma substring_whole (s : string) :
  forall k, (String.length s <= k)%nat -> substring 0 k s = s.
Proof.
  induction s as [|c s IH]; intros k Hk.
  - destruct k; reflexivity.
  - destruct k as [|k]; simpl in Hk; [lia|].
    simpl. f_equal. apply IH. lia.
Qed.

Lemma substring_length (s : string) :
  forall n m, String.length (substring n m s) = Nat.min m (String.length s - n).
Proof.
  induction s as [|c s IH]; intros n m.
  - destruct n, m; reflexivity.
  - destruct n as [|n]; simpl.
    + destruct m as [|m]; simpl; [reflexivity|]. rewrite IH. now rewrite Nat.sub_0_r.
    + apply IH.
Qed.

(** X6: for every text laid out as four characters of year, two of month,
    two of day, one separator character and a time of at most thirteen
    characters, the helper of both emitters returns year, month and day
    joined by ["-"], then ["T"], the time as written, and ["000"]; the
    separator is dropped whatever it is. *)
Theorem starttime_of_laid_out_text
    (year month day time : string) (separator : ascii) :
  String.length year = 4%nat ->
  String.length month = 2%nat ->
  String.length day = 2%nat ->
  (String.length time <= 13)%nat ->
  let stime := year ++ month ++ day ++ String separator time in
  let iso := Py.VStr (year ++ "-" ++ month ++ "-" ++ day ++ "T" ++ time ++ "000") in
  MonitorLogWriterWorker._starttime_to_isoformat (Some stime) = iso
  /\ AzureLogWriterVisitor._starttime_to_isoformat (Some stime) = iso.
Proof.
  intros Hy Hm Hd Ht stime iso.
  assert (E : MonitorLogWriterWorker._starttime_to_isoformat (Some stime) = iso).
  { subst stime iso.
    destruct year as [|y1 [|y2 [|y3 [|y4 [|? ?]]]]]; try discriminate Hy.
    destruct month as [|m1 [|m2 [|? ?]]]; try discriminate Hm.
    destruct day as [|d1 [|d2 [|? ?]]]; try discriminate Hd.
    unfold MonitorLogWriterWorker._starttime_to_isoformat, Py.slice. simpl.
    now rewrite (substring_whole time 13 Ht). }
  split; [exact E|]. now rewrite starttime_helpers_agree.
Qed.

(** The theorem at a timestamp as Robot Framework writes them. *)
Lemma starttime_of_laid_out_text_witness :
  String.length "2023" = 4%nat
  /\ String.length "11" = 2%nat
  /\ String.length "30" = 2%nat
  /\ (String.length "23:59:58.007" <= 13)%nat
  /\ MonitorLogWriterWorker._starttime_to_isoformat (Some "20231130 23:59:58.007")
     = Py.VStr "2023-11-30T23:59:58.007000"
  /\ AzureLogWriterVisitor._starttime_to_isoformat (Some "20231130 23:59:58.007")
     = Py.VStr "2023-11-30T23:59:58.007000".
Proof.
  assert (H13 : (String.length "23:59:58.007" <= 13)%nat) by (simpl; lia).
  split; [reflexivity|]. split; [reflexivity|]. split; [reflexivity|].
  split; [exact H13|].
  exact (starttime_of_laid_out_text "2023" "11" "30" "23:59:58.007" " "%char
           eq_refl eq_refl eq_refl H13).
Defined.

(** X7: the text that the helper returns is never longer than 27
    characters, whatever the length of its input; it has exactly 27 as
    soon as the input has 22 characters or more, and a non-empty input of
    at most 9 characters gets no time part at all. *)
Theorem starttime_length_is_bounded (c : ascii) (s : string) :
  let stime := String c s in
  exists iso,
    MonitorLogWriterWorker._starttime_to_isoformat (Some stime) = Py.VStr iso
    /\ AzureLogWriterVisitor._starttime_to_isoformat (Some stime) = Py.VStr iso
    /\ (String.length iso <= 27)%nat
    /\ ((22 <= String.length stime)%nat -> String.length iso = 27%nat)
    /\ ((String.length stime <= 9)%nat -> Py.slice 9 22 stime = "").
Proof.
  intros stime. eexists. split; [apply starttime_present|].
  split; [rewrite starttime_helpers_agree; apply starttime_present|].
  fold stime. unfold Py.slice.
  rewrite !append_length, !substring_length.
  change (String.length "-") with 1%nat. change (String.length "T") with 1%nat.
  change (String.length "000") with 3%nat.
  split; [lia|]. split; [lia|].
  intros Hs.
  assert (L : String.length (substring 9 (22 - 9) stime) = 0%nat)
    by (rewrite substring_length; lia).
  destruct (substring 9 (22 - 9) stime); [reflexivity|discriminate L].
Qed.

(** The theorem at a text of thirty characters. *)
Lemma starttime_length_is_bounded_witness :
  (22 <= String.length "20231130 23:59:58.007123456789")%nat
  /\ exists iso,
       MonitorLogWriterWorker._starttime_to_isoformat
         (Some "20231130 23:59:58.007123456789") = Py.VStr iso
       /\ String.length iso = 27%nat.
Proof.
  assert (H22 : (22 <= String.length "20231130 23:59:58.007123456789")%nat)
    by (simpl; lia).
  split; [exact H22|].
  destruct (starttime_length_is_bounded "2"%char "0231130 23:59:58.007123456789")
    as (iso & E & _ & _ & L27 & _).
  exists iso. split; [exact E|exact (L27 H22)].
Defined.

(** ** Bodies are plain ASCII *)

Lemma printable_app (a b : string) :
  Pass.printable (a ++ b) = Pass.printable a && Pass.printable b.
Proof.
  induction a as [|c a IH]; simpl; [reflexivity|].
  rewrite IH. now rewrite andb_assoc.
Qed.

Lemma printable_concat (sep : string) (l : list string) :
  Pass.printable sep = true ->
  Forall (fun s => Pass.printable s = true) l ->
  Pass.printable (String.concat sep l) = true.
Proof.
  intros Hsep Hl. induction Hl as [|x l Hx Hl IH]; [reflexivity|].
  destruct l as [|y l]; [exact Hx|].
  change (String.concat sep (x :: y :: l)) with (x ++ sep ++ String.concat sep (y :: l)).
  rewrite !printable_app, Hx, Hsep. exact IH.
Qed.

Lemma json_char_printable (ch : ascii) : Pass.printable (Py.json_char ch) = true.
Proof. destruct ch as [[] [] [] [] [] [] [] []]; vm_compute; reflexivity. Qed.

Lemma json_str_printable (s : string) : Pass.printable (Py.json_str s) = true.
Proof.
  unfold Py.json_str.
  change (String Py.dquote (Py.json_chars s))
    with (String Py.dquote "" ++ Py.json_chars s).
  rewrite !printable_app.
  assert (H : Pass.printable (Py.json_chars s) = true).
  { induction s as [|c s IH]; [reflexivity|].
    simpl. now rewrite printable_app, json_char_printable, IH. }
  rewrite H. reflexivity.
Qed.

Lemma string_of_uint_printable (d : Decimal.uint) :
  Pass.printable (NilEmpty.string_of_uint d) = true.
Proof. induction d; simpl; auto. Qed.

Lemma str_int_printable (n : Z) : Pass.printable (Py.str_int n) = true.
Proof.
  unfold Py.str_int. destruct (Z.to_int n); simpl; apply string_of_uint_printable.
Qed.

(** Induction over values, with the elements of lists and dicts. *)
Lemma value_nested_ind (P : Py.value -> Prop) :
  P Py.VNone ->
  (forall n, P (Py.VInt n)) ->
  (forall s, P (Py.VStr s)) ->
  (forall elems, Forall P elems -> P (Py.VList elems)) ->
  (forall items, Forall (fun kv => P (snd kv)) items -> P (Py.VDict items)) ->
  forall v, P v.
Proof.
  intros HN HI HS HL HD.
  fix IH 1. intros [ | n | s | elems | items].
  - exact HN.
  - apply HI.
  - apply HS.
  - apply HL. induction elems as [|x elems IHl]; constructor; [apply IH|exact IHl].
  - apply HD. induction items as [|[k x] items IHl]; constructor; [apply IH|exact IHl].
Qed.

Lemma json_dumps_printable (v : Py.value) : Pass.printable (Py.json_dumps v) = true.
Proof.
  induction v as [ | n | s | elems IH | items IH] using value_nested_ind.
  - reflexivity.
  - apply str_int_printable.
  - apply json_str_printable.
  - cbn [Py.json_dumps]. rewrite !printable_app.
    rewrite printable_concat; [reflexivity|reflexivity|].
    induction IH; constructor; assumption.
  - cbn [Py.json_dumps]. rewrite !printable_app.
    rewrite printable_concat; [reflexivity|reflexivity|].
    induction IH as [|[k x] items Hx Hl IHl]; constructor; [|exact IHl].
    change (Pass.printable (Py.json_dumps x) = true) in Hx.
    change (Pass.printable (Py.json_str k ++ ": " ++ Py.json_dumps x) = true).
    now rewrite !printable_app, json_str_printable, Hx.
Qed.

Lemma utf8_of_printable (s : string) :
  Pass.printable s = true -> List.length (Bytes.utf8 s) = String.length s.
Proof.
  induction s as [|c s IH]; intros H; [reflexivity|].
  simpl in H. apply andb_true_iff in H as (Hc & Hs).
  apply andb_true_iff in Hc as (_ & Hc). apply Z.leb_le in Hc.
  change (Bytes.utf8 (String c s))
    with (Bytes.utf8_char (Py.code c) ++ Bytes.utf8 s)%list.
  rewrite length_app, (IH Hs). unfold Bytes.utf8_char.
  destruct (Z.ltb_spec (Py.code c) 128); [reflexivity|lia].
Qed.

Lemma json_dumps_plain (q : Http.Request) (v : Py.value) :
  Http.data q = Py.json_dumps v -> Pass.plain_body q.
Proof.
  intros E. unfold Pass.plain_body. rewrite E.
  split; [apply json_dumps_printable|].
  unfold Py.len. f_equal. apply utf8_of_printable, json_dumps_printable.
Qed.

(** X8: every request that a pass of the ingestion emitter sends, whether
    the pass returns or raises, has a body of printable ASCII characters
    only, whatever the names and messages in the tree; so the content
    length that is signed, the number of characters of the body, is the
    number of bytes of the body as encoded for the wire. *)
Theorem azure_pass_sends_plain_bodies
    (output : string) (settings : AzureLogWriter.Settings) (w : World) :
  exists new qs,
    final (AzureLogWriter.write output settings w)
    = Reference.logged new (Reference.sent qs w)
    /\ Forall Pass.plain_body qs.
Proof.
  set (R := fun a b : World =>
              exists new qs, b = Reference.logged new (Reference.sent qs a)
                             /\ Forall Pass.plain_body qs).
  assert (Hrefl : forall a, R a a).
  { intros a. exists [], []. split; [|constructor].
    destruct a; unfold Reference.logged, Reference.sent; simpl.
    now rewrite !app_nil_r. }
  assert (Htrans : forall a b d, R a b -> R b d -> R a d).
  { intros a b d (n1 & q1 & -> & F1) (n2 & q2 & -> & F2).
    exists (n1 ++ n2)%list, (q1 ++ q2)%list. split; [apply grow_grow|].
    apply Forall_app. now split. }
  unfold AzureLogWriter.write.
  change (R w (final ((_ <- ResultVisitor.visit_result (tree w)
                             (AzureLogWriterVisitor.__init__ output
                                (AzureLogPublisher.__init__ output
                                   (AzureLogWriter.customer_id settings)
                                   (AzureLogWriter.shared_key settings)
                                   (AzureLogWriter.log_type settings))) ;;
                       ret tt) w))).
  apply bind_final_related; [exact Htrans| |intros; apply Hrefl].
  apply visit_result_related; try assumption; intros; try apply Hrefl.
  - change (ResultVisitor.end_suite v s w0)
      with (AzureLogWriterVisitor.end_suite v s w0).
    destruct (azure_end_suite_final v s w0) as (new & qs & E & Hq).
    exists new, qs. split; [exact E|].
    destruct Hq as [->|(q & -> & D)]; repeat constructor.
    + eapply json_dumps_plain, D.
    + eapply json_dumps_plain, D.
  - change (ResultVisitor.visit_test v x w0)
      with (AzureLogWriterVisitor.visit_test v x w0).
    rewrite azure_visit_test_logs. eexists _, [].
    split; [apply logged_as_grown|constructor].
Qed.

(** ** Keys that were encoded with base64 *)

Lemma below_in_range (k : nat) (a : Z) :
  0 <= a < Z.of_nat k -> In a (map Z.of_nat (seq 0 k)).
Proof.
  intros Ha. apply in_map_iff. exists (Z.to_nat a).
  split; [lia|]. apply in_seq. lia.
Qed.

Lemma checked_below (k : nat) (f : Z -> bool) :
  forallb f (map Z.of_nat (seq 0 k)) = true ->
  forall a, 0 <= a < Z.of_nat k -> f a = true.
Proof.
  intros H a Ha. rewrite forallb_forall in H. now apply H, below_in_range.
Qed.

Lemma checked_below2 (k : nat) (f : Z -> Z -> bool) :
  forallb (fun a => forallb (f a) (map Z.of_nat (seq 0 k))) (map Z.of_nat (seq 0 k))
  = true ->
  forall a b, 0 <= a < Z.of_nat k -> 0 <= b < Z.of_nat k -> f a b = true.
Proof.
  intros H a b Ha Hb.
  apply (checked_below k (f a)); [|exact Hb].
  now apply (checked_below k (fun a => forallb (f a) (map Z.of_nat (seq 0 k)))).
Qed.

Lemma sextet_decodes (v : Z) :
  0 <= v < 64 ->
  Base64.dec (Bytes.code (Base64.enc v)) = Some v
  /\ (Bytes.code (Base64.enc v) =? 61) = false.
Proof.
  intros Hv.
  assert (H : (match Base64.dec (Bytes.code (Base64.enc v)) with
               | Some u => u =? v
               | None => false
               end && negb (Bytes.code (Base64.enc v) =? 61)) = true).
  { apply (checked_below 64
             (fun v => match Base64.dec (Bytes.code (Base64.enc v)) with
                       | Some u => u =? v
                       | None => false
                       end && negb (Bytes.code (Base64.enc v) =? 61)));
      [vm_compute; reflexivity|exact Hv]. }
  apply andb_true_iff in H as (H1 & H2).
  split; [|now apply negb_true_iff].
  destruct (Base64.dec _) as [u|]; [|discriminate H1].
  f_equal. now apply Z.eqb_eq.
Qed.

Lemma enc_is_ascii (v : Z) : (Bytes.code (Base64.enc v) <? 128) = true.
Proof.
  unfold Base64.enc. generalize (Z.to_nat v) as n. intros n.
  do 64 (destruct n as [|n]; [reflexivity|]). reflexivity.
Qed.

(** The four sextets of three bytes, and the bytes put together again. *)
Lemma first_sextet (a : Z) : 0 <= a < 256 -> 0 <= Z.shiftr a 2 < 64.
Proof.
  intros Ha.
  assert (H : ((0 <=? Z.shiftr a 2) && (Z.shiftr a 2 <? 64)) = true)
    by (apply (checked_below 256 (fun a => (0 <=? Z.shiftr a 2) && (Z.shiftr a 2 <? 64)));
        [vm_compute; reflexivity|exact Ha]).
  apply andb_true_iff in H as (H1 & H2). apply Z.leb_le in H1. apply Z.ltb_lt in H2. lia.
Qed.

Lemma second_sextet (a b : Z) :
  0 <= a < 256 -> 0 <= b < 256 ->
  let v := Z.lor (Z.shiftl (Z.land a 3) 4) (Z.shiftr b 4) in
  0 <= v < 64
  /\ Z.lor (Z.shiftl (Z.shiftr a 2) 2) (Z.shiftr v 4) = a
  /\ Z.land v 15 = Z.shiftr b 4.
Proof.
  intros Ha Hb v.
  set (f := fun a b =>
              let v := Z.lor (Z.shiftl (Z.land a 3) 4) (Z.shiftr b 4) in
              (0 <=? v) && (v <? 64)
              && (Z.lor (Z.shiftl (Z.shiftr a 2) 2) (Z.shiftr v 4) =? a)
              && (Z.land v 15 =? Z.shiftr b 4)).
  assert (H : f a b = true)
    by (apply (checked_below2 256 f); [vm_compute; reflexivity|exact Ha|exact Hb]).
  unfold f in H. fold v in H.
  repeat (apply andb_true_iff in H as (H & ?)).
  repeat split; try (apply Z.leb_le; assumption); try (apply Z.ltb_lt; assumption);
    now apply Z.eqb_eq.
Qed.

Lemma third_sextet (b c : Z) :
  0 <= b < 256 -> 0 <= c < 256 ->
  let v := Z.lor (Z.shiftl (Z.land b 15) 2) (Z.shiftr c 6) in
  0 <= v < 64
  /\ Z.lor (Z.shiftl (Z.shiftr b 4) 4) (Z.shiftr v 2) = b
  /\ Z.land v 3 = Z.shiftr c 6.
Proof.
  intros Hb Hc v.
  set (f := fun b c =>
              let v := Z.lor (Z.shiftl (Z.land b 15) 2) (Z.shiftr c 6) in
              (0 <=? v) && (v <? 64)
              && (Z.lor (Z.shiftl (Z.shiftr b 4) 4) (Z.shiftr v 2) =? b)
              && (Z.land v 3 =? Z.shiftr c 6)).
  assert (H : f b c = true)
    by (apply (checked_below2 256 f); [vm_compute; reflexivity|exact Hb|exact Hc]).
  unfold f in H. fold v in H.
  repeat (apply andb_true_iff in H as (H & ?)).
  repeat split; try (apply Z.leb_le; assumption); try (apply Z.ltb_lt; assumption);
    now apply Z.eqb_eq.
Qed.

Lemma fourth_sextet (c : Z) :
  0 <= c < 256 ->
  0 <= Z.land c 63 < 64
  /\ Z.lor (Z.shiftl (Z.shiftr c 6) 6) (Z.land c 63) = c.
Proof.
  intros Hc.
  set (f := fun c => (0 <=? Z.land c 63) && (Z.land c 63 <? 64)
                     && (Z.lor (Z.shiftl (Z.shiftr c 6) 6) (Z.land c 63) =? c)).
  assert (H : f c = true)
    by (apply (checked_below 256 f); [vm_compute; reflexivity|exact Hc]).
  unfold f in H.
  repeat (apply andb_true_iff in H as (H & ?)).
  repeat split; try (apply Z.leb_le; assumption); try (apply Z.ltb_lt; assumption);
    now apply Z.eqb_eq.
Qed.

Lemma second_sextet_alone (a : Z) :
  0 <= a < 256 ->
  let v := Z.shiftl (Z.land a 3) 4 in
  0 <= v < 64 /\ Z.lor (Z.shiftl (Z.shiftr a 2) 2) (Z.shiftr v 4) = a.
Proof.
  intros Ha v.
  set (f := fun a => let v := Z.shiftl (Z.land a 3) 4 in
                     (0 <=? v) && (v <? 64)
                     && (Z.lor (Z.shiftl (Z.shiftr a 2) 2) (Z.shiftr v 4) =? a)).
  assert (H : f a = true)
    by (apply (checked_below 256 f); [vm_compute; reflexivity|exact Ha]).
  unfold f in H. fold v in H.
  repeat (apply andb_true_iff in H as (H & ?)).
  repeat split; try (apply Z.leb_le; assumption); try (apply Z.ltb_lt; assumption);
    now apply Z.eqb_eq.
Qed.

Lemma third_sextet_alone (b : Z) :
  0 <= b < 256 ->
  let v := Z.shiftl (Z.land b 15) 2 in
  0 <= v < 64 /\ Z.lor (Z.shiftl (Z.shiftr b 4) 4) (Z.shiftr v 2) = b.
Proof.
  intros Hb v.
  set (f := fun b => let v := Z.shiftl (Z.land b 15) 2 in
                     (0 <=? v) && (v <? 64)
                     && (Z.lor (Z.shiftl (Z.shiftr b 4) 4) (Z.shiftr v 2) =? b)).
  assert (H : f b = true)
    by (apply (checked_below 256 f); [vm_compute; reflexivity|exact Hb]).
  unfold f in H. fold v in H.
  repeat (apply andb_true_iff in H as (H & ?)).
  repeat split; try (apply Z.leb_le; assumption); try (apply Z.ltb_lt; assumption);
    now apply Z.eqb_eq.
Qed.

(** One character of data moves the decoder on by one position. *)
Lemma a2b_step0 (v : Z) (cs : list Z) (l pd : Z) (o : list Z) :
  0 <= v < 64 ->
  Base64.a2b (Bytes.code (Base64.enc v) :: cs)
    {| Base64.quad_pos := 0; Base64.leftchar := l; Base64.pads := pd; Base64.out := o |}
  = Base64.a2b cs
      {| Base64.quad_pos := 1; Base64.leftchar := v; Base64.pads := 0; Base64.out := o |}.
Proof.
  intros Hv. destruct (sextet_decodes v Hv) as (Hd & H61).
  cbn [Base64.a2b]. rewrite H61, Hd. reflexivity.
Qed.

Lemma a2b_step1 (v : Z) (cs : list Z) (l pd : Z) (o : list Z) :
  0 <= v < 64 ->
  Base64.a2b (Bytes.code (Base64.enc v) :: cs)
    {| Base64.quad_pos := 1; Base64.leftchar := l; Base64.pads := pd; Base64.out := o |}
  = Base64.a2b cs
      {| Base64.quad_pos := 2; Base64.leftchar := Z.land v 15; Base64.pads := 0;
         Base64.out := Z.lor (Z.shiftl l 2) (Z.shiftr v 4) :: o |}.
Proof.
  intros Hv. destruct (sextet_decodes v Hv) as (Hd & H61).
  cbn [Base64.a2b]. rewrite H61, Hd. reflexivity.
Qed.

Lemma a2b_step2 (v : Z) (cs : list Z) (l pd : Z) (o : list Z) :
  0 <= v < 64 ->
  Base64.a2b (Bytes.code (Base64.enc v) :: cs)
    {| Base64.quad_pos := 2; Base64.leftchar := l; Base64.pads := pd; Base64.out := o |}
  = Base64.a2b cs
      {| Base64.quad_pos := 3; Base64.leftchar := Z.land v 3; Base64.pads := 0;
         Base64.out := Z.lor (Z.shiftl l 4) (Z.shiftr v 2) :: o |}.
Proof.
  intros Hv. destruct (sextet_decodes v Hv) as (Hd & H61).
  cbn [Base64.a2b]. rewrite H61, Hd. reflexivity.
Qed.

Lemma a2b_step3 (v : Z) (cs : list Z) (l pd : Z) (o : list Z) :
  0 <= v < 64 ->
  Base64.a2b (Bytes.code (Base64.enc v) :: cs)
    {| Base64.quad_pos := 3; Base64.leftchar := l; Base64.pads := pd; Base64.out := o |}
  = Base64.a2b cs
      {| Base64.quad_pos := 0; Base64.leftchar := 0; Base64.pads := 0;
         Base64.out := Z.lor (Z.shiftl l 6) v :: o |}.
Proof.
  intros Hv. destruct (sextet_decodes v Hv) as (Hd & H61).
  cbn [Base64.a2b]. rewrite H61, Hd. reflexivity.
Qed.

(** Induction over a list three elements at a time. *)
Lemma list_by_threes {A : Type} (P : list A -> Prop) :
  P [] ->
  (forall a, P [a]) ->
  (forall a b, P [a; b]) ->
  (forall a b c rest, P rest -> P (a :: b :: c :: rest)) ->
  forall l, P l.
Proof.
  intros H0 H1 H2 H3.
  fix IH 1. intros [|a [|b [|c rest]]].
  - exact H0.
  - apply H1.
  - apply H2.
  - apply H3, IH.
Qed.

Lemma b64encode_is_ascii (bs : list Z) :
  forallb (fun c => c <? 128) (Bytes.codes (Base64.b64encode bs)) = true.
Proof.
  induction bs as [ | a | a b | a b c rest IH] using list_by_threes.
  - reflexivity.
  - cbn [Base64.b64encode]. unfold Bytes.codes.
    cbn [list_ascii_of_string map forallb].
    rewrite !enc_is_ascii. reflexivity.
  - cbn [Base64.b64encode]. unfold Bytes.codes.
    cbn [list_ascii_of_string map forallb].
    rewrite !enc_is_ascii. reflexivity.
  - cbn [Base64.b64encode]. unfold Bytes.codes in *.
    cbn [list_ascii_of_string map forallb].
    rewrite !enc_is_ascii, IH. reflexivity.
Qed.

Lemma a2b_of_encoded (bs : list Z) :
  Pass.bytes bs ->
  forall o,
    Base64.a2b (Bytes.codes (Base64.b64encode bs))
      {| Base64.quad_pos := 0; Base64.leftchar := 0; Base64.pads := 0; Base64.out := o |}
    = Some (rev o ++ bs)%list.
Proof.
  induction bs as [ | a | a b | a b c rest IH] using list_by_threes; intros Hbs o.
  - simpl. now rewrite app_nil_r.
  - inversion Hbs as [|? ? Ha _]; subst.
    destruct (second_sextet_alone a Ha) as (Hv2 & E2).
    cbn [Base64.b64encode]. unfold Bytes.codes.
    cbn [list_ascii_of_string map].
    change (map Bytes.code (list_ascii_of_string "=="))
      with [61; 61].
    rewrite (a2b_step0 _ _ _ _ _ (first_sextet a Ha)), (a2b_step1 _ _ _ _ _ Hv2), E2.
    reflexivity.
  - inversion Hbs as [|? ? Ha Hbs']; subst.
    inversion Hbs' as [|? ? Hb _]; subst.
    destruct (second_sextet a b Ha Hb) as (Hv2 & E2 & L2).
    destruct (third_sextet_alone b Hb) as (Hv3 & E3).
    cbn [Base64.b64encode]. unfold Bytes.codes.
    cbn [list_ascii_of_string map].
    change (map Bytes.code (list_ascii_of_string "=")) with [61].
    rewrite (a2b_step0 _ _ _ _ _ (first_sextet a Ha)), (a2b_step1 _ _ _ _ _ Hv2),
      (a2b_step2 _ _ _ _ _ Hv3), E2, L2, E3.
    simpl. now rewrite <- !app_assoc.
  - inversion Hbs as [|? ? Ha Hbs']; subst.
    inversion Hbs' as [|? ? Hb Hbs'']; subst.
    inversion Hbs'' as [|? ? Hc Hrest]; subst.
    destruct (second_sextet a b Ha Hb) as (Hv2 & E2 & L2).
    destruct (third_sextet b c Hb Hc) as (Hv3 & E3 & L3).
    destruct (fourth_sextet c Hc) as (Hv4 & E4).
    cbn [Base64.b64encode]. unfold Bytes.codes in *.
    cbn [list_ascii_of_string map].
    rewrite (a2b_step0 _ _ _ _ _ (first_sextet a Ha)), (a2b_step1 _ _ _ _ _ Hv2),
      (a2b_step2 _ _ _ _ _ Hv3), (a2b_step3 _ _ _ _ _ Hv4), E2, L2, E3, L3, E4.
    rewrite (IH Hrest). simpl. now rewrite <- !app_assoc.
Qed.

Lemma b64decode_b64encode (bs : list Z) :
  Pass.bytes bs -> Base64.b64decode (Base64.b64encode bs) = inr bs.
Proof.
  intros Hbs. unfold Base64.b64decode.
  rewrite b64encode_is_ascii, (a2b_of_encoded bs Hbs). reflexivity.
Qed.

(** X9: for every publisher whose shared key is the base64 text of some
    bytes, and for arguments that are texts of code points up to 255 (the
    strings of this development, all of which UTF-8 encodes), the key
    decodes to exactly those bytes, without [binascii.Error], and
    [build_signature] returns the signature under them. *)
Theorem build_signature_accepts_encoded_keys
    (self : AzureLogPublisher.t) (raw : list Z) (date : string)
    (content_length : Z) (method content_type resource : string) :
  Pass.bytes raw ->
  AzureLogPublisher.shared_key self = Base64.b64encode raw ->
  Base64.b64decode (AzureLogPublisher.shared_key self) = inr raw
  /\ AzureLogPublisher.build_signature self date content_length method
       content_type resource
     = inr ("SharedKey " ++ AzureLogPublisher.customer_id self ++ ":" ++
            Base64.b64encode
              (Hmac.hmac_sha256 raw
                 (Bytes.utf8
                    (AzureLogPublisher.string_to_hash method content_length
                       content_type ("x-ms-date:" ++ date) resource)))).
Proof.
  intros Hraw Hkey.
  assert (Hd : Base64.b64decode (AzureLogPublisher.shared_key self) = inr raw)
    by (rewrite Hkey; now apply b64decode_b64encode).
  split; [exact Hd|].
  rewrite build_signature_cases, Hd. reflexivity.
Qed.

(** The theorem at a key of five bytes, which takes padding. *)
Lemma build_signature_accepts_encoded_keys_witness :
  let self := AzureLogPublisher.__init__ "azure.log" "workspace-1" "Zm9vYmE=" "RobotLog" in
  Pass.bytes [102; 111; 111; 98; 97]
  /\ AzureLogPublisher.shared_key self = Base64.b64encode [102; 111; 111; 98; 97]
  /\ Base64.b64decode (AzureLogPublisher.shared_key self) = inr [102; 111; 111; 98; 97]
  /\ exists authorization,
       AzureLogPublisher.build_signature self Reference.fixed_date 2 "POST"
         "application/json" "/api/logs" = inr authorization.
Proof.
  intros self.
  assert (Hb : Pass.bytes [102; 111; 111; 98; 97]) by (repeat constructor; lia).
  assert (Hk : AzureLogPublisher.shared_key self = Base64.b64encode [102; 111; 111; 98; 97])
    by reflexivity.
  split; [exact Hb|]. split; [exact Hk|].
  destruct (build_signature_accepts_encoded_keys self [102; 111; 111; 98; 97]
              Reference.fixed_date 2 "POST" "application/json" "/api/logs" Hb Hk)
    as (Hd & Hs).
  split; [exact Hd|]. eexists. exact Hs.
Defined.

(** ** The shape of a signature *)

Lemma round_length (st : list Z) (kw : Z * Z) :
  List.length st = 8%nat -> List.length (Hashlib.round st kw) = 8%nat.
Proof.
  intros H.
  do 9 (destruct st as [|? st]; try discriminate H). reflexivity.
Qed.

Lemma rounds_length (kws : list (Z * Z)) :
  forall st, List.length st = 8%nat ->
             List.length (fold_left Hashlib.round kws st) = 8%nat.
Proof.
  induction kws as [|kw kws IH]; intros st H; [exact H|].
  simpl. apply IH. now apply round_length.
Qed.

Lemma compress_length (h block : list Z) :
  List.length h = 8%nat -> List.length (Hashlib.compress h block) = 8%nat.
Proof.
  intros H. unfold Hashlib.compress.
  rewrite length_map, length_combine, rounds_length by exact H.
  rewrite H. reflexivity.
Qed.

Lemma blocks_length (fuel : nat) :
  forall h bs, List.length h = 8%nat ->
               List.length (Hashlib.blocks fuel h bs) = 8%nat.
Proof.
  induction fuel as [|fuel IH]; intros h bs H; [exact H|].
  simpl. destruct bs; [exact H|]. apply IH. now apply compress_length.
Qed.

Lemma sha256_length (msg : list Z) : List.length (Hashlib.sha256 msg) = 32%nat.
Proof.
  unfold Hashlib.sha256.
  assert (H0 : List.length Hashlib.H0 = 8%nat) by (vm_compute; reflexivity).
  pose proof (blocks_length (List.length (Hashlib.pad msg)) Hashlib.H0
                (Hashlib.pad msg) H0) as H.
  destruct (Hashlib.blocks _ _ _) as [|w0 l]; [discriminate H|].
  do 8 (destruct l as [|? l]; try discriminate H). reflexivity.
Qed.

Lemma hmac_sha256_length (key msg : list Z) :
  List.length (Hmac.hmac_sha256 key msg) = 32%nat.
Proof. unfold Hmac.hmac_sha256. apply sha256_length. Qed.

Lemma b64encode_of_digest (digest : list Z) :
  List.length digest = 32%nat ->
  String.length (Base64.b64encode digest) = 44%nat
  /\ substring 43 1 (Base64.b64encode digest) = "=".
Proof.
  intros H.
  do 33 (destruct digest as [|? digest]; try discriminate H).
  split; reflexivity.
Qed.

(** X10: whenever [build_signature] returns, its result is ["SharedKey "],
    the customer id, a colon and a base64 text of exactly 44 characters,
    the last of them the padding character: the digest always has 32
    bytes, whatever the key and the inputs. *)
Theorem build_signature_has_fixed_shape
    (self : AzureLogPublisher.t) (date : string) (content_length : Z)
    (method content_type resource authorization : string) :
  AzureLogPublisher.build_signature self date content_length method
    content_type resource = inr authorization ->
  exists encoded_hash,
    authorization
    = "SharedKey " ++ AzureLogPublisher.customer_id self ++ ":" ++ encoded_hash
    /\ String.length encoded_hash = 44%nat
    /\ substring 43 1 encoded_hash = "="
    /\ String.length authorization
       = (55 + String.length (AzureLogPublisher.customer_id self))%nat.
Proof.
  rewrite build_signature_cases.
  destruct (Base64.b64decode _) as [e|key]; [discriminate|].
  intros [= <-]. unfold Reference.signature.
  eexists. split; [reflexivity|].
  destruct (b64encode_of_digest _ (hmac_sha256_length key
              (Bytes.utf8 (Reference.canonical_string method content_length
                             content_type date resource)))) as (L & P).
  split; [exact L|]. split; [exact P|].
  rewrite !append_length, L. simpl. lia.
Qed.

(** The theorem at the fixed inputs. *)
Lemma build_signature_has_fixed_shape_witness :
  AzureLogPublisher.build_signature Reference.fixed_publisher Reference.fixed_date 42
    "POST" "application/json" "/api/logs" = inr Reference.fixed_signature
  /\ exists encoded_hash,
       Reference.fixed_signature = "SharedKey " ++ "workspace-1" ++ ":" ++ encoded_hash
       /\ String.length encoded_hash = 44%nat
       /\ substring 43 1 encoded_hash = "="
       /\ String.length Reference.fixed_signature = (55 + 11)%nat.
Proof.
  assert (H : AzureLogPublisher.build_signature Reference.fixed_publisher
                Reference.fixed_date 42 "POST" "application/json" "/api/logs"
              = inr Reference.fixed_signature) by (vm_compute; reflexivity).
  split; [exact H|].
  exact (build_signature_has_fixed_shape Reference.fixed_publisher
           Reference.fixed_date 42 "POST" "application/json" "/api/logs"
           Reference.fixed_signature H).
Defined.

(** ** Passes whose requests are all accepted *)

Lemma accepted_response_record (logger : string) (r : Http.Response) :
  200 <= Http.status_code r <= 299 ->
  Reference.response_record logger r
  = Logging.MakeRecord logger Logging.INFO (Py.VStr "Accepted").
Proof.
  intros H. unfold Reference.response_record.
  replace ((200 <=? Http.status_code r) && (Http.status_code r <=? 299)) with true;
    [reflexivity|].
  symmetry. apply andb_true_iff. split; apply Z.leb_le; lia.
Qed.

Lemma azure_end_suite_accepted (v : AzureLogWriterVisitor.t) (s : Suite.t) (w : World) :
  Pass.accepts w ->
  exists new qs,
    final (AzureLogWriterVisitor.end_suite v s w)
    = Reference.logged new (Reference.sent qs w)
    /\ Forall (fun r => Logging.level r = Logging.INFO) new.
Proof.
  intros Hacc.
  pose proof (azure_end_suite_unfolds v s w) as U. cbv zeta in U. rewrite U. clear U.
  match goal with
  | |- context [AzureLogPublisher.post_data ?p ?b ?t ?w0] =>
      pose proof (post_data_cases p b t w0) as C
  end.
  cbv zeta in C.
  destruct (Base64.b64decode _) as [e|key].
  - rewrite C. simpl. eexists _, []. split; [apply logged_as_grown|].
    repeat constructor.
  - match type of C with
    | match network ?w1 ?n ?q with _ => _ end =>
        destruct (Hacc n q) as (r & Hr & Hs);
        change (network w1 n q) with (network w n q) in C;
        rewrite Hr in C; rewrite C; simpl;
        exists ([Logging.MakeRecord (AzureLogWriterVisitor._writer v) Logging.INFO
                   (Py.VStr ("testsuite " ++ Py.json_dumps
                      (AzureLogWriterVisitor.suite_attrs s
                         (AzureLogWriterVisitor.testcases v))))] ++
                [Reference.response_record
                   (AzureLogPublisher.logger (AzureLogWriterVisitor.azure_publisher v))
                   r])%list, [q]
    end.
    split.
    + unfold Reference.logged, Reference.sent; simpl. now rewrite <- app_assoc.
    + rewrite (accepted_response_record _ r Hs). repeat constructor.
Qed.

(** X12: when every request is answered with a status from 200 to 299, a
    pass of the ingestion emitter writes records at level INFO only: no
    error is logged, whatever the tree and whether or not the shared key
    decodes. *)
Theorem azure_pass_logs_no_error_when_accepted
    (output : string) (settings : AzureLogWriter.Settings) (w : World) :
  Pass.accepts w ->
  exists new qs,
    final (AzureLogWriter.write output settings w)
    = Reference.logged new (Reference.sent qs w)
    /\ Forall (fun r => Logging.level r = Logging.INFO) new.
Proof.
  set (R := fun a b : World =>
              Pass.accepts a ->
              exists new qs, b = Reference.logged new (Reference.sent qs a)
                             /\ Forall (fun r => Logging.level r = Logging.INFO) new).
  assert (Hrefl : forall a, R a a).
  { intros a _. exists [], []. split; [|constructor].
    destruct a; unfold Reference.logged, Reference.sent; simpl.
    now rewrite !app_nil_r. }
  assert (Htrans : forall a b d, R a b -> R b d -> R a d).
  { intros a b d Hab Hbd Ha.
    destruct (Hab Ha) as (n1 & q1 & -> & F1).
    destruct Hbd as (n2 & q2 & -> & F2); [intros n q; apply Ha|].
    exists (n1 ++ n2)%list, (q1 ++ q2)%list. split; [apply grow_grow|].
    apply Forall_app. now split. }
  unfold AzureLogWriter.write.
  change (R w (final ((_ <- ResultVisitor.visit_result (tree w)
                             (AzureLogWriterVisitor.__init__ output
                                (AzureLogPublisher.__init__ output
                                   (AzureLogWriter.customer_id settings)
                                   (AzureLogWriter.shared_key settings)
                                   (AzureLogWriter.log_type settings))) ;;
                       ret tt) w))).
  apply bind_final_related; [exact Htrans| |intros; apply Hrefl].
  apply visit_result_related; try assumption; intros; try apply Hrefl.
  - intros Hacc.
    change (ResultVisitor.end_suite v s w0)
      with (AzureLogWriterVisitor.end_suite v s w0).
    now apply azure_end_suite_accepted.
  - intros _.
    change (ResultVisitor.visit_test v x w0)
      with (AzureLogWriterVisitor.visit_test v x w0).
    rewrite azure_visit_test_logs. eexists _, [].
    split; [apply logged_as_grown|repeat constructor].
Qed.

(** The theorem at the small run with every request accepted. *)
Lemma azure_pass_logs_no_error_when_accepted_witness :
  Pass.accepts (Scenario.world Scenario.accepted)
  /\ exists new qs,
       final (AzureLogWriter.write "azure.log" Scenario.settings
                (Scenario.world Scenario.accepted))
       = Reference.logged new (Reference.sent qs (Scenario.world Scenario.accepted))
       /\ Forall (fun r => Logging.level r = Logging.INFO) new.
Proof.
  assert (H : Pass.accepts (Scenario.world Scenario.accepted)).
  { intros n q. eexists. split; [reflexivity|]. simpl. lia. }
  split; [exact H|].
  exact (azure_pass_logs_no_error_when_accepted "azure.log" Scenario.settings
           (Scenario.world Scenario.accepted) H).
Defined.
